(** * Nexora bot server: the structured-query engine and the message pipeline

    A shallow embedding of
    - [src/agents/smart_sql_agent.py] (class [SmartDataAgent]): table-name
      resolution, clean-up of the generated query, execution and rendering;
    - [src/routes/projectRoutes.py] ([get_chat_history], [send_message]):
      the history window and the two-branch pipeline with suppression and
      merge.

    Python strings are sequences of code points; here a character is a code
    point below 256 ([ascii]).  Calls that leave the process (the LLM, the
    SQLite cursor, object storage, the message table) are taken from a record
    of outcomes, and every such call is appended to a log, so that "was not
    executed" is a statement about the log. *)

From Stdlib Require Import ZArith NArith List Bool Ascii String Lia.
From Stdlib Require Import Numbers.DecimalString.
From Stdlib Require PrimFloat.
Import ListNotations.
Open Scope string_scope.
Open Scope list_scope.

(** ** Python string primitives *)

Module PyStr.

(** [str.lower] on one code point below 256: A-Z, and the Latin-1 capitals
    (U+00C0..U+00DE without U+00D7), move up by 32. *)
Definition lower_char (c : ascii) : ascii :=
  let n := N_of_ascii c in
  if (((65 <=? n) && (n <=? 90)) ||
      ((192 <=? n) && (n <=? 222) && negb (n =? 215)))%N
  then ascii_of_N (n + 32) else c.

Fixpoint lower (s : string) : string :=
  match s with
  | EmptyString => EmptyString
  | String c s' => String (lower_char c) (lower s')
  end.

(** [sub in s] *)
Fixpoint contains (sub s : string) : bool :=
  prefix sub s ||
  match s with
  | EmptyString => false
  | String _ s' => contains sub s'
  end.

(** [s.endswith(suf)] *)
Definition endswith (s suf : string) : bool :=
  (length suf <=? length s)%nat &&
  (substring (length s - length suf) (length suf) s =? suf).

(** [s.split(sep)] for a one-character separator: never empty. *)
Fixpoint split (sep : ascii) (s : string) : list string :=
  match s with
  | EmptyString => [EmptyString]
  | String c s' =>
      if Ascii.eqb c sep then EmptyString :: split sep s'
      else match split sep s' with
           | h :: t => String c h :: t
           | [] => [String c EmptyString]
           end
  end.

(** [l[-1]] and [l[0]] on the result of a split *)
Definition last_part (l : list string) : string := last l EmptyString.
Definition first_part (l : list string) : string := hd EmptyString l.

(** [sep.join(l)] *)
Definition join (sep : string) (l : list string) : string := concat sep l.

(** [s * n]: the empty string when [n <= 0]. *)
Fixpoint repeat_nat (s : string) (n : nat) : string :=
  match n with
  | O => EmptyString
  | S k => s ++ repeat_nat s k
  end.

Definition repeat (s : string) (n : Z) : string := repeat_nat s (Z.to_nat n).

(** [len(s)] *)
Definition len (s : string) : Z := Z.of_nat (length s).

(** [str(n)] for an [int] *)
Definition str_int (z : Z) : string := NilZero.string_of_int (Z.to_int z).

(** [str.isspace] on one code point below 256 *)
Definition is_space (c : ascii) : bool :=
  let n := N_of_ascii c in
  (((9 <=? n) && (n <=? 13)) || ((28 <=? n) && (n <=? 32)) ||
   (n =? 133) || (n =? 160))%N.

Fixpoint lstrip (s : string) : string :=
  match s with
  | EmptyString => EmptyString
  | String c s' => if is_space c then lstrip s' else s
  end.

Fixpoint rstrip (s : string) : string :=
  match s with
  | EmptyString => EmptyString
  | String c s' =>
      match rstrip s' with
      | EmptyString => if is_space c then EmptyString else String c EmptyString
      | r => String c r
      end
  end.

(** [s.strip()] *)
Definition strip (s : string) : string := rstrip (lstrip s).

(** [s.replace(pat, "")] for a non-empty [pat]: occurrences are found from
    the left and do not overlap.  [skip] counts the characters of the
    occurrence being dropped that are still ahead. *)
Fixpoint remove_from (pat : string) (skip : nat) (s : string) : string :=
  match s with
  | EmptyString => EmptyString
  | String c s' =>
      match skip with
      | S k => remove_from pat k s'
      | O => if prefix pat s then remove_from pat (length pat - 1) s'
             else String c (remove_from pat 0 s')
      end
  end.

Definition remove_all (pat s : string) : string := remove_from pat 0 s.

(** A non-empty [str] is truthy. *)
Definition truthy (s : string) : bool :=
  match s with EmptyString => false | _ => true end.

End PyStr.

(** ** Python dictionaries that keep insertion order *)

Module PyDict.

Section Dict.
Context {V : Type}.

Definition dict := list (string * V).

(** [d[k] = v]: an existing key keeps its place and takes the new value, a
    new key goes to the end. *)
Fixpoint set (k : string) (v : V) (d : dict) : dict :=
  match d with
  | [] => [(k, v)]
  | (k', v') :: d' =>
      if k' =? k then (k', v) :: d' else (k', v') :: set k v d'
  end.

Fixpoint get (k : string) (d : dict) : option V :=
  match d with
  | [] => None
  | (k', v') :: d' => if k' =? k then Some v' else get k d'
  end.

Definition set_pair (d : dict) (kv : string * V) : dict :=
  set (fst kv) (snd kv) d.

(** [dict(pairs)] *)
Definition of_pairs (kvs : list (string * V)) : dict :=
  fold_left set_pair kvs [].

Definition keys (d : dict) : list string := map fst d.
Definition values (d : dict) : list V := map snd d.

End Dict.

Arguments dict V : clear implicits.

End PyDict.

(** ** Exceptions, the log of outside calls, and the monad of a request *)

Module Effects.

Import PyStr.

Inductive pyexn : Type :=
| HTTPException (status_code : Z) (detail : string)
| Exception (msg : string).

(** [str(e)] *)
Definition str_exn (e : pyexn) : string :=
  match e with
  | HTTPException s d => str_int s ++ ": " ++ d
  | Exception m => m
  end.

Inductive outcome (A : Type) : Type :=
| Returns (a : A)
| Raises (e : pyexn).

Arguments Returns {A} a.
Arguments Raises {A} e.

(** A JSON scalar as the stores return it. *)
Inductive jval : Type :=
| JNull
| JStr (s : string).

(** A row of the [messages] table.  A field is [None] when the row has no
    such key.  The table is kept in the order of [created_at]. *)
Record message : Type := mkMessage {
  msg_id : string;
  msg_chat_id : string;
  msg_clerk_id : string;
  msg_role : option jval;
  msg_content : option jval;
  msg_citations : list string
}.

(** Every call that leaves the process. *)
Inductive event : Type :=
| ReadSchema (path : string)
| ReadFile (path : string)
| AskFilter (user_query : string)
| AskSql (user_query : string)
| CursorExecute (sql : string)
| InsertMessage (role content : string)
| SelectDocuments
| MakeDirs (path : string)
| Download (s3_key local_path : string)
| SelectSettings
| SelectMessages
| CreateRagAgent (agent_type : string)
| InvokeRagAgent (content : string).

Record world : Type := mkWorld {
  messages : list message;
  log : list event
}.

Definition M (A : Type) : Type := world -> outcome A * world.

Definition ret {A} (a : A) : M A := fun w => (Returns a, w).

Definition raise {A} (e : pyexn) : M A := fun w => (Raises e, w).

Definition bind {A B} (m : M A) (k : A -> M B) : M B :=
  fun w =>
    match m w with
    | (Returns a, w') => k a w'
    | (Raises e, w') => (Raises e, w')
    end.

(** [try: m  except Exception as e: h e]; what [m] did to the world before
    it raised stays done. *)
Definition try_except {A} (m : M A) (h : pyexn -> M A) : M A :=
  fun w =>
    match m w with
    | (Returns a, w') => (Returns a, w')
    | (Raises e, w') => h e w'
    end.

(** An outside call: logged, then its outcome. *)
Definition call {A} (ev : event) (o : outcome A) : M A :=
  fun w => (o, mkWorld (messages w) (log w ++ [ev])).

End Effects.

Declare Scope py_scope.
Delimit Scope py_scope with py.
Notation "x <- m ;; k" := (Effects.bind m (fun x => k))
  (at level 61, m at next level, right associativity) : py_scope.
Notation "m ;;; k" := (Effects.bind m (fun _ => k))
  (at level 61, right associativity) : py_scope.

Definition nl : string := String (ascii_of_nat 10) EmptyString.

(** ** src/agents/smart_sql_agent.py *)

Module SmartSqlAgent.

Import PyStr Effects.
Local Open Scope py_scope.

(** The declared schema document. *)
Record column_spec : Type := mkColumn {
  name : string;
  col_definition : string;
  data_type : string;
  key_type : string;
  example : string
}.

Record table_spec : Type := mkTable {
  table_name : string;
  definition : string;
  columns : list column_spec
}.

(** [tables] is [None] when the document has no ["tables"] key. *)
Record schema : Type := mkSchema {
  tables : option (list table_spec)
}.

(** A value in a result row.  [SShown] is a REAL or BLOB value, kept as the
    text [str] gives it. *)
Inductive sqlval : Type :=
| SNull
| SInt (z : Z)
| SText (s : string)
| SShown (s : string).

Definition str_val (v : sqlval) : string :=
  match v with
  | SNull => "None"
  | SInt z => str_int z
  | SText s => s
  | SShown s => s
  end.

Definition row := list sqlval.

Record frame : Type := mkFrame {
  frame_columns : list string;
  frame_rows : list row
}.

(** The in-memory database: table name to contents. *)
Definition store := PyDict.dict frame.

(** The JSON the filter step parsed, kept serialised. *)
Definition filtered_schema := string.

(** What the world answers to the agent. *)
Record services : Type := mkServices {
  json_load : string -> outcome schema;
  read_csv : string -> outcome frame;
  read_excel : string -> outcome frame;
  to_sql_reply : store -> string -> frame -> outcome unit;
  filter_reply : schema -> string -> outcome filtered_schema;
  sql_reply : filtered_schema -> string -> outcome string;
  cursor_run : store -> string -> outcome (option (list string * list row))
}.

Record agent : Type := mkAgent {
  file_paths : list string;
  agent_schema : schema;
  conn : store
}.

(** [path.split('/')[-1].split('\\')[-1].split('.')[0].lower()] *)
Definition simple_filename (path : string) : string :=
  lower
    (first_part
       (split "."
          (last_part (split "\" (last_part (split "/" path)))))).

(** The loop over [self.schema["tables"]], left at the first match. *)
Fixpoint match_tables (ts : list table_spec) (simple : string)
  : option string :=
  match ts with
  | [] => None
  | table_def :: rest =>
      let schema_name := lower (table_name table_def) in
      if contains schema_name simple || contains simple schema_name
      then Some schema_name
      else match_tables rest simple
  end.

Definition matched_table_name (sc : schema) (simple : string)
  : option string :=
  match tables sc with
  | Some ts => match_tables ts simple
  | None => None
  end.

(** [if matched_table_name: ... else: table_name = simple_filename] *)
Definition resolve_table_name (sc : schema) (path : string) : string :=
  let simple := simple_filename path in
  match matched_table_name sc simple with
  | Some n => if truthy n then n else simple
  | None => simple
  end.

(** [df.to_sql(table_name, self.conn, index=False, if_exists='replace')]:
    the table of that name is replaced by the frame, unless pandas or SQLite
    refuse the name or the frame (an empty name, a name SQLite reserves, two
    columns of one name); what they answer depends on the connection as it
    is, the name and the frame.  The connection is in memory: the write
    leaves no entry in the log, its effect is the store. *)
Definition to_sql (svc : services) (table_name : string) (df : frame)
  (db : store) : M store :=
  fun w =>
    match to_sql_reply svc db table_name df with
    | Returns _ => (Returns (PyDict.set table_name df db), w)
    | Raises e => (Raises e, w)
    end.

(** [_load_data_to_sqlite]: the loop over [self.file_paths]. *)
Fixpoint load_data_to_sqlite (svc : services) (sc : schema)
  (paths : list string) (db : store) : M store :=
  match paths with
  | [] => ret db
  | path :: rest =>
      if endswith path ".csv" then
        df <- call (ReadFile path) (read_csv svc path) ;;
        db' <- to_sql svc (resolve_table_name sc path) df db ;;
        load_data_to_sqlite svc sc rest db'
      else if endswith path ".xlsx" || endswith path ".xls" then
        df <- call (ReadFile path) (read_excel svc path) ;;
        db' <- to_sql svc (resolve_table_name sc path) df db ;;
        load_data_to_sqlite svc sc rest db'
      else load_data_to_sqlite svc sc rest db
  end.

(** [create_smart_agent], that is [SmartDataAgent.__init__]. *)
Definition create_smart_agent (svc : services) (paths : list string)
  (schema_json_path : string) : M agent :=
  sc <- call (ReadSchema schema_json_path) (json_load svc schema_json_path) ;;
  db <- load_data_to_sqlite svc sc paths [] ;;
  ret (mkAgent paths sc db).

Definition filter_schema (svc : services) (self : agent)
  (user_query : string) : M filtered_schema :=
  call (AskFilter user_query) (filter_reply svc (agent_schema self) user_query).

Definition fence_sql : string := "```sql".
Definition fence : string := "```".

(** [sql_query.replace("```sql", "").replace("```", "").strip()] *)
Definition cleanup (sql_query : string) : string :=
  strip (remove_all fence (remove_all fence_sql sql_query)).

Definition generate_sql (svc : services) (self : agent)
  (user_query : string) (fs : filtered_schema) : M string :=
  sql_query <- call (AskSql user_query) (sql_reply svc fs user_query) ;;
  ret (cleanup sql_query).

Definition sentinel : string := "NO_SQL_POSSIBLE".

Definition apology : string :=
  "I apologize, but I could not generate a valid SQL query to answer your question based on the provided schema/data. The question might clearly require information not present in the tables.".

(** What [execute_and_answer] returns: the dictionary, or the string of the
    [except] branch. *)
Inductive reply : Type :=
| Dict (answer sql : string) (data : list (PyDict.dict sqlval))
| Str (s : string).

(** [data_result] of a cursor: [description] is [None] (or empty) for a
    statement that yields no columns. *)
Definition data_of_cursor (cur : option (list string * list row))
  : list (PyDict.dict sqlval) :=
  match cur with
  | Some (c :: cs, results) =>
      map (fun r => PyDict.of_pairs (combine (c :: cs) r)) results
  | _ => []
  end.

Definition sum_Z (l : list Z) : Z := fold_left Z.add l 0%Z.

(** The text table built from [data_result]. *)
Definition render_table (data_result : list (PyDict.dict sqlval)) : string :=
  match data_result with
  | [] => ""
  | first :: _ =>
      let headers := PyDict.keys first in
      let line1 := join " | " headers in
      let line2 :=
        repeat "-"
          (sum_Z (map len headers) + 3 * (Z.of_nat (List.length headers) - 1))%Z in
      let body :=
        map (fun r => join " | " (map str_val (PyDict.values r))) data_result in
      join nl (line1 :: line2 :: body)
  end.

Definition execute_and_answer (svc : services) (self : agent)
  (user_query : string) : M reply :=
  try_except
    (fs <- filter_schema svc self user_query ;;
     sql <- generate_sql svc self user_query fs ;;
     if contains sentinel sql then ret (Dict apology sql [])
     else
       cur <- call (CursorExecute sql) (cursor_run svc (conn self) sql) ;;
       let data_result := data_of_cursor cur in
       let text_table := render_table data_result in
       ret (Dict ("Executed SQL: `" ++ sql ++ "`" ++ nl ++ nl ++ text_table)
                 sql data_result))
    (fun e =>
       ret (Str ("Error executing SQL or processing request: " ++ str_exn e))).

End SmartSqlAgent.

(** ** src/routes/projectRoutes.py *)

Module ProjectRoutes.

Import PyStr Effects.
Local Open Scope py_scope.

(** A row of [project_documents]. *)
Record document : Type := mkDocument {
  filename : string;
  s3_key : string
}.

(** A row of [project_settings]: [agent_type] is [None] when the key is
    absent. *)
Record settings_row : Type := mkSettings {
  agent_type : option jval
}.

(** One entry of the history handed to the agent. *)
Record history_entry : Type := mkEntry {
  entry_role : jval;
  entry_content : jval
}.

(** What [agent.invoke] gives back: the content of the last message and the
    ["citations"] key when present. *)
Record rag_result : Type := mkRagResult {
  last_content : string;
  result_citations : option (list string)
}.

(** What [insert(...).execute()] does: raise, come back with no data, or
    store the row under a fresh id and return it. *)
Inductive insert_outcome : Type :=
| InsertRaises (e : pyexn)
| InsertNoData
| Inserted (id : string).

(** What the collaborators answer during one request. *)
Record collaborators : Type := mkCollaborators {
  agent_services : SmartSqlAgent.services;
  insert_reply : string -> string -> insert_outcome;
  documents_reply : outcome (list document);
  makedirs_reply : string -> outcome unit;
  download_reply : string -> string -> outcome unit;
  settings_reply : outcome (list settings_row);
  messages_fault : option pyexn;
  create_rag_reply : string -> list history_entry -> outcome unit;
  invoke_reply : string -> list history_entry -> string -> outcome rag_result
}.

(** [d.get(key, default)] on a field that may be absent *)
Definition get_default (field : option jval) (default : string) : jval :=
  match field with
  | Some v => v
  | None => JStr default
  end.

(** [data[-10:]] *)
Definition last10 {A} (data : list A) : list A :=
  skipn (List.length data - 10) data.

Definition format_message (msg : message) : history_entry :=
  mkEntry (get_default (msg_role msg) "user")
          (get_default (msg_content msg) "").

(** The body of [get_chat_history] after the query came back. *)
Definition format_history (data : list message) : list history_entry :=
  match data with
  | [] => []
  | _ => map format_message (last10 data)
  end.

(** [.neq("id", exclude_message_id)], added only for a truthy id *)
Definition exclude (exclude_message_id : option string)
  (rows : list message) : list message :=
  match exclude_message_id with
  | Some x =>
      if truthy x then filter (fun m => negb (msg_id m =? x)) rows else rows
  | None => rows
  end.

(** The query of [get_chat_history] run on the table. *)
Definition select_messages (cb : collaborators) (chat_id : string)
  (exclude_message_id : option string) : M (list message) :=
  fun w =>
    let w' := mkWorld (messages w) (log w ++ [SelectMessages]) in
    match messages_fault cb with
    | Some e => (Raises e, w')
    | None =>
        (Returns
           (exclude exclude_message_id
              (filter (fun m => msg_chat_id m =? chat_id) (messages w))),
         w')
    end.

Definition get_chat_history (cb : collaborators) (chat_id : string)
  (exclude_message_id : option string) : M (list history_entry) :=
  try_except
    (data <- select_messages cb chat_id exclude_message_id ;;
     ret (format_history data))
    (fun _ => ret []).

(** [get_project_settings] *)
Definition get_project_settings (cb : collaborators) (project_id : string)
  : M settings_row :=
  try_except
    (data <- call SelectSettings (settings_reply cb) ;;
     match data with
     | [] =>
         raise (HTTPException 404
           "Project settings not found or you don't have permission to access it")
     | row :: _ => ret row
     end)
    (fun e =>
       match e with
       | HTTPException _ _ => raise e
       | Exception _ =>
           raise (HTTPException 500
             ("An internal server error occurred while retrieving project "
              ++ project_id ++ " settings: " ++ str_exn e))
       end).

(** [supabase.table("messages").insert(data).execute()] *)
Definition insert_message (cb : collaborators) (chat_id clerk_id role content : string)
  (citations : list string) : M (list message) :=
  fun w =>
    let lg := log w ++ [InsertMessage role content] in
    match insert_reply cb role content with
    | InsertRaises e => (Raises e, mkWorld (messages w) lg)
    | InsertNoData => (Returns [], mkWorld (messages w) lg)
    | Inserted id =>
        let r := mkMessage id chat_id clerk_id (Some (JStr role))
                           (Some (JStr content)) citations in
        (Returns [r], mkWorld (messages w ++ [r]) lg)
    end.

(** [os.path.join(a, b)] *)
Definition path_join (a b : string) : string :=
  if prefix "/" b then b
  else if negb (truthy a) || endswith a "/" then a ++ b
  else a ++ "/" ++ b.

(** [fname.endswith(('.csv', '.xlsx', '.xls'))] on the lowered name *)
Definition is_structured (doc : document) : bool :=
  let fname := lower (filename doc) in
  endswith fname ".csv" || endswith fname ".xlsx" || endswith fname ".xls".

Definition is_json (doc : document) : bool :=
  endswith (lower (filename doc)) ".json".

(** The search for the schema file: the first [.json] document ends the
    loop, whether its download worked or not. *)
Fixpoint find_schema (cb : collaborators) (project_id : string)
  (project_docs : list document) : M (option string) :=
  match project_docs with
  | [] => ret None
  | doc :: rest =>
      if is_json doc then
        let temp_dir := ("/tmp/schema_agent/" ++ project_id)%string in
        call (MakeDirs temp_dir) (makedirs_reply cb temp_dir) ;;;
        let local_path := path_join temp_dir (filename doc) in
        try_except
          (call (Download (s3_key doc) local_path)
                (download_reply cb (s3_key doc) local_path) ;;;
           ret (Some local_path))
          (fun _ => ret None)
      else find_schema cb project_id rest
  end.

(** The loop that downloads every structured file. *)
Fixpoint download_files (cb : collaborators) (temp_dir : string)
  (structured_files : list document) : M (list string) :=
  match structured_files with
  | [] => ret []
  | doc :: rest =>
      let local_path := path_join temp_dir (filename doc) in
      call (Download (s3_key doc) local_path)
           (download_reply cb (s3_key doc) local_path) ;;;
      paths <- download_files cb temp_dir rest ;;
      ret (local_path :: paths)
  end.

Definition schema_notice : string :=
  "[Notice: Structured files found but no JSON schema file was detected. Please upload a .json schema file to process the data.]".

Definition structured_error (e : pyexn) : string :=
  "[Error analyzing structured data: " ++ str_exn e ++ "]".

(** [str(result)] is never needed for a dictionary here: the dictionary
    always has its ["answer"]. *)
Definition answer_text (result : SmartSqlAgent.reply) : string :=
  match result with
  | SmartSqlAgent.Dict answer _ _ => answer
  | SmartSqlAgent.Str s => s
  end.

(** Step 3 of [send_message]; gives [csv_response_text]. *)
Definition structured_pipeline (cb : collaborators) (project_id : string)
  (project_docs structured_files : list document) (message_content : string)
  : M string :=
  match structured_files with
  | [] => ret ""
  | _ =>
      schema_path <- find_schema cb project_id project_docs ;;
      match schema_path with
      | Some p =>
          if truthy p then
            try_except
              (let temp_dir := ("/tmp/csv_agent/" ++ project_id)%string in
               call (MakeDirs temp_dir) (makedirs_reply cb temp_dir) ;;;
               local_csv_paths <- download_files cb temp_dir structured_files ;;
               agent <- SmartSqlAgent.create_smart_agent (agent_services cb)
                          local_csv_paths p ;;
               result <- SmartSqlAgent.execute_and_answer (agent_services cb)
                           agent message_content ;;
               ret (answer_text result))
              (fun e => ret (structured_error e))
          else ret schema_notice
      | None => ret schema_notice
      end
  end.

(** Step 4 of [send_message]; gives [rag_response_text] and [citations]. *)
Definition unstructured_pipeline (cb : collaborators)
  (project_id chat_id current_message_id message_content : string)
  : M (string * list string) :=
  agent_type <-
    try_except
      (project_settings <- get_project_settings cb project_id ;;
       ret (get_default (agent_type project_settings) "simple"))
      (fun _ => ret (JStr "simple")) ;;
  chat_history <- get_chat_history cb chat_id (Some current_message_id) ;;
  match agent_type with
  | JStr kind =>
      if (kind =? "simple") || (kind =? "agentic") then
        call (CreateRagAgent kind) (create_rag_reply cb kind chat_history) ;;;
        result <- call (InvokeRagAgent message_content)
                       (invoke_reply cb kind chat_history message_content) ;;
        ret (last_content result,
             match result_citations result with
             | Some c => c
             | None => []
             end)
      else ret ("", [])
  | JNull => ret ("", [])
  end.

Definition generic_phrases : list string :=
  [ "project documents do not contain";
    "i searched available resources but found no";
    "information not present";
    "to find this information, you would typically";
    "you would typically need to query";
    "no relevant chunks found";
    "analysis from structured data";
    "executed sql" ].

Definition placeholder : string := "No relevant chunks found".

(** The suppression step on [rag_response_text]. *)
Definition suppress (rag_response_text : string) : string :=
  if truthy rag_response_text then
    let lower_rag := lower rag_response_text in
    if existsb (fun phrase => contains phrase lower_rag) generic_phrases
    then placeholder
    else rag_response_text
  else rag_response_text.

Definition fallback : string :=
  "I searched available resources but found no relevant information or experienced an error.".

(** The merge into [final_response]. *)
Definition merge (csv_response_text rag_response_text : string) : string :=
  if truthy csv_response_text && truthy rag_response_text then
    "**Analysis from Structured Data:**" ++ nl ++ csv_response_text ++ nl ++ nl
    ++ "**Analysis from Documents:**" ++ nl ++ rag_response_text
  else if truthy csv_response_text then csv_response_text
  else if truthy rag_response_text then rag_response_text
  else fallback.

Record response : Type := mkResponse {
  userMessage : message;
  aiMessage : message
}.

(** Steps 2 to 5 of [send_message], once the user's row is stored. *)
Definition answer_message (cb : collaborators)
  (project_id chat_id message_content current_user_clerk_id : string)
  (user_row : message) : M response :=
  let current_message_id := msg_id user_row in
  docs <- call SelectDocuments (documents_reply cb) ;;
  let structured_files := filter is_structured docs in
  csv_response_text <-
    structured_pipeline cb project_id docs structured_files message_content ;;
  rag <-
    unstructured_pipeline cb project_id chat_id current_message_id
      message_content ;;
  let '(rag_response_text, citations) := rag in
  let final_response := merge csv_response_text (suppress rag_response_text) in
  ai_response_creation_result <-
    insert_message cb chat_id current_user_clerk_id "assistant"
      final_response citations ;;
  match ai_response_creation_result with
  | [] => raise (HTTPException 422 "Failed to create AI response")
  | ai_row :: _ => ret (mkResponse user_row ai_row)
  end.

(** The body of the outer [try] of [send_message]. *)
Definition send_message_body (cb : collaborators)
  (project_id chat_id message_content current_user_clerk_id : string)
  : M response :=
  message_creation_result <-
    insert_message cb chat_id current_user_clerk_id "user" message_content [] ;;
  match message_creation_result with
  | [] => raise (HTTPException 422 "Failed to create message")
  | user_row :: _ =>
      answer_message cb project_id chat_id message_content
        current_user_clerk_id user_row
  end.

Definition send_message (cb : collaborators)
  (project_id chat_id message_content current_user_clerk_id : string)
  : M response :=
  try_except
    (send_message_body cb project_id chat_id message_content
       current_user_clerk_id)
    (fun e =>
       match e with
       | HTTPException _ _ => raise e
       | Exception _ =>
           raise (HTTPException 500
             ("An internal server error occurred while creating message: "
              ++ str_exn e))
       end).

End ProjectRoutes.

Import PyStr Effects SmartSqlAgent ProjectRoutes.

(** ** The specification's own wording, for comparison with the code, and
    the notions the statements below are written with *)

Module Spec.

(** [a] occurs inside [b]. *)
Definition substring_of (a b : string) : Prop :=
  exists pre post, b = (pre ++ a ++ post)%string.

(** The character [c] does not occur in [s]. *)
Definition free_of (c : ascii) (s : string) : Prop :=
  ~ In c (list_ascii_of_string s).


(** "bidirectional substring containment" between a table of the schema and
    a simple name *)
Definition matches (t : table_spec) (simple : string) : Prop :=
  substring_of (lower (table_name t)) simple \/
  substring_of simple (lower (table_name t)).

(** "header row joins column names with " | "; separator row is "-"
    repeated (sum of header-name lengths) + 3 x (numColumns - 1) times; each
    data row joins stringified values with " | "", and the "empty table
    string when there are no rows" *)
Definition text_table (columns : list string) (rows : list row) : string :=
  match rows with
  | [] => ""
  | _ =>
      join nl
        (join " | " columns
         :: repeat "-"
              (sum_Z (map len columns)
               + 3 * (Z.of_nat (List.length columns) - 1))%Z
         :: map (fun r => join " | " (map str_val r)) rows)
  end.

(** "the last [n] entries" of a list *)
Definition last_n {A} (n : nat) (l : list A) : list A :=
  rev (firstn n (rev l)).

(** "excluding the given id if present" *)
Definition without (id : option string) (rows : list message)
  : list message :=
  match id with
  | Some x => filter (fun m => negb (msg_id m =? x)) rows
  | None => rows
  end.

(** "{role, content} with role defaulting to "user" and content defaulting
    to empty string if missing" *)
Definition entry_of (m : message) : history_entry :=
  mkEntry (match msg_role m with Some r => r | None => JStr "user" end)
          (match msg_content m with Some c => c | None => JStr "" end).

(** A computation that leaves the message table as it found it. *)
Definition silent {A} (m : M A) : Prop :=
  forall w, messages (snd (m w)) = messages w.

(** A computation that only adds rows at the end of the message table. *)
Definition grows {A} (m : M A) : Prop :=
  forall w, exists later, messages (snd (m w)) = messages w ++ later.

Definition schema_dir (project_id : string) : string :=
  "/tmp/schema_agent/" ++ project_id.

Definition csv_dir (project_id : string) : string :=
  "/tmp/csv_agent/" ++ project_id.

(** The schema document: the first [.json] file among the documents. *)
Definition schema_document (docs : list document) (doc : document) : Prop :=
  exists before after,
    docs = before ++ doc :: after /\
    Forall (fun d => is_json d = false) before /\
    is_json doc = true.

(** Object storage fails, with exception [e], on the download of the schema
    document; the structured branch runs, that is, the project has
    structured files. *)
Definition schema_download_fails (cb : collaborators) (project_id : string)
  (docs : list document) (e : pyexn) : Prop :=
  filter is_structured docs <> [] /\
  exists doc,
    schema_document docs doc /\
    makedirs_reply cb (schema_dir project_id) = Returns tt /\
    download_reply cb (s3_key doc)
      (path_join (schema_dir project_id) (filename doc)) = Raises e.

(** Object storage fails, with exception [e], on the download of a
    structured file, after the schema document was fetched and the
    structured files before it were. *)
Definition file_download_fails (cb : collaborators) (project_id : string)
  (docs : list document) (e : pyexn) : Prop :=
  exists schema_doc doc before after,
    schema_document docs schema_doc /\
    makedirs_reply cb (schema_dir project_id) = Returns tt /\
    download_reply cb (s3_key schema_doc)
      (path_join (schema_dir project_id) (filename schema_doc)) = Returns tt /\
    makedirs_reply cb (csv_dir project_id) = Returns tt /\
    filter is_structured docs = before ++ doc :: after /\
    Forall (fun d =>
              download_reply cb (s3_key d)
                (path_join (csv_dir project_id) (filename d)) = Returns tt)
           before /\
    download_reply cb (s3_key doc)
      (path_join (csv_dir project_id) (filename doc)) = Raises e.

(** "surfaced as inline diagnostic text": the text of the error can be read
    in the slot. *)
Definition surfaced (e : pyexn) (slot : string) : Prop :=
  substring_of (str_exn e) slot.

(** The world in which the unstructured branch of a request starts: the
    user's row is stored, the documents are listed, the structured branch is
    over. *)
Definition unstructured_start (cb : collaborators)
  (project_id chat_id content clerk_id : string) (docs : list document)
  (w : world) : world :=
  let w1 := snd (insert_message cb chat_id clerk_id "user" content [] w) in
  let w2 := snd (call SelectDocuments (documents_reply cb) w1) in
  snd (structured_pipeline cb project_id docs (filter is_structured docs)
         content w2).

End Spec.

(** ** Concrete inputs used by the examples *)

Module Fixtures.

Definition movie_schema : schema :=
  mkSchema (Some [mkTable "movie" "" []; mkTable "rating" "" []]).


(** A database write that takes every frame under every name but the empty
    one. *)
Definition named_to_sql (db : store) (table_name : string) (df : frame)
  : outcome unit :=
  if truthy table_name then Returns tt
  else Raises (Exception "Empty table or column name specified").

(** An LLM that answers the sentinel followed by a full stop, on a database
    that would answer any query. *)
Definition dotted_sentinel_services : services :=
  mkServices
    (fun _ => Returns movie_schema)
    (fun _ => Returns (mkFrame [] []))
    (fun _ => Returns (mkFrame [] []))
    named_to_sql
    (fun _ _ => Returns "{}")
    (fun _ _ => Returns "NO_SQL_POSSIBLE.")
    (fun _ _ => Returns (Some (["n"], [[SInt 1]]))).

Definition empty_agent : agent := mkAgent [] movie_schema [].

(** An LLM that answers a query, on a database whose cursor gives the
    columns and rows asked for. *)
Definition query_services (sql : string) (cols : list string)
  (rows : list row) : services :=
  mkServices
    (fun _ => Returns movie_schema)
    (fun _ => Returns (mkFrame [] []))
    (fun _ => Returns (mkFrame [] []))
    named_to_sql
    (fun _ _ => Returns "{}")
    (fun _ _ => Returns sql)
    (fun _ _ => Returns (Some (cols, rows))).

Definition ab_rows : list row := [[SInt 1; SInt 2]; [SInt 3; SInt 4]].

Definition fresh_world : world := mkWorld [] [].

(** Collaborators that all succeed; the message table can be read. *)
Definition quiet_collaborators : collaborators :=
  mkCollaborators dotted_sentinel_services
    (fun r _ => if r =? "user" then Inserted "m-user" else Inserted "m-ai")
    (Returns [])
    (fun _ => Returns tt)
    (fun _ _ => Returns tt)
    (Returns [mkSettings (Some (JStr "simple"))])
    None
    (fun _ _ => Returns tt)
    (fun _ _ _ => Returns (mkRagResult "U" None)).

(** A project with one table file, its schema and one other document. *)
Definition project_documents : list document :=
  [ mkDocument "movies.csv" "k-csv";
    mkDocument "schema.json" "k-schema";
    mkDocument "notes.pdf" "k-pdf" ].

(** The same project without its schema. *)
Definition documents_without_schema : list document :=
  [ mkDocument "movies.csv" "k-csv"; mkDocument "notes.pdf" "k-pdf" ].

(** Collaborators of a request on that project: object storage fails on
    the keys [down] marks, the document agent answers [rag], everything
    else succeeds. *)
Definition pipeline_collaborators (down : string -> bool)
  (rag : outcome rag_result) : collaborators :=
  mkCollaborators
    (query_services "SELECT a, b FROM movie" ["a"; "b"] ab_rows)
    (fun r _ => if r =? "user" then Inserted "m-user" else Inserted "m-ai")
    (Returns project_documents)
    (fun _ => Returns tt)
    (fun key _ =>
       if down key then Raises (Exception "NoSuchKey") else Returns tt)
    (Returns [mkSettings (Some (JStr "simple"))])
    None
    (fun _ _ => Returns tt)
    (fun _ _ _ => rag).

(** The document agent raises; storage works. *)
Definition rag_down : collaborators :=
  pipeline_collaborators (fun _ => false) (Raises (Exception "rate limit")).

(** Storage fails on one key; the document agent answers "U". *)
Definition storage_down (key : string) : collaborators :=
  pipeline_collaborators (fun k => k =? key)
    (Returns (mkRagResult "U" None)).

(** Storage refuses one key with another error. *)
Definition storage_refuses (key : string) : collaborators :=
  mkCollaborators
    (query_services "SELECT a, b FROM movie" ["a"; "b"] ab_rows)
    (fun r _ => if r =? "user" then Inserted "m-user" else Inserted "m-ai")
    (Returns project_documents)
    (fun _ => Returns tt)
    (fun k _ =>
       if k =? key then Raises (Exception "AccessDenied") else Returns tt)
    (Returns [mkSettings (Some (JStr "simple"))])
    None
    (fun _ _ => Returns tt)
    (fun _ _ _ => Returns (mkRagResult "U" None)).

Definition user_row (content : string) : message :=
  mkMessage "m-user" "c1" "u1" (Some (JStr "user")) (Some (JStr content)) [].

(** A message of chat "c1". *)
Definition chat_message (id content : string) : message :=
  mkMessage id "c1" "u1" (Some (JStr "user")) (Some (JStr content)) [].

(** Twelve earlier messages of chat "c1" and the one being answered. *)
Definition twelve_prior : list message :=
  map (fun i => chat_message i i)
      ["01"; "02"; "03"; "04"; "05"; "06"; "07"; "08"; "09"; "10"; "11"; "12"].

Definition current_message : message := chat_message "13" "now".

Definition thirteen_world : world :=
  mkWorld (twelve_prior ++ [current_message]) [].

End Fixtures.

(** ** Further notions used by the statements on the rest of the code *)

Module Notions.

(** [s[n:]] *)
Fixpoint drop (n : nat) (s : string) : string :=
  match n, s with
  | S k, String _ s' => drop k s'
  | _, _ => s
  end.

(** The file extensions [_load_data_to_sqlite] reads. *)
Definition supported (path : string) : bool :=
  endswith path ".csv" || endswith path ".xlsx" || endswith path ".xls".

(** [s] has a first character and it is white space, or a last one. *)
Definition starts_with_space (s : string) : Prop :=
  exists c t, s = String c t /\ is_space c = true.

Definition ends_with_space (s : string) : Prop :=
  exists c t, s = (t ++ String c "")%string /\ is_space c = true.

End Notions.

(** ** Further concrete inputs *)

Module MoreFixtures.

(** The filter step fails to parse what the LLM answered. *)
Definition broken_filter_services : services :=
  mkServices
    (fun _ => Returns Fixtures.movie_schema)
    (fun _ => Returns (mkFrame [] []))
    (fun _ => Returns (mkFrame [] []))
    Fixtures.named_to_sql
    (fun _ _ => Raises (Exception "Invalid json output"))
    (fun _ _ => Returns "SELECT 1")
    (fun _ _ => Returns None).

(** The database rejects the query. *)
Definition broken_query_services : services :=
  mkServices
    (fun _ => Returns Fixtures.movie_schema)
    (fun _ => Returns (mkFrame [] []))
    (fun _ => Returns (mkFrame [] []))
    Fixtures.named_to_sql
    (fun _ _ => Returns "{}")
    (fun _ _ => Returns "SELECT x FROM nowhere")
    (fun _ _ => Raises (Exception "no such table: nowhere")).

(** The query is a statement without result columns. *)
Definition update_services : services :=
  mkServices
    (fun _ => Returns Fixtures.movie_schema)
    (fun _ => Returns (mkFrame [] []))
    (fun _ => Returns (mkFrame [] []))
    Fixtures.named_to_sql
    (fun _ _ => Returns "{}")
    (fun _ _ => Returns "DELETE FROM movie")
    (fun _ _ => Returns None).

End MoreFixtures.

(** ** Notions for the loader *)

Module Loading.

(** The reader [_load_data_to_sqlite] uses for a supported path. *)
Definition read_frame (svc : services) (path : string) : outcome frame :=
  if endswith path ".csv" then read_csv svc path else read_excel svc path.

(** Reads that answer the same frame for every path. *)
Definition constant_reader (df : frame) : services :=
  mkServices
    (fun _ => Returns Fixtures.movie_schema)
    (fun _ => Returns df)
    (fun _ => Returns df)
    Fixtures.named_to_sql
    (fun _ _ => Returns "{}")
    (fun _ _ => Returns "SELECT 1")
    (fun _ _ => Returns None).

(** CSV files are read as a frame that has their path as only column. *)
Definition labelling_reader : services :=
  mkServices
    (fun _ => Returns Fixtures.movie_schema)
    (fun path => Returns (mkFrame [path] []))
    (fun path => Returns (mkFrame [path] []))
    Fixtures.named_to_sql
    (fun _ _ => Returns "{}")
    (fun _ _ => Returns "SELECT 1")
    (fun _ _ => Returns None).

Definition empty_name_schema : schema :=
  mkSchema (Some [mkTable "" "" []; mkTable "movie" "" []]).

End Loading.

(** ** Notions for the two branches of [send_message] *)

Module Branches.

(** The structured branch gets as far as building the agent: there are
    structured files, the schema document was fetched to [schema_path], the
    scratch directory exists and every structured file was downloaded, to
    [local_csv_paths]. *)
Definition reaches_agent (cb : collaborators) (project_id : string)
  (docs files : list document) (schema_path : string)
  (local_csv_paths : list string) : Prop :=
  files <> [] /\
  (forall w, fst (find_schema cb project_id docs w)
             = Returns (Some schema_path)) /\
  makedirs_reply cb (Spec.csv_dir project_id) = Returns tt /\
  (forall w, fst (download_files cb (Spec.csv_dir project_id) files w)
             = Returns local_csv_paths).

(** The local path of a document below [temp_dir], and the download that
    fetches it. *)
Definition local_path (temp_dir : string) (doc : document) : string :=
  path_join temp_dir (filename doc).

Definition download_of (temp_dir : string) (doc : document) : event :=
  Download (s3_key doc) (local_path temp_dir doc).

(** The history [send_message] hands to the agent when it answers the
    message [id] of chat [chat_id] on the table of [w]. *)
Definition history_of (cb : collaborators) (chat_id id : string) (w : world)
  : list history_entry :=
  match messages_fault cb with
  | Some _ => []
  | None =>
      format_history
        (exclude (Some id)
           (filter (fun m => msg_chat_id m =? chat_id) (messages w)))
  end.

(** What creating and invoking the agent of type [kind] gives. *)
Definition agent_answer (cb : collaborators) (kind : string)
  (history : list history_entry) (content : string)
  : outcome (string * list string) :=
  match create_rag_reply cb kind history with
  | Raises e => Raises e
  | Returns _ =>
      match invoke_reply cb kind history content with
      | Raises e => Raises e
      | Returns r =>
          Returns (last_content r,
                   match result_citations r with Some c => c | None => [] end)
      end
  end.

(** The project settings cannot be used: the select raises or finds no
    row, or the row has no [agent_type]. *)
Definition settings_unusable (cb : collaborators) : Prop :=
  (exists e, settings_reply cb = Raises e) \/
  settings_reply cb = Returns [] \/
  (exists rest, settings_reply cb = Returns (mkSettings None :: rest)).

(** The settings name an agent type that is neither "simple" nor "agentic",
    or null. *)
Definition unknown_agent_type (cb : collaborators) : Prop :=
  exists v rest,
    settings_reply cb = Returns (mkSettings (Some v) :: rest) /\
    v <> JStr "simple" /\ v <> JStr "agentic".

End Branches.

(** ** Concrete collaborators for the branches *)

Module BranchFixtures.

(** Collaborators like [Fixtures.pipeline_collaborators], with the services
    of the agent chosen. *)
Definition with_services (svc : services) : collaborators :=
  mkCollaborators svc
    (fun r _ => if r =? "user" then Inserted "m-user" else Inserted "m-ai")
    (Returns Fixtures.project_documents)
    (fun _ => Returns tt)
    (fun _ _ => Returns tt)
    (Returns [mkSettings (Some (JStr "simple"))])
    None
    (fun _ _ => Returns tt)
    (fun _ _ _ => Returns (mkRagResult "U" None)).

(** The schema file is not valid JSON. *)
Definition bad_schema_services : services :=
  mkServices
    (fun _ => Raises (Exception "Expecting value: line 1 column 1 (char 0)"))
    (fun _ => Returns (mkFrame [] []))
    (fun _ => Returns (mkFrame [] []))
    Fixtures.named_to_sql
    (fun _ _ => Returns "{}")
    (fun _ _ => Returns "SELECT 1")
    (fun _ _ => Returns None).

(** Two schema files and two table files. *)
Definition two_schemas : list document :=
  [ mkDocument "a.csv" "k-a";
    mkDocument "first.json" "k-1";
    mkDocument "b.csv" "k-b";
    mkDocument "second.json" "k-2" ].

End BranchFixtures.

(** ** Concrete collaborators for the unstructured branch *)

Module RagFixtures.

(** Collaborators whose settings select answers [settings]; the agent of
    type "simple" answers "from simple", the one of type "agentic" answers
    "from agentic" with one citation. *)
Definition with_settings (settings : outcome (list settings_row))
  : collaborators :=
  mkCollaborators Fixtures.dotted_sentinel_services
    (fun r _ => if r =? "user" then Inserted "m-user" else Inserted "m-ai")
    (Returns [])
    (fun _ => Returns tt)
    (fun _ _ => Returns tt)
    settings
    None
    (fun _ _ => Returns tt)
    (fun kind _ _ =>
       if kind =? "simple" then Returns (mkRagResult "from simple" None)
       else Returns (mkRagResult "from agentic" (Some ["doc-1"]))).

(** The message table cannot be read. *)
Definition unreadable_history : collaborators :=
  mkCollaborators Fixtures.dotted_sentinel_services
    (fun r _ => if r =? "user" then Inserted "m-user" else Inserted "m-ai")
    (Returns [])
    (fun _ => Returns tt)
    (fun _ _ => Returns tt)
    (Returns [mkSettings (Some (JStr "simple"))])
    (Some (Exception "connection reset"))
    (fun _ _ => Returns tt)
    (fun _ _ _ => Returns (mkRagResult "U" None)).

End RagFixtures.

(** ** Notions for the outcome of a request *)

Module Requests.

(** The row [insert_message] stores. *)
Definition stored_row (id chat_id clerk_id role content : string)
  (citations : list string) : message :=
  mkMessage id chat_id clerk_id (Some (JStr role)) (Some (JStr content))
    citations.

(** Collaborators whose first insert comes back without data. *)
Definition rejecting_insert : collaborators :=
  mkCollaborators Fixtures.dotted_sentinel_services
    (fun _ _ => InsertNoData)
    (Returns Fixtures.project_documents)
    (fun _ => Returns tt)
    (fun _ _ => Returns tt)
    (Returns [mkSettings (Some (JStr "simple"))])
    None
    (fun _ _ => Returns tt)
    (fun _ _ _ => Returns (mkRagResult "U" None)).

End Requests.

(** ** A state-and-exception monad for the other routes

    The routes below work on other tables than [send_message]; their state
    is a parameter. *)

Module Run.

Section WithState.

Context {S E : Type}.

Inductive result (A : Type) : Type :=
| Done (a : A)
| Fail (e : E).

Definition T (A : Type) : Type := S -> result A * S.

Definition ret {A} (a : A) : T A := fun s => (Done A a, s).

Definition raise {A} (e : E) : T A := fun s => (Fail A e, s).

Definition bind {A B} (m : T A) (k : A -> T B) : T B :=
  fun s =>
    match m s with
    | (Done _ a, s') => k a s'
    | (Fail _ e, s') => (Fail B e, s')
    end.

(** [try: m  except ... as e: h e] *)
Definition try_except {A} (m : T A) (h : E -> T A) : T A :=
  fun s =>
    match m s with
    | (Done _ a, s') => (Done A a, s')
    | (Fail _ e, s') => h e s'
    end.

End WithState.

Arguments result E A : clear implicits.
Arguments T S E A : clear implicits.
Arguments Done {E A} a.
Arguments Fail {E A} e.

End Run.

Declare Scope run_scope.
Delimit Scope run_scope with run.
Notation "x <- m ;; k" := (Run.bind m (fun x => k))
  (at level 61, m at next level, right associativity) : run_scope.
Notation "m ;;; k" := (Run.bind m (fun _ => k))
  (at level 61, right associativity) : run_scope.

(** ** src/routes/projectRoutes.py: creating and deleting a project *)

Module ProjectCrud.

Import PrimFloat.
Local Open Scope run_scope.
#[local] Set Warnings "-inexact-float".

(** A row of [projects]. *)
Record project : Type := mkProject {
  project_id : string;
  project_name : string;
  project_description : string;
  project_clerk_id : string
}.

(** A row of [project_settings] as [create_project] writes it. *)
Record settings : Type := mkSettingsRow {
  settings_project_id : string;
  embedding_model : string;
  rag_strategy : string;
  settings_agent_type : string;
  chunks_per_search : Z;
  final_context_size : Z;
  similarity_threshold : float;
  number_of_queries : Z;
  reranking_enabled : bool;
  reranking_model : string;
  vector_weight : float;
  keyword_weight : float
}.

(** The calls to the database. *)
Inductive db_call : Type :=
| InsertProject (name description clerk_id : string)
| InsertSettings (project_id : string)
| SelectProject (project_id clerk_id : string)
| DeleteProjectById (project_id : string)
| DeleteProject (project_id clerk_id : string).

(** The two tables, kept in the order of insertion, and the calls made. *)
Record db : Type := mkDb {
  projects : list project;
  project_settings : list settings;
  trace : list db_call
}.

(** What a write can do besides taking effect: raise, or come back without
    data and without effect. *)
Inductive write_outcome : Type :=
| WriteRaises (e : pyexn)
| WriteNoData
| Written.

(** What the database does during one request: the outcome and, for the
    insert of a project, the id it assigns. *)
Record faults : Type := mkFaults {
  project_insert : write_outcome;
  new_project_id : string;
  settings_insert : write_outcome;
  rollback_delete : option pyexn;
  ownership_select : option pyexn;
  project_delete : write_outcome
}.

Definition M (A : Type) : Type := Run.T db pyexn A.

Definition called (c : db_call) (s : db) : db :=
  mkDb (projects s) (project_settings s) (trace s ++ [c]).

(** [supabase.table("projects").insert(data).execute()]: the data of the
    result. *)
Definition insert_project (f : faults) (name description clerk_id : string)
  : M (list project) :=
  fun s =>
    let s1 := called (InsertProject name description clerk_id) s in
    match project_insert f with
    | WriteRaises e => (Run.Fail e, s1)
    | WriteNoData => (Run.Done [], s1)
    | Written =>
        let row := mkProject (new_project_id f) name description clerk_id in
        (Run.Done [row],
         mkDb (projects s1 ++ [row]) (project_settings s1) (trace s1))
    end.

(** [supabase.table("project_settings").insert(data).execute()] *)
Definition insert_settings (f : faults) (row : settings) : M (list settings) :=
  fun s =>
    let s1 := called (InsertSettings (settings_project_id row)) s in
    match settings_insert f with
    | WriteRaises e => (Run.Fail e, s1)
    | WriteNoData => (Run.Done [], s1)
    | Written =>
        (Run.Done [row],
         mkDb (projects s1) (project_settings s1 ++ [row]) (trace s1))
    end.

(** [supabase.table("projects").delete().eq("id", id).execute()] *)
Definition delete_project_by_id (f : faults) (id : string) : M unit :=
  fun s =>
    let s1 := called (DeleteProjectById id) s in
    match rollback_delete f with
    | Some e => (Run.Fail e, s1)
    | None =>
        (Run.Done tt,
         mkDb (filter (fun p => negb (project_id p =? id)) (projects s1))
              (project_settings s1) (trace s1))
    end.

Definition owned (id clerk_id : string) (p : project) : bool :=
  (project_id p =? id) && (project_clerk_id p =? clerk_id).

(** [.select("id").eq("id", id).eq("clerk_id", clerk_id).execute()] *)
Definition select_owned (f : faults) (id clerk_id : string)
  : M (list project) :=
  fun s =>
    let s1 := called (SelectProject id clerk_id) s in
    match ownership_select f with
    | Some e => (Run.Fail e, s1)
    | None => (Run.Done (filter (owned id clerk_id) (projects s1)), s1)
    end.

(** [.delete().eq("id", id).eq("clerk_id", clerk_id).execute()]: the data
    are the rows deleted. *)
Definition delete_owned (f : faults) (id clerk_id : string)
  : M (list project) :=
  fun s =>
    let s1 := called (DeleteProject id clerk_id) s in
    match project_delete f with
    | WriteRaises e => (Run.Fail e, s1)
    | WriteNoData => (Run.Done [], s1)
    | Written =>
        (Run.Done (filter (owned id clerk_id) (projects s1)),
         mkDb (filter (fun p => negb (owned id clerk_id p)) (projects s1))
              (project_settings s1) (trace s1))
    end.

(** The settings every new project gets. *)
Definition default_settings (id : string) : settings :=
  mkSettingsRow id "text-embedding-3-large" "basic" "agentic" 10 5 0.3 5
    true "reranker-english-v3.0" 0.7 0.3.

(** The two handlers every route ends with. *)
Definition reraise_as (detail : string) {A} (m : M A) : M A :=
  Run.try_except m
    (fun e =>
       match e with
       | HTTPException _ _ => Run.raise e
       | Exception _ =>
           Run.raise (HTTPException 500 (detail ++ str_exn e))
       end).

Definition create_project (f : faults) (name description clerk_id : string)
  : M project :=
  reraise_as "An internal server error occurred while creating project: "
    (project_creation_result <- insert_project f name description clerk_id ;;
     match project_creation_result with
     | [] =>
         Run.raise
           (HTTPException 422
              "Failed to create project - invalid data provided")
     | newly_created_project :: _ =>
         project_settings_creation_result <-
           insert_settings f
             (default_settings (project_id newly_created_project)) ;;
         match project_settings_creation_result with
         | [] =>
             delete_project_by_id f (project_id newly_created_project) ;;;
             Run.raise
               (HTTPException 422
                  "Failed to create project settings - project creation rolled back")
         | _ :: _ => Run.ret newly_created_project
         end
     end).

Definition delete_project (f : faults) (id clerk_id : string) : M project :=
  reraise_as "An internal server error occurred while deleting project: "
    (project_ownership_verification_result <- select_owned f id clerk_id ;;
     match project_ownership_verification_result with
     | [] =>
         Run.raise
           (HTTPException 404
              "Project not found or you don't have permission to delete it")
     | _ :: _ =>
         project_deletion_result <- delete_owned f id clerk_id ;;
         match project_deletion_result with
         | [] =>
             Run.raise
               (HTTPException 500
                  "Failed to delete project - please try again")
         | successfully_deleted_project :: _ =>
             Run.ret successfully_deleted_project
         end
     end).

(** Faults of a database that works. *)
Definition no_faults (id : string) : faults :=
  mkFaults Written id Written None None Written.

Definition empty_db : db := mkDb [] [] [].

End ProjectCrud.

(** ** src/services/clerkAuth.py *)

Module ClerkAuth.

Import PrimFloat.
Local Open Scope run_scope.

(** The exceptions the function tells apart: an HTTPException; an exception
    of another class that has a [status_code] and a [detail] attribute;
    any other exception.  [text] is [str(e)]. *)
Inductive auth_exn : Type :=
| AuthHTTP (status_code : Z) (detail : string)
| Attributed (status_code : Z) (detail : string) (text : string)
| Plain (text : string).

(** The request: its Authorization header, if any. *)
Record request : Type := mkRequest {
  authorization : option string
}.

(** What [authenticate_request] answers: [payload_sub] is the "sub" entry
    of the payload, [None] when it is absent or null. *)
Record request_state : Type := mkRequestState {
  is_signed_in : bool;
  payload_sub : option string
}.

Inductive auth_call : Type :=
| AppendLog (text : string)
| Authenticate.

(** [token_cache], the count of clock readings taken so far, and the calls
    made. *)
Record auth_state : Type := mkAuthState {
  token_cache : PyDict.dict (string * float);
  ticks : nat;
  calls : list auth_call
}.

(** The world around one call: the readings of [time.time()], whether a
    write to auth_debug.log raises, and the answer of the SDK. *)
Record auth_env : Type := mkAuthEnv {
  clock : nat -> float;
  log_fault : string -> option auth_exn;
  sdk_reply : request -> Run.result auth_exn request_state
}.

Definition M (A : Type) : Type := Run.T auth_state auth_exn A.

Definition CACHE_TTL : float := 60.

(** [time.time()] *)
Definition now (env : auth_env) : M float :=
  fun s =>
    (Run.Done (clock env (ticks s)),
     mkAuthState (token_cache s) (S (ticks s)) (calls s)).

(** [with open("auth_debug.log", "a") as f: f.write(text)] *)
Definition append_log (env : auth_env) (text : string) : M unit :=
  fun s =>
    match log_fault env text with
    | Some e => (Run.Fail e, s)
    | None =>
        (Run.Done tt,
         mkAuthState (token_cache s) (ticks s) (calls s ++ [AppendLog text]))
    end.

(** [clerk_sdk.authenticate_request(request, ...)] *)
Definition authenticate (env : auth_env) (r : request) : M request_state :=
  fun s =>
    (sdk_reply env r,
     mkAuthState (token_cache s) (ticks s) (calls s ++ [Authenticate])).

(** [del d[k]] for a key that is present *)
Fixpoint del_key {V} (k : string) (d : PyDict.dict V) : PyDict.dict V :=
  match d with
  | [] => []
  | (k', v) :: d' => if k' =? k then d' else (k', v) :: del_key k d'
  end.

Definition cache_lookup (token : string) : M (option (string * float)) :=
  fun s => (Run.Done (PyDict.get token (token_cache s)), s).

Definition cache_delete (token : string) : M unit :=
  fun s =>
    (Run.Done tt,
     mkAuthState (del_key token (token_cache s)) (ticks s) (calls s)).

Definition cache_store (token clerk_id : string) (timestamp : float)
  : M unit :=
  fun s =>
    (Run.Done tt,
     mkAuthState (PyDict.set token (clerk_id, timestamp) (token_cache s))
       (ticks s) (calls s)).

(** [auth_header and auth_header.startswith("Bearer ")] *)
Definition is_bearer (auth_header : option string) : bool :=
  match auth_header with
  | Some h => truthy h && prefix "Bearer " h
  | None => false
  end.

(** [auth_header.split(" ")[1]] *)
Definition token_of (auth_header : option string) : string :=
  match auth_header with
  | Some h => nth 1 (split " " h) ""
  | None => ""
  end.

(** [bool(auth_header)] as an f-string shows it *)
Definition shown_bool (auth_header : option string) : string :=
  match auth_header with
  | Some h => if truthy h then "True" else "False"
  | None => "False"
  end.

(** The look into the cache: [Some id] is the early [return]. *)
Definition check_cache (env : auth_env) (auth_header : option string)
  : M (option string) :=
  if is_bearer auth_header then
    let token := token_of auth_header in
    cached <- cache_lookup token ;;
    match cached with
    | Some (cached_clerk_id, timestamp) =>
        t <- now env ;;
        if PrimFloat.ltb (PrimFloat.sub t timestamp) CACHE_TTL then
          now env ;;;
          Run.ret (Some cached_clerk_id)
        else
          cache_delete token ;;;
          Run.ret None
    | None => Run.ret None
    end
  else Run.ret None.

(** The body of the [try]. *)
Definition authenticate_body (env : auth_env) (r : request) : M string :=
  let auth_header := authorization r in
  append_log env
    ("DEBUG: Auth Header present: " ++ shown_bool auth_header ++ nl) ;;;
  hit <- check_cache env auth_header ;;
  match hit with
  | Some cached_clerk_id => Run.ret cached_clerk_id
  | None =>
      state <- authenticate env r ;;
      if negb (is_signed_in state) then
        Run.raise (AuthHTTP 401 "User is not signed in")
      else
        match payload_sub state with
        | Some clerk_id =>
            if truthy clerk_id then
              (if is_bearer auth_header then
                 t <- now env ;;
                 cache_store (token_of auth_header) clerk_id t
               else Run.ret tt) ;;;
              now env ;;;
              append_log env
                ("DEBUG: Auth Success. Clerk ID: " ++ clerk_id ++ nl) ;;;
              Run.ret clerk_id
            else Run.raise (AuthHTTP 401 "Clerk ID not found in token")
        | None => Run.raise (AuthHTTP 401 "Clerk ID not found in token")
        end
  end.

Definition get_current_user_clerk_id (env : auth_env) (r : request)
  : M string :=
  now env ;;;
  Run.try_except (authenticate_body env r)
    (fun e =>
       match e with
       | AuthHTTP status_code detail =>
           append_log env
             ("DEBUG: Auth HTTPException: " ++ detail ++ nl) ;;;
           Run.raise e
       | Attributed status_code detail _ =>
           Run.raise (AuthHTTP status_code detail)
       | Plain text =>
           append_log env ("DEBUG: Clerk Auth Error: " ++ text ++ nl) ;;;
           Run.raise (AuthHTTP 500 ("Clerk SDK Failed. " ++ text))
       end).

(** A world whose log can be written, whose clock shows [t] at every
    reading and whose SDK answers [reply]. *)
Definition steady_env (t : float) (reply : Run.result auth_exn request_state)
  : auth_env :=
  mkAuthEnv (fun _ => t) (fun _ => None) (fun _ => reply).

Definition bearer (token : string) : request :=
  mkRequest (Some ("Bearer " ++ token)%string).

Definition empty_state : auth_state := mkAuthState [] 0 [].

End ClerkAuth.

(** * Properties *)

(** ** Strings *)

Section StringFacts.

Lemma prefix_iff (p s : string) :
  prefix p s = true <-> exists r, s = (p ++ r)%string.
Proof.
  revert s; induction p as [|c p IH]; intros [|d s]; simpl.
  - split; [intros _; now exists "" | reflexivity].
  - split; [intros _; now exists (String d s) | reflexivity].
  - split; [discriminate | intros [r Hr]; discriminate].
  - destruct (ascii_dec c d) as [->|Hcd].
    + rewrite IH. split; intros [r Hr]; exists r; [now rewrite Hr | now inversion Hr].
    + split; [discriminate | intros [r Hr]; inversion Hr; congruence].
Qed.

Lemma append_assoc (a b c : string) :
  ((a ++ b) ++ c = a ++ (b ++ c))%string.
Proof. induction a as [|x a IH]; simpl; [reflexivity | now rewrite IH]. Qed.

Lemma append_nil_r (a : string) : (a ++ "")%string = a.
Proof. induction a as [|x a IH]; simpl; [reflexivity | now rewrite IH]. Qed.

(** The [in] of Python is the substring relation. *)
Lemma contains_iff (sub s : string) :
  contains sub s = true <-> exists pre post, s = (pre ++ sub ++ post)%string.
Proof.
  induction s as [|c s IH]; cbn [contains].
  - rewrite orb_false_r, prefix_iff. split.
    + intros [r Hr]. now exists "", r.
    + intros (pre & post & H). destruct pre; [now exists post | discriminate].
  - rewrite orb_true_iff, IH, prefix_iff. split.
    + intros [[r Hr] | (pre & post & H)].
      * now exists "", r.
      * exists (String c pre), post. simpl. now rewrite H.
    + intros (pre & post & H). destruct pre as [|d pre]; simpl in H.
      * left. now exists post.
      * right. inversion H. now exists pre, post.
Qed.

Lemma contains_false_iff (sub s : string) :
  contains sub s = false <->
  ~ exists pre post, s = (pre ++ sub ++ post)%string.
Proof.
  rewrite <- contains_iff. destruct (contains sub s); split; easy.
Qed.

Lemma truthy_iff (s : string) : truthy s = true <-> s <> "".
Proof. destruct s; simpl; split; congruence. Qed.

Lemma truthy_false_iff (s : string) : truthy s = false <-> s = "".
Proof. destruct s; simpl; split; congruence. Qed.

End StringFacts.

(** ** The merge of the two answers *)

Section Merge.

(** C3: the merged answer is the two-section text when both answers are
    non-empty, the structured text alone or the unstructured text alone when
    only that one is non-empty, and the fixed fallback sentence when both
    are empty. *)
Theorem merge_truth_table (structured unstructured : string) :
  (structured <> "" -> unstructured <> "" ->
   merge structured unstructured =
   ("**Analysis from Structured Data:**" ++ nl ++ structured ++ nl ++ nl ++
    "**Analysis from Documents:**" ++ nl ++ unstructured)%string) /\
  (structured <> "" -> merge structured "" = structured) /\
  (unstructured <> "" -> merge "" unstructured = unstructured) /\
  merge "" "" =
  "I searched available resources but found no relevant information or experienced an error.".
Proof.
  split; [|split; [|split]].
  - intros Hs Hu. unfold merge.
    apply truthy_iff in Hs, Hu. now rewrite Hs, Hu.
  - intros Hs. unfold merge. apply truthy_iff in Hs. now rewrite Hs.
  - intros Hu. unfold merge. apply truthy_iff in Hu. now rewrite Hu.
  - reflexivity.
Qed.

Lemma merge_truth_table_witness :
  merge "S" "U" =
  ("**Analysis from Structured Data:**" ++ nl ++ "S" ++ nl ++ nl ++
   "**Analysis from Documents:**" ++ nl ++ "U")%string /\
  merge "S" "" = "S" /\
  merge "" "U" = "U".
Proof.
  destruct (merge_truth_table "S" "U") as (Hboth & Hs & Hu & _).
  split; [|split]; [apply Hboth | apply Hs | apply Hu]; discriminate.
Defined.

End Merge.

(** ** Suppression of low-information answers *)

Section Suppression.

Lemma phrases_not_in_empty (phrase : string) :
  In phrase generic_phrases -> contains phrase "" = false.
Proof.
  unfold generic_phrases. simpl.
  intros H. repeat (destruct H as [<- | H]; [reflexivity |]). contradiction.
Qed.

(** C5: an unstructured answer whose lowercased text has one of the fixed
    phrases as a substring becomes the placeholder; an answer with none of
    them is kept as it is; the three named phrases are in the set, and the
    sentence of the example is replaced. *)
Theorem suppress_generic (text : string) :
  ((exists phrase pre post,
      In phrase generic_phrases /\
      lower text = (pre ++ phrase ++ post)%string) ->
   suppress text = "No relevant chunks found") /\
  ((forall phrase, In phrase generic_phrases ->
      ~ exists pre post, lower text = (pre ++ phrase ++ post)%string) ->
   suppress text = text) /\
  (In "no relevant chunks found" generic_phrases /\
   In "information not present" generic_phrases /\
   In "you would typically need to query" generic_phrases) /\
  suppress "I searched available resources but found no relevant information."
  = "No relevant chunks found".
Proof.
  split; [|split; [|split]].
  - intros (phrase & pre & post & Hin & Heq).
    assert (Hc : contains phrase (lower text) = true)
      by (apply contains_iff; eauto).
    unfold suppress. destruct (truthy text) eqn:Ht.
    + assert (He : existsb (fun p => contains p (lower text)) generic_phrases
                   = true)
        by (apply existsb_exists; eauto).
      now rewrite He.
    + apply truthy_false_iff in Ht. subst text. cbn [lower] in Hc.
      now rewrite (phrases_not_in_empty phrase Hin) in Hc.
  - intros Hnone. unfold suppress. destruct (truthy text); [|reflexivity].
    destruct (existsb _ generic_phrases) eqn:He; [|reflexivity].
    apply existsb_exists in He. destruct He as (p & Hin & Hc).
    apply contains_iff in Hc. now contradiction (Hnone p Hin).
  - unfold generic_phrases. simpl. intuition.
  - reflexivity.
Qed.

Lemma suppress_generic_witness :
  suppress "Sorry: Information NOT present in the files" =
  "No relevant chunks found" /\
  suppress "The answer is 42." = "The answer is 42.".
Proof.
  split.
  - destruct (suppress_generic "Sorry: Information NOT present in the files")
      as (Hrepl & _). apply Hrepl.
    exists "information not present", "sorry: ", " in the files".
    split; [simpl; intuition | reflexivity].
  - destruct (suppress_generic "The answer is 42.") as (_ & Hkeep & _).
    apply Hkeep.
    intros phrase Hin. apply contains_false_iff.
    unfold generic_phrases in Hin. simpl in Hin.
    repeat (destruct Hin as [<- | Hin]; [reflexivity |]). contradiction.
Defined.

End Suppression.

(** ** The sentinel *)

Section Sentinel.

(** C1, as the code has it: when the cleaned output of the SQL step
    contains NO_SQL_POSSIBLE as a substring, [execute_and_answer] returns
    the fixed apology, the cleaned output itself as ["sql"] and no data, and
    the only outside calls it made are the two LLM calls: no query was
    executed. *)
Theorem sentinel_short_circuit (svc : services) (self : agent)
  (user_query : string) (fs : filtered_schema) (raw : string) (w : world) :
  filter_reply svc (agent_schema self) user_query = Returns fs ->
  sql_reply svc fs user_query = Returns raw ->
  Spec.substring_of "NO_SQL_POSSIBLE" (cleanup raw) ->
  execute_and_answer svc self user_query w =
  (Returns
     (Dict
        "I apologize, but I could not generate a valid SQL query to answer your question based on the provided schema/data. The question might clearly require information not present in the tables."
        (cleanup raw) []),
   mkWorld (messages w) (log w ++ [AskFilter user_query; AskSql user_query])).
Proof.
  intros Hf Hs Hsub.
  apply contains_iff in Hsub.
  unfold execute_and_answer, try_except, bind, filter_schema, generate_sql,
    call, ret, bind.
  rewrite Hf. cbn [messages log]. rewrite Hs. cbn [messages log].
  unfold sentinel. rewrite Hsub. cbn [messages log].
  now rewrite <- app_assoc.
Qed.

Lemma sentinel_short_circuit_witness :
  execute_and_answer Fixtures.dotted_sentinel_services Fixtures.empty_agent
    "how many actors?" Fixtures.fresh_world =
  (Returns (Dict apology "NO_SQL_POSSIBLE." []),
   mkWorld [] [AskFilter "how many actors?"; AskSql "how many actors?"]).
Proof.
  apply (sentinel_short_circuit Fixtures.dotted_sentinel_services
           Fixtures.empty_agent "how many actors?" "{}" "NO_SQL_POSSIBLE."
           Fixtures.fresh_world).
  - reflexivity.
  - reflexivity.
  - exists "", ".". reflexivity.
Defined.

(** C1 as worded fails: the cleaned output "NO_SQL_POSSIBLE." contains the
    sentinel, and the ["sql"] field of the reply is that output, not the
    sentinel. *)
Lemma sentinel_sql_field_counterexample :
  contains "NO_SQL_POSSIBLE" (cleanup "NO_SQL_POSSIBLE.") = true /\
  ~ (exists answer data w',
       execute_and_answer Fixtures.dotted_sentinel_services
         Fixtures.empty_agent "how many actors?" Fixtures.fresh_world =
       (Returns (Dict answer "NO_SQL_POSSIBLE" data), w')).
Proof.
  split; [reflexivity |].
  intros (answer & data & w' & H). vm_compute in H. discriminate H.
Qed.

End Sentinel.

(** ** Table names *)

Section TableNames.

Lemma split_nonempty (sep : ascii) (s : string) : split sep s <> [].
Proof.
  induction s as [|c s IH]; simpl; [discriminate |].
  destruct (Ascii.eqb c sep); [discriminate |].
  destruct (split sep s); discriminate.
Qed.









Lemma match_tables_first (pre post : list table_spec) (t : table_spec)
  (simple : string) :
  (forall u, In u pre -> ~ Spec.matches u simple) ->
  Spec.matches t simple ->
  match_tables (pre ++ t :: post) simple = Some (lower (table_name t)).
Proof.
  intros Hpre Ht. induction pre as [|u pre IH]; simpl.
  - destruct Ht as [Ht | Ht]; apply contains_iff in Ht; rewrite Ht;
      [reflexivity | now rewrite orb_true_r].
  - destruct (contains (lower (table_name u)) simple
              || contains simple (lower (table_name u))) eqn:E.
    + exfalso. apply (Hpre u); [now left |].
      apply orb_true_iff in E. destruct E as [E | E];
        apply contains_iff in E; [now left | now right].
    + apply IH. intros v Hv. apply Hpre. now right.
Qed.


(** One turn of the loop on a path it reads: the read, then the write under
    the resolved name, then the rest. *)
Lemma load_supported (svc : services) (sc : schema) (path : string)
  (rest : list string) (db : store) (w : world) :
  Notions.supported path = true ->
  load_data_to_sqlite svc sc (path :: rest) db w =
  bind (call (ReadFile path) (Loading.read_frame svc path))
       (fun df =>
          bind (to_sql svc (resolve_table_name sc path) df db)
               (load_data_to_sqlite svc sc rest)) w.
Proof.
  unfold Notions.supported, Loading.read_frame. cbn [load_data_to_sqlite].
  destruct (endswith path ".csv"); [reflexivity |].
  cbn [orb]. intros H. now rewrite H.
Qed.

Lemma load_unsupported (svc : services) (sc : schema) (path : string)
  (rest : list string) (db : store) (w : world) :
  Notions.supported path = false ->
  load_data_to_sqlite svc sc (path :: rest) db w =
  load_data_to_sqlite svc sc rest db w.
Proof.
  unfold Notions.supported. cbn [load_data_to_sqlite].
  destruct (endswith path ".csv"); [discriminate |].
  cbn [orb]. intros H. now rewrite H.
Qed.






End TableNames.

(** ** The history window *)

Section History.

Lemma last10_last_n {A} (l : list A) : last10 l = Spec.last_n 10 l.
Proof.
  unfold last10, Spec.last_n. now rewrite firstn_rev, rev_involutive.
Qed.

Lemma filter_all {A} (f : A -> bool) (l : list A) :
  (forall x, In x l -> f x = true) -> filter f l = l.
Proof.
  intros H. apply forallb_filter_id. apply forallb_forall. exact H.
Qed.

(** On rows whose ids are not empty, the truthiness test on the excluded id
    changes nothing. *)
Lemma exclude_without (id : option string) (rows : list message) :
  Forall (fun m => msg_id m <> "") rows ->
  exclude id rows = Spec.without id rows.
Proof.
  intros Hrows. destruct id as [x|]; [|reflexivity].
  unfold exclude, Spec.without. destruct x as [|c x]; [|reflexivity].
  symmetry. apply filter_all. intros m Hm. apply negb_true_iff.
  apply String.eqb_neq. rewrite Forall_forall in Hrows. now apply Hrows.
Qed.

Lemma Forall_filter {A} (P : A -> Prop) (f : A -> bool) (l : list A) :
  Forall P l -> Forall P (filter f l).
Proof.
  intros H. apply Forall_forall. intros x Hx. apply filter_In in Hx.
  rewrite Forall_forall in H. now apply H.
Qed.

Lemma format_history_map (data : list message) :
  format_history data = map format_message (last10 data).
Proof. destruct data; reflexivity. Qed.

Lemma format_message_entry (m : message) : format_message m = Spec.entry_of m.
Proof.
  unfold format_message, Spec.entry_of, get_default.
  destruct (msg_role m), (msg_content m); reflexivity.
Qed.

(** C6: when the table can be read, [get_chat_history] returns the last 10
    of the chat's messages in table order with the excluded id removed, all
    of them when at most 10 remain, each mapped to its role (default
    "user") and content (default empty); with 12 earlier messages and the
    current one excluded these are the 10 most recent earlier ones.  The
    ids in the table are the store's: none is the empty string. *)
Theorem history_window (cb : collaborators) (chat_id : string)
  (exclude_message_id : option string) (w : world) :
  messages_fault cb = None ->
  Forall (fun m => msg_id m <> "") (messages w) ->
  let chat := filter (fun m => msg_chat_id m =? chat_id) (messages w) in
  let kept := Spec.without exclude_message_id chat in
  fst (get_chat_history cb chat_id exclude_message_id w) =
    Returns (map Spec.entry_of (Spec.last_n 10 kept)) /\
  (exists older, kept = older ++ Spec.last_n 10 kept) /\
  List.length (Spec.last_n 10 kept) = Nat.min 10 (List.length kept) /\
  (forall prior current,
      messages w = prior ++ [current] ->
      List.length prior = 12 ->
      (forall m, In m prior ->
                 msg_chat_id m = chat_id /\ msg_id m <> msg_id current) ->
      msg_chat_id current = chat_id ->
      exclude_message_id = Some (msg_id current) ->
      fst (get_chat_history cb chat_id exclude_message_id w) =
        Returns (map Spec.entry_of (skipn 2 prior))).
Proof.
  intros Hok Hids chat kept.
  assert (Hrun : fst (get_chat_history cb chat_id exclude_message_id w) =
                 Returns (map Spec.entry_of (Spec.last_n 10 kept))).
  { unfold get_chat_history, try_except, bind, select_messages, ret.
    rewrite Hok. cbn [fst]. rewrite format_history_map, last10_last_n.
    rewrite exclude_without by now apply Forall_filter.
    fold chat. fold kept.
    now rewrite (map_ext _ _ format_message_entry). }
  split; [exact Hrun |]. split; [|split].
  - exists (firstn (List.length kept - 10) kept).
    rewrite <- last10_last_n. unfold last10.
    symmetry. apply firstn_skipn.
  - unfold Spec.last_n. now rewrite length_rev, length_firstn, length_rev.
  - intros prior current Hw Hlen Hprior Hcur Hex.
    rewrite Hrun. do 2 f_equal.
    assert (Hkept : kept = prior).
    { unfold kept, chat. rewrite Hex, Hw. unfold Spec.without.
      rewrite !filter_app. simpl.
      apply String.eqb_eq in Hcur. rewrite Hcur. simpl.
      rewrite String.eqb_refl. simpl. rewrite app_nil_r.
      rewrite (filter_all _ prior).
      - apply filter_all. intros m Hm. apply negb_true_iff.
        apply String.eqb_neq. now apply Hprior.
      - intros m Hm. apply String.eqb_eq. now apply Hprior. }
    rewrite Hkept, <- last10_last_n. unfold last10. now rewrite Hlen.
Qed.

Lemma history_window_witness :
  fst (get_chat_history Fixtures.quiet_collaborators "c1" (Some "13")
         Fixtures.thirteen_world) =
  Returns (map Spec.entry_of (skipn 2 Fixtures.twelve_prior)).
Proof.
  assert (Hok : messages_fault Fixtures.quiet_collaborators = None)
    by reflexivity.
  assert (Hids : Forall (fun m => msg_id m <> "")
                   (messages Fixtures.thirteen_world))
    by (repeat constructor; discriminate).
  destruct (history_window Fixtures.quiet_collaborators "c1" (Some "13")
              Fixtures.thirteen_world Hok Hids) as (_ & _ & _ & Htwelve).
  apply (Htwelve Fixtures.twelve_prior Fixtures.current_message).
  - reflexivity.
  - reflexivity.
  - intros m Hm. unfold Fixtures.twelve_prior in Hm. simpl in Hm.
    repeat (destruct Hm as [<- | Hm]; [split; [reflexivity | discriminate] |]).
    contradiction.
  - reflexivity.
  - reflexivity.
Defined.

End History.

(** ** Rows as dictionaries *)

Section Dictionaries.

Context {V : Type}.

Lemma set_fresh (k : string) (v : V) (d : PyDict.dict V) :
  ~ In k (PyDict.keys d) -> PyDict.set k v d = d ++ [(k, v)].
Proof.
  induction d as [|[k' v'] d IH]; simpl; [reflexivity |].
  intros H. destruct (String.eqb_spec k' k) as [->|Hne]; [tauto |].
  rewrite IH; [reflexivity | tauto].
Qed.

Lemma in_keys_set (x k : string) (v : V) (d : PyDict.dict V) :
  In x (PyDict.keys (PyDict.set k v d)) <-> x = k \/ In x (PyDict.keys d).
Proof.
  induction d as [|[k' v'] d IH]; simpl; [intuition |].
  destruct (String.eqb_spec k' k) as [->|Hne]; simpl; [intuition |].
  rewrite IH. intuition.
Qed.

Lemma nodup_keys_set (k : string) (v : V) (d : PyDict.dict V) :
  NoDup (PyDict.keys d) -> NoDup (PyDict.keys (PyDict.set k v d)).
Proof.
  induction d as [|[k' v'] d IH]; simpl; intros H.
  - constructor; [intros [] | constructor].
  - inversion H as [|? ? Hnotin Hd]; subst.
    destruct (String.eqb_spec k' k) as [->|Hne]; simpl.
    + now constructor.
    + constructor; [|now apply IH].
      rewrite in_keys_set. intros [-> | Hin]; tauto.
Qed.

Lemma get_set_same (k : string) (v : V) (d : PyDict.dict V) :
  PyDict.get k (PyDict.set k v d) = Some v.
Proof.
  induction d as [|[k' v'] d IH]; simpl.
  - now rewrite String.eqb_refl.
  - destruct (String.eqb_spec k' k) as [->|Hne]; simpl.
    + now rewrite String.eqb_refl.
    + apply String.eqb_neq in Hne. now rewrite Hne.
Qed.

Lemma get_set_other (k k' : string) (v : V) (d : PyDict.dict V) :
  k <> k' -> PyDict.get k' (PyDict.set k v d) = PyDict.get k' d.
Proof.
  intros Hne. induction d as [|[x y] d IH]; simpl.
  - apply String.eqb_neq in Hne. now rewrite Hne.
  - destruct (String.eqb_spec x k) as [->|Hx]; simpl.
    + apply String.eqb_neq in Hne. now rewrite Hne.
    + now rewrite IH.
Qed.

Lemma fold_set_distinct (kvs acc : PyDict.dict V) :
  NoDup (PyDict.keys acc ++ map fst kvs) ->
  fold_left PyDict.set_pair kvs acc = acc ++ kvs.
Proof.
  revert acc. induction kvs as [|[k v] kvs IH]; intros acc H; simpl.
  - now rewrite app_nil_r.
  - simpl in H. unfold PyDict.set_pair at 2. simpl. rewrite set_fresh.
    + rewrite IH; [now rewrite <- app_assoc |].
      unfold PyDict.keys. rewrite map_app. simpl. now rewrite <- app_assoc.
    + apply NoDup_remove_2 in H. intros Hin. apply H.
      apply in_or_app. now left.
Qed.





Lemma of_pairs_distinct (kvs : list (string * V)) :
  NoDup (map fst kvs) -> PyDict.of_pairs kvs = kvs.
Proof. intros H. unfold PyDict.of_pairs. now rewrite fold_set_distinct. Qed.

Lemma map_fst_combine {A B} (l : list A) (l' : list B) :
  List.length l = List.length l' -> map fst (combine l l') = l.
Proof.
  revert l'. induction l as [|x l IH]; intros [|y l'] H; simpl in *;
    try discriminate; [reflexivity |].
  now rewrite IH by lia.
Qed.

Lemma map_snd_combine {A B} (l : list A) (l' : list B) :
  List.length l = List.length l' -> map snd (combine l l') = l'.
Proof.
  revert l'. induction l as [|x l IH]; intros [|y l'] H; simpl in *;
    try discriminate; [reflexivity |].
  now rewrite IH by lia.
Qed.

End Dictionaries.

(** ** Execution and rendering *)

Section Rendering.

(** What [execute_and_answer] does when both LLM steps answer, the cleaned
    query has no sentinel and the cursor runs. *)
Lemma execute_runs (svc : services) (self : agent) (user_query : string)
  (fs : filtered_schema) (raw : string)
  (cur : option (list string * list row)) (w : world) :
  filter_reply svc (agent_schema self) user_query = Returns fs ->
  sql_reply svc fs user_query = Returns raw ->
  ~ Spec.substring_of "NO_SQL_POSSIBLE" (cleanup raw) ->
  cursor_run svc (conn self) (cleanup raw) = Returns cur ->
  execute_and_answer svc self user_query w =
  (Returns
     (Dict ("Executed SQL: `" ++ cleanup raw ++ "`" ++ nl ++ nl
            ++ render_table (data_of_cursor cur))
           (cleanup raw) (data_of_cursor cur)),
   mkWorld (messages w)
     (log w ++ [AskFilter user_query; AskSql user_query;
                CursorExecute (cleanup raw)])).
Proof.
  intros Hf Hs Hno Hcur.
  apply contains_false_iff in Hno.
  unfold execute_and_answer, try_except, bind, filter_schema, generate_sql,
    call, ret, bind.
  rewrite Hf. cbn [messages log]. rewrite Hs. cbn [messages log].
  unfold sentinel. rewrite Hno. cbn [messages log]. rewrite Hcur.
  now rewrite <- !app_assoc.
Qed.

Lemma data_distinct (columns : list string) (rows : list row) :
  columns <> [] -> NoDup columns ->
  (forall r, In r rows -> List.length r = List.length columns) ->
  data_of_cursor (Some (columns, rows)) = map (combine columns) rows.
Proof.
  intros Hne Hnd Hlen. destruct columns as [|c cs]; [congruence |].
  cbn [data_of_cursor]. apply map_ext_in. intros r Hr.
  apply of_pairs_distinct. rewrite map_fst_combine; [exact Hnd |].
  symmetry. now apply Hlen.
Qed.

(** With distinct column names the table of the code is the table of the
    specification. *)
Lemma render_table_distinct (columns : list string) (rows : list row) :
  columns <> [] -> NoDup columns ->
  (forall r, In r rows -> List.length r = List.length columns) ->
  render_table (data_of_cursor (Some (columns, rows))) =
  Spec.text_table columns rows.
Proof.
  intros Hne Hnd Hlen. rewrite data_distinct by assumption.
  destruct rows as [|r0 rs]; [reflexivity |].
  assert (Hk : PyDict.keys (combine columns r0) = columns).
  { apply map_fst_combine. symmetry. apply Hlen. now left. }
  assert (Hb : map (fun d => join " | " (map str_val (PyDict.values d)))
                   (map (combine columns) (r0 :: rs)) =
               map (fun r => join " | " (map str_val r)) (r0 :: rs)).
  { rewrite map_map. apply map_ext_in. intros r Hr.
    unfold PyDict.values. rewrite map_snd_combine; [reflexivity |].
    symmetry. now apply Hlen. }
  unfold Spec.text_table. rewrite <- Hb.
  cbn [map]. unfold render_table. now rewrite Hk.
Qed.

(** C4, for distinct column names: after a query that ran, the answer is
    "Executed SQL: `<query>`", an empty line, and the table whose header
    joins the column names with " | ", whose second line is "-" repeated
    (sum of the name lengths) + 3 x (columns - 1) times and whose other
    lines join the stringified values of each row with " | "; the table is
    empty without rows.  Columns a, b with rows (1,2), (3,4) give "a | b",
    five dashes, "1 | 2" and "3 | 4". *)
Theorem rendered_answer (svc : services) (self : agent) (user_query : string)
  (fs : filtered_schema) (raw : string) (columns : list string)
  (rows : list row) (w : world) :
  filter_reply svc (agent_schema self) user_query = Returns fs ->
  sql_reply svc fs user_query = Returns raw ->
  ~ Spec.substring_of "NO_SQL_POSSIBLE" (cleanup raw) ->
  cursor_run svc (conn self) (cleanup raw) = Returns (Some (columns, rows)) ->
  columns <> [] -> NoDup columns ->
  (forall r, In r rows -> List.length r = List.length columns) ->
  execute_and_answer svc self user_query w =
  (Returns
     (Dict ("Executed SQL: `" ++ cleanup raw ++ "`" ++ nl ++ nl
            ++ Spec.text_table columns rows)
           (cleanup raw) (map (combine columns) rows)),
   mkWorld (messages w)
     (log w ++ [AskFilter user_query; AskSql user_query;
                CursorExecute (cleanup raw)])) /\
  Spec.text_table columns [] = "" /\
  Spec.text_table ["a"; "b"] Fixtures.ab_rows =
  ("a | b" ++ nl ++ "-----" ++ nl ++ "1 | 2" ++ nl ++ "3 | 4")%string.
Proof.
  intros Hf Hs Hno Hcur Hne Hnd Hlen.
  split; [|split; reflexivity].
  rewrite (execute_runs svc self user_query fs raw _ w Hf Hs Hno Hcur).
  rewrite render_table_distinct by assumption.
  now rewrite data_distinct by assumption.
Qed.

Lemma rendered_answer_witness :
  execute_and_answer
    (Fixtures.query_services "SELECT a, b FROM t" ["a"; "b"] Fixtures.ab_rows)
    Fixtures.empty_agent "list a and b" Fixtures.fresh_world =
  (Returns
     (Dict ("Executed SQL: `SELECT a, b FROM t`" ++ nl ++ nl ++
            "a | b" ++ nl ++ "-----" ++ nl ++ "1 | 2" ++ nl ++ "3 | 4")
           "SELECT a, b FROM t"
           [[("a", SInt 1); ("b", SInt 2)]; [("a", SInt 3); ("b", SInt 4)]]),
   mkWorld []
     [AskFilter "list a and b"; AskSql "list a and b";
      CursorExecute "SELECT a, b FROM t"]).
Proof.
  apply (rendered_answer
           (Fixtures.query_services "SELECT a, b FROM t" ["a"; "b"]
              Fixtures.ab_rows)
           Fixtures.empty_agent "list a and b" "{}" "SELECT a, b FROM t"
           ["a"; "b"] Fixtures.ab_rows Fixtures.fresh_world).
  - reflexivity.
  - reflexivity.
  - apply contains_false_iff. reflexivity.
  - reflexivity.
  - discriminate.
  - repeat constructor; simpl; intuition discriminate.
  - intros r [<- | [<- | []]]; reflexivity.
Defined.

(** C4 as worded fails when two result columns share a name: for columns
    a, a and the row (1,2) the wording gives the header "a | a", five dashes
    and "1 | 2", and the code answers with the header "a", one dash and
    "2". *)
Lemma rendered_answer_counterexample :
  Spec.text_table ["a"; "a"] [[SInt 1; SInt 2]] =
    ("a | a" ++ nl ++ "-----" ++ nl ++ "1 | 2")%string /\
  fst (execute_and_answer
         (Fixtures.query_services "SELECT 1 AS a, 2 AS a" ["a"; "a"]
            [[SInt 1; SInt 2]])
         Fixtures.empty_agent "one and two" Fixtures.fresh_world) =
    Returns
      (Dict ("Executed SQL: `SELECT 1 AS a, 2 AS a`" ++ nl ++ nl ++
             "a" ++ nl ++ "-" ++ nl ++ "2")
            "SELECT 1 AS a, 2 AS a" [[("a", SInt 2)]]) /\
  fst (execute_and_answer
         (Fixtures.query_services "SELECT 1 AS a, 2 AS a" ["a"; "a"]
            [[SInt 1; SInt 2]])
         Fixtures.empty_agent "one and two" Fixtures.fresh_world) <>
    Returns
      (Dict ("Executed SQL: `SELECT 1 AS a, 2 AS a`" ++ nl ++ nl ++
             Spec.text_table ["a"; "a"] [[SInt 1; SInt 2]])
            "SELECT 1 AS a, 2 AS a" [[("a", SInt 2)]]).
Proof.
  split; [reflexivity |]. split; [reflexivity |].
  vm_compute. discriminate.
Qed.

End Rendering.

(** ** Result columns that share a name *)

Section DuplicateColumns.






End DuplicateColumns.

(** ** What a request does to the message table *)

Section MessageTable.

Lemma silent_ret {A} (a : A) : Spec.silent (ret a).
Proof. intros w. reflexivity. Qed.

Lemma silent_raise {A} (e : pyexn) : Spec.silent (@raise A e).
Proof. intros w. reflexivity. Qed.

Lemma silent_call {A} (ev : event) (o : outcome A) : Spec.silent (call ev o).
Proof. intros w. reflexivity. Qed.

Lemma silent_bind {A B} (m : M A) (k : A -> M B) :
  Spec.silent m -> (forall a, Spec.silent (k a)) -> Spec.silent (bind m k).
Proof.
  intros Hm Hk w. unfold bind. specialize (Hm w).
  destruct (m w) as [[a | e] w1]; simpl in Hm.
  - now rewrite Hk.
  - exact Hm.
Qed.

Lemma silent_try {A} (m : M A) (h : pyexn -> M A) :
  Spec.silent m -> (forall e, Spec.silent (h e)) ->
  Spec.silent (try_except m h).
Proof.
  intros Hm Hh w. unfold try_except. specialize (Hm w).
  destruct (m w) as [[a | e] w1]; simpl in Hm.
  - exact Hm.
  - now rewrite Hh.
Qed.

Create HintDb silent.

Ltac silence :=
  repeat first
    [ apply silent_ret | apply silent_raise | apply silent_call
    | apply silent_bind | apply silent_try | assumption
    | progress cbv zeta
    | solve [auto with silent nocore]
    | match goal with
      | |- forall _, _ => intro
      | IH : forall _, Spec.silent _ |- Spec.silent _ => apply IH
      | |- Spec.silent (if ?b then _ else _) => destruct b
      | |- Spec.silent (match ?x with _ => _ end) => destruct x
      end ].

Lemma silent_to_sql (svc : services) (table_name : string) (df : frame)
  (db : store) : Spec.silent (to_sql svc table_name df db).
Proof.
  intros w. unfold to_sql.
  now destruct (to_sql_reply svc db table_name df).
Qed.

Lemma silent_load (svc : services) (sc : schema) (paths : list string)
  (db : store) : Spec.silent (load_data_to_sqlite svc sc paths db).
Proof.
  revert db. induction paths as [|path rest IH]; intros db;
    cbn [load_data_to_sqlite]; [apply silent_ret |].
  destruct (endswith path ".csv");
    [|destruct (endswith path ".xlsx" || endswith path ".xls")];
    [| |apply IH];
    (apply silent_bind; [apply silent_call |]; intros df;
     apply silent_bind; [apply silent_to_sql |]; intros db'; apply IH).
Qed.

#[local] Hint Resolve silent_load : silent.

Lemma silent_create_smart_agent (svc : services) (paths : list string)
  (schema_json_path : string) :
  Spec.silent (create_smart_agent svc paths schema_json_path).
Proof. unfold create_smart_agent. silence. Qed.

#[local] Hint Resolve silent_create_smart_agent : silent.

Lemma silent_execute_and_answer (svc : services) (self : agent)
  (user_query : string) : Spec.silent (execute_and_answer svc self user_query).
Proof.
  unfold execute_and_answer, filter_schema, generate_sql. silence.
Qed.

#[local] Hint Resolve silent_execute_and_answer : silent.

Lemma silent_find_schema (cb : collaborators) (project_id : string)
  (docs : list document) : Spec.silent (find_schema cb project_id docs).
Proof. induction docs as [|doc rest IH]; simpl; silence. Qed.

#[local] Hint Resolve silent_find_schema : silent.

Lemma silent_download_files (cb : collaborators) (temp_dir : string)
  (files : list document) : Spec.silent (download_files cb temp_dir files).
Proof. induction files as [|doc rest IH]; simpl; silence. Qed.

#[local] Hint Resolve silent_download_files : silent.

Lemma silent_structured_pipeline (cb : collaborators) (project_id : string)
  (docs files : list document) (content : string) :
  Spec.silent (structured_pipeline cb project_id docs files content).
Proof.
  unfold structured_pipeline. destruct files as [|f files]; silence.
Qed.

Lemma silent_select_messages (cb : collaborators) (chat_id : string)
  (id : option string) : Spec.silent (select_messages cb chat_id id).
Proof.
  intros w. unfold select_messages. now destruct (messages_fault cb).
Qed.

#[local] Hint Resolve silent_select_messages : silent.

Lemma silent_get_chat_history (cb : collaborators) (chat_id : string)
  (id : option string) : Spec.silent (get_chat_history cb chat_id id).
Proof. unfold get_chat_history. silence. Qed.

#[local] Hint Resolve silent_get_chat_history : silent.

Lemma silent_get_project_settings (cb : collaborators) (project_id : string) :
  Spec.silent (get_project_settings cb project_id).
Proof. unfold get_project_settings. silence. Qed.

#[local] Hint Resolve silent_get_project_settings : silent.

Lemma silent_unstructured_pipeline (cb : collaborators)
  (project_id chat_id id content : string) :
  Spec.silent (unstructured_pipeline cb project_id chat_id id content).
Proof.
  unfold unstructured_pipeline. silence.
Qed.

Lemma silent_grows {A} (m : M A) : Spec.silent m -> Spec.grows m.
Proof. intros H w. exists []. now rewrite app_nil_r. Qed.

Lemma grows_bind {A B} (m : M A) (k : A -> M B) :
  Spec.grows m -> (forall a, Spec.grows (k a)) -> Spec.grows (bind m k).
Proof.
  intros Hm Hk w. unfold bind. destruct (Hm w) as [l1 H1].
  destruct (m w) as [[a | e] w1]; simpl in H1.
  - destruct (Hk a w1) as [l2 H2]. exists (l1 ++ l2).
    now rewrite H2, H1, app_assoc.
  - now exists l1.
Qed.

Lemma grows_insert_message (cb : collaborators)
  (chat_id clerk_id role content : string) (citations : list string) :
  Spec.grows (insert_message cb chat_id clerk_id role content citations).
Proof.
  intros w. unfold insert_message.
  destruct (insert_reply cb role content); simpl;
    [exists [] | exists [] | eexists]; try reflexivity;
    now rewrite app_nil_r.
Qed.

Lemma grows_answer_message (cb : collaborators)
  (project_id chat_id content clerk_id : string) (user_row : message) :
  Spec.grows (answer_message cb project_id chat_id content clerk_id user_row).
Proof.
  unfold answer_message.
  apply grows_bind; [apply silent_grows, silent_call | intros docs].
  apply grows_bind;
    [apply silent_grows, silent_structured_pipeline | intros csv].
  apply grows_bind;
    [apply silent_grows, silent_unstructured_pipeline | intros [rag cits]].
  apply grows_bind; [apply grows_insert_message | intros [|ai_row rest]].
  - apply silent_grows, silent_raise.
  - apply silent_grows, silent_ret.
Qed.

(** C9: once the insert of the user's message has stored its row, the row
    is in the message table when [send_message] ends, whether it returns or
    raises and whatever the documents, both branches and the second insert
    did: the table at the end is the table at the start, that row, and
    whatever was added after it. *)
Theorem user_message_persisted (cb : collaborators)
  (project_id chat_id message_content clerk_id id : string) (w : world) :
  insert_reply cb "user" message_content = Inserted id ->
  exists later,
    messages (snd (send_message cb project_id chat_id message_content
                     clerk_id w)) =
    messages w
    ++ mkMessage id chat_id clerk_id (Some (JStr "user"))
         (Some (JStr message_content)) []
    :: later.
Proof.
  intros Hins.
  unfold send_message, try_except, send_message_body, bind, insert_message.
  rewrite Hins.
  match goal with
  | |- context [answer_message ?c ?p ?ch ?mc ?ck ?row ?w1] =>
      destruct (grows_answer_message c p ch mc ck row w1) as [later Hl];
      destruct (answer_message c p ch mc ck row w1) as [[resp | e] w2]
  end; simpl in Hl.
  - exists later. simpl. now rewrite Hl, <- app_assoc.
  - exists later. destruct e; simpl; now rewrite Hl, <- app_assoc.
Qed.

Lemma user_message_persisted_witness :
  exists later,
    messages (snd (send_message Fixtures.rag_down "p1" "c1" "list a and b"
                     "u1" Fixtures.fresh_world)) =
    [] ++ Fixtures.user_row "list a and b" :: later.
Proof.
  apply (user_message_persisted Fixtures.rag_down "p1" "c1" "list a and b"
           "u1" "m-user" Fixtures.fresh_world).
  reflexivity.
Defined.

End MessageTable.

(** ** Failures inside the two branches *)

Section BranchFailures.

(** C7 at a failing input: the structured branch has produced its table,
    then the document agent raises; [send_message] raises a 500 error, the
    structured answer is dropped and no assistant message is stored. *)
Theorem rag_failure_aborts_request :
  fst (structured_pipeline Fixtures.rag_down "p1" Fixtures.project_documents
         (filter is_structured Fixtures.project_documents) "list a and b"
         Fixtures.fresh_world) =
    Returns ("Executed SQL: `SELECT a, b FROM movie`" ++ nl ++ nl ++
             "a | b" ++ nl ++ "-----" ++ nl ++ "1 | 2" ++ nl ++ "3 | 4")%string /\
  send_message Fixtures.rag_down "p1" "c1" "list a and b" "u1"
    Fixtures.fresh_world =
  (Raises
     (HTTPException 500
        "An internal server error occurred while creating message: rate limit"),
   mkWorld [Fixtures.user_row "list a and b"]
     [ InsertMessage "user" "list a and b"; SelectDocuments;
       MakeDirs "/tmp/schema_agent/p1";
       Download "k-schema" "/tmp/schema_agent/p1/schema.json";
       MakeDirs "/tmp/csv_agent/p1";
       Download "k-csv" "/tmp/csv_agent/p1/movies.csv";
       ReadSchema "/tmp/schema_agent/p1/schema.json";
       ReadFile "/tmp/csv_agent/p1/movies.csv";
       AskFilter "list a and b"; AskSql "list a and b";
       CursorExecute "SELECT a, b FROM movie";
       SelectSettings; SelectMessages; CreateRagAgent "simple";
       InvokeRagAgent "list a and b" ]).
Proof. split; vm_compute; reflexivity. Qed.

End BranchFailures.

(** ** Download errors in the structured branch *)

Section DownloadErrors.

Variable cb : collaborators.
Variable project_id : string.

Lemma find_schema_at (docs : list document) (doc : document) (w : world) :
  Spec.schema_document docs doc ->
  makedirs_reply cb (Spec.schema_dir project_id) = Returns tt ->
  fst (find_schema cb project_id docs w) =
  match download_reply cb (s3_key doc)
          (path_join (Spec.schema_dir project_id) (filename doc)) with
  | Returns _ =>
      Returns (Some (path_join (Spec.schema_dir project_id) (filename doc)))
  | Raises _ => Returns None
  end.
Proof.
  intros (before & after & -> & Hbefore & Hjson) Hmk.
  unfold Spec.schema_dir in *.
  induction Hbefore as [|d before Hd _ IH]; cbn [app find_schema].
  - rewrite Hjson. cbv zeta. unfold bind, call, try_except, ret.
    rewrite Hmk.
    now destruct (download_reply cb (s3_key doc) _).
  - rewrite Hd. exact IH.
Qed.

Lemma download_files_fails (before after : list document) (doc : document)
  (temp_dir : string) (e : pyexn) (w : world) :
  Forall (fun d =>
            download_reply cb (s3_key d) (path_join temp_dir (filename d))
            = Returns tt) before ->
  download_reply cb (s3_key doc) (path_join temp_dir (filename doc))
  = Raises e ->
  fst (download_files cb temp_dir (before ++ doc :: after) w) = Raises e.
Proof.
  intros Hbefore Hdoc. revert w.
  induction Hbefore as [|d before Hd _ IH]; intros w;
    cbn [app download_files]; cbv zeta.
  - unfold bind, call. now rewrite Hdoc.
  - unfold bind at 1. unfold call at 1. rewrite Hd.
    unfold bind at 1.
    match goal with
    | |- context [download_files cb temp_dir ?l ?w1] =>
        specialize (IH w1); destruct (download_files cb temp_dir l w1) as [o w2]
    end.
    simpl in IH. now subst o.
Qed.

Lemma path_join_truthy (a b : string) :
  truthy a = true -> truthy (path_join a b) = true.
Proof.
  intros Ha. unfold path_join.
  destruct (prefix "/" b) eqn:Hp.
  - apply prefix_iff in Hp. destruct Hp as [r ->]. reflexivity.
  - destruct a as [|c a]; [discriminate |].
    now destruct (negb (truthy (String c a)) || endswith (String c a) "/").
Qed.

(** What the structured branch leaves in its slot when the download of
    the schema document fails. *)
Lemma schema_download_slot (docs : list document) (e : pyexn)
  (content : string) (w : world) :
  Spec.schema_download_fails cb project_id docs e ->
  fst (structured_pipeline cb project_id docs (filter is_structured docs)
         content w) = Returns schema_notice.
Proof.
  intros (Hsome & doc & Hdoc & Hmk & Hdl). unfold structured_pipeline.
  pose proof (find_schema_at docs doc w Hdoc Hmk) as Hfind.
  rewrite Hdl in Hfind.
  destruct (filter is_structured docs); [congruence |].
  unfold bind.
  destruct (find_schema cb project_id docs w) as [o w1]. simpl in Hfind.
  now subst o.
Qed.

(** What it leaves there when the download of a structured file fails. *)
Lemma file_download_slot (docs : list document) (e : pyexn)
  (content : string) (w : world) :
  Spec.file_download_fails cb project_id docs e ->
  fst (structured_pipeline cb project_id docs (filter is_structured docs)
         content w) = Returns (structured_error e).
Proof.
  intros (sdoc & doc & before & after & Hdoc & Hmk & Hdl & Hmk2 & Hfiles
          & Hbefore & Hfail).
  unfold structured_pipeline.
  pose proof (find_schema_at docs sdoc w Hdoc Hmk) as Hfind.
  rewrite Hdl in Hfind.
  destruct (filter is_structured docs) as [|f fs]; [now destruct before |].
  unfold bind at 1.
  destruct (find_schema cb project_id docs w) as [o w1]. simpl in Hfind.
  subst o. rewrite path_join_truthy by reflexivity.
  unfold Spec.csv_dir in *. cbv zeta.
  unfold try_except. unfold bind at 1. unfold call at 1.
  rewrite Hmk2. unfold bind at 1.
  rewrite Hfiles.
  match goal with
  | |- context [download_files cb ?d ?l ?w2] =>
      pose proof (download_files_fails before after doc d e w2 Hbefore Hfail)
        as Hdown;
      destruct (download_files cb d l w2) as [o w3]
  end.
  simpl in Hdown. subst o. reflexivity.
Qed.

(** How [send_message] ends once the structured branch has left [slot]:
    it is decided by the unstructured branch and by the insert of the
    answer. *)
Lemma send_message_after_slot (chat_id content clerk_id id slot : string)
  (docs : list document) (w : world) :
  insert_reply cb "user" content = Inserted id ->
  documents_reply cb = Returns docs ->
  (forall w1,
      fst (structured_pipeline cb project_id docs
             (filter is_structured docs) content w1) = Returns slot) ->
  match
    fst (unstructured_pipeline cb project_id chat_id id content
           (Spec.unstructured_start cb project_id chat_id content clerk_id
              docs w))
  with
  | Returns (rag, cits) =>
      match insert_reply cb "assistant" (merge slot (suppress rag)) with
      | Inserted id2 =>
          fst (send_message cb project_id chat_id content clerk_id w) =
          Returns
            (mkResponse
               (mkMessage id chat_id clerk_id (Some (JStr "user"))
                  (Some (JStr content)) [])
               (mkMessage id2 chat_id clerk_id (Some (JStr "assistant"))
                  (Some (JStr (merge slot (suppress rag)))) cits))
      | _ =>
          exists x,
            fst (send_message cb project_id chat_id content clerk_id w)
            = Raises x
      end
  | Raises _ =>
      exists x,
        fst (send_message cb project_id chat_id content clerk_id w) = Raises x
  end.
Proof.
  intros Hins Hdocs Hcsv.
  remember (send_message cb project_id chat_id content clerk_id w)
    as result eqn:Hres.
  unfold send_message, try_except, send_message_body, answer_message, bind,
    call, insert_message in Hres.
  rewrite Hins, Hdocs in Hres. cbv beta iota zeta in Hres.
  cbn [msg_id] in Hres.
  unfold Spec.unstructured_start, call, insert_message.
  rewrite Hins, Hdocs. cbv beta iota zeta. cbn [snd].
  match goal with
  | |- context [structured_pipeline cb project_id docs ?f content ?w1] =>
      specialize (Hcsv w1);
      remember (structured_pipeline cb project_id docs f content w1)
        as branch eqn:Hbranch in *
  end.
  clear Hbranch. destruct branch as [o w2]. cbn [fst snd] in *. subst o.
  destruct (unstructured_pipeline cb project_id chat_id id content w2)
    as [[[rag cits] | x] w3]; cbn [fst].
  - destruct (insert_reply cb "assistant" (merge slot (suppress rag)))
      as [x | | id2]; subst result; cbn [fst].
    + destruct x; eexists; reflexivity.
    + eexists; reflexivity.
    + reflexivity.
  - subst result. destruct x; eexists; reflexivity.
Qed.

(** C8, as the code has it: when object storage fails on a structured
    file, the structured branch ends with "[Error analyzing structured data:
    <error>]" in its slot, where the error can be read; when it fails on the
    schema file, the branch ends with the fixed notice that no JSON schema
    file was detected, whatever the error was.  In both cases the branch
    returns, its slot is not empty, and the request goes on: it returns
    exactly when the unstructured branch returns and the answer, merged from
    that slot, is stored. *)
Theorem download_error_stays_inline (docs : list document) (e : pyexn)
  (slot content : string) :
  (Spec.file_download_fails cb project_id docs e /\
   slot = ("[Error analyzing structured data: " ++ str_exn e ++ "]")%string)
  \/
  (Spec.schema_download_fails cb project_id docs e /\
   slot = "[Notice: Structured files found but no JSON schema file was detected. Please upload a .json schema file to process the data.]") ->
  (forall w,
      fst (structured_pipeline cb project_id docs (filter is_structured docs)
             content w) = Returns slot) /\
  slot <> "" /\
  (Spec.file_download_fails cb project_id docs e -> Spec.surfaced e slot) /\
  (forall chat_id clerk_id id w,
      insert_reply cb "user" content = Inserted id ->
      documents_reply cb = Returns docs ->
      match
        fst (unstructured_pipeline cb project_id chat_id id content
               (Spec.unstructured_start cb project_id chat_id content
                  clerk_id docs w))
      with
      | Returns (rag, cits) =>
          match insert_reply cb "assistant" (merge slot (suppress rag)) with
          | Inserted id2 =>
              fst (send_message cb project_id chat_id content clerk_id w) =
              Returns
                (mkResponse
                   (mkMessage id chat_id clerk_id (Some (JStr "user"))
                      (Some (JStr content)) [])
                   (mkMessage id2 chat_id clerk_id (Some (JStr "assistant"))
                      (Some (JStr (merge slot (suppress rag)))) cits))
          | _ =>
              exists x,
                fst (send_message cb project_id chat_id content clerk_id w)
                = Raises x
          end
      | Raises _ =>
          exists x,
            fst (send_message cb project_id chat_id content clerk_id w)
            = Raises x
      end).
Proof.
  intros Herr.
  assert (Hslot : forall w,
             fst (structured_pipeline cb project_id docs
                    (filter is_structured docs) content w) = Returns slot).
  { intros w. destruct Herr as [[Hfile ->] | [Hschema ->]].
    - now apply (file_download_slot docs e).
    - now apply (schema_download_slot docs e). }
  split; [exact Hslot |]. split; [|split].
  - destruct Herr as [[_ ->] | [_ ->]]; discriminate.
  - intros Hfile. destruct Herr as [[_ ->] | [Hschema ->]].
    + exists "[Error analyzing structured data: ", "]". reflexivity.
    + exfalso.
      pose proof (Hslot (mkWorld [] [])) as H1.
      rewrite (file_download_slot docs e content _ Hfile) in H1.
      unfold structured_error in H1. injection H1 as H1.
      discriminate H1.
  - intros chat_id clerk_id id w Hins Hdocs.
    now apply send_message_after_slot.
Qed.

End DownloadErrors.

Section DownloadErrorExamples.

Lemma schema_json_is_schema_document :
  Spec.schema_document Fixtures.project_documents
    (mkDocument "schema.json" "k-schema").
Proof.
  exists [mkDocument "movies.csv" "k-csv"], [mkDocument "notes.pdf" "k-pdf"].
  split; [reflexivity |]. split; [|reflexivity].
  constructor; [reflexivity | constructor].
Qed.

Lemma file_download_fails_example :
  Spec.file_download_fails (Fixtures.storage_down "k-csv") "p1"
    Fixtures.project_documents (Exception "NoSuchKey").
Proof.
  exists (mkDocument "schema.json" "k-schema"),
         (mkDocument "movies.csv" "k-csv"), [], [].
  split; [exact schema_json_is_schema_document |].
  repeat (split; [reflexivity |]).
  split; [constructor | reflexivity].
Qed.

Lemma download_error_stays_inline_witness :
  (forall w,
      fst (structured_pipeline (Fixtures.storage_down "k-csv") "p1"
             Fixtures.project_documents
             (filter is_structured Fixtures.project_documents)
             "list a and b" w) =
      Returns "[Error analyzing structured data: NoSuchKey]") /\
  Spec.surfaced (Exception "NoSuchKey")
    "[Error analyzing structured data: NoSuchKey]" /\
  fst (send_message (Fixtures.storage_down "k-csv") "p1" "c1" "list a and b"
         "u1" Fixtures.fresh_world) =
  Returns
    (mkResponse
       (Fixtures.user_row "list a and b")
       (mkMessage "m-ai" "c1" "u1" (Some (JStr "assistant"))
          (Some (JStr
             ("**Analysis from Structured Data:**" ++ nl ++
              "[Error analyzing structured data: NoSuchKey]" ++ nl ++ nl ++
              "**Analysis from Documents:**" ++ nl ++ "U")))
          [])).
Proof.
  destruct (download_error_stays_inline (Fixtures.storage_down "k-csv")
              "p1" Fixtures.project_documents (Exception "NoSuchKey")
              "[Error analyzing structured data: NoSuchKey]"
              "list a and b"
              (or_introl (conj file_download_fails_example eq_refl)))
    as (Hslot & _ & Hshown & Hrequest).
  split; [exact Hslot |]. split.
  - exact (Hshown file_download_fails_example).
  - exact (Hrequest "c1" "u1" "m-user" Fixtures.fresh_world
             eq_refl eq_refl).
Defined.

(** C8 as worded fails for the schema file: object storage fails on it with
    "NoSuchKey", and the slot holds the notice that no JSON schema file was
    detected; the error cannot be read in it, another error leaves the same
    text, and so does a project that has no schema file at all. *)
Lemma download_error_counterexample :
  Spec.schema_download_fails (Fixtures.storage_down "k-schema") "p1"
    Fixtures.project_documents (Exception "NoSuchKey") /\
  fst (structured_pipeline (Fixtures.storage_down "k-schema") "p1"
         Fixtures.project_documents
         (filter is_structured Fixtures.project_documents)
         "list a and b" Fixtures.fresh_world) =
  Returns "[Notice: Structured files found but no JSON schema file was detected. Please upload a .json schema file to process the data.]" /\
  ~ Spec.surfaced (Exception "NoSuchKey")
      "[Notice: Structured files found but no JSON schema file was detected. Please upload a .json schema file to process the data.]" /\
  Spec.schema_download_fails (Fixtures.storage_refuses "k-schema") "p1"
    Fixtures.project_documents (Exception "AccessDenied") /\
  fst (structured_pipeline (Fixtures.storage_refuses "k-schema") "p1"
         Fixtures.project_documents
         (filter is_structured Fixtures.project_documents)
         "list a and b" Fixtures.fresh_world) =
  fst (structured_pipeline (Fixtures.storage_down "k-schema") "p1"
         Fixtures.project_documents
         (filter is_structured Fixtures.project_documents)
         "list a and b" Fixtures.fresh_world) /\
  fst (structured_pipeline (Fixtures.storage_down "k-none") "p1"
         Fixtures.documents_without_schema
         (filter is_structured Fixtures.documents_without_schema)
         "list a and b" Fixtures.fresh_world) =
  fst (structured_pipeline (Fixtures.storage_down "k-schema") "p1"
         Fixtures.project_documents
         (filter is_structured Fixtures.project_documents)
         "list a and b" Fixtures.fresh_world).
Proof.
  split; [|split; [reflexivity |split; [|split; [|split; reflexivity]]]].
  - split; [discriminate |].
    exists (mkDocument "schema.json" "k-schema").
    split; [exact schema_json_is_schema_document |].
    split; reflexivity.
  - unfold Spec.surfaced. apply contains_false_iff. reflexivity.
  - split; [discriminate |].
    exists (mkDocument "schema.json" "k-schema").
    split; [exact schema_json_is_schema_document |].
    split; reflexivity.
Qed.

End DownloadErrorExamples.

(** * Further properties of the code *)

(** ** More on strings *)

Section MoreStringFacts.

Lemma lower_app (a b : string) :
  lower (a ++ b) = (lower a ++ lower b)%string.
Proof. induction a as [|c a IH]; simpl; [reflexivity | now rewrite IH]. Qed.

Lemma lower_char_idem (c : ascii) : lower_char (lower_char c) = lower_char c.
Proof. destruct c as [[] [] [] [] [] [] [] []]; reflexivity. Qed.

Lemma lower_idem (s : string) : lower (lower s) = lower s.
Proof.
  induction s as [|c s IH]; simpl; [reflexivity |].
  now rewrite lower_char_idem, IH.
Qed.

Lemma length_append (a b : string) :
  String.length (a ++ b) = String.length a + String.length b.
Proof. induction a as [|c a IH]; simpl; [reflexivity | now rewrite IH]. Qed.

Lemma substring_skip (pre t : string) (n : nat) :
  substring (String.length pre) n (pre ++ t) = substring 0 n t.
Proof. induction pre as [|c pre IH]; simpl; [reflexivity | exact IH]. Qed.

Lemma substring_whole (t : string) : substring 0 (String.length t) t = t.
Proof. induction t as [|c t IH]; simpl; [reflexivity | now rewrite IH]. Qed.

Lemma substring_tail (s : string) (k : nat) :
  k <= String.length s ->
  exists pre, s = (pre ++ substring k (String.length s - k) s)%string.
Proof.
  revert k. induction s as [|c s IH]; intros k Hk.
  - exists "". now destruct k.
  - destruct k as [|k].
    + exists "". cbn [append]. now rewrite Nat.sub_0_r, substring_whole.
    + simpl in Hk. destruct (IH k) as [pre Hpre]; [lia |].
      exists (String c pre). simpl. now rewrite <- Hpre.
Qed.

(** [s.endswith(suf)] holds exactly when [s] is something followed by
    [suf]. *)
Lemma endswith_iff (s suf : string) :
  endswith s suf = true <-> exists pre, s = (pre ++ suf)%string.
Proof.
  unfold endswith. rewrite andb_true_iff, Nat.leb_le, String.eqb_eq. split.
  - intros [Hle Hsub].
    destruct (substring_tail s (String.length s - String.length suf))
      as [pre Hpre]; [lia |].
    exists pre.
    replace (String.length s - (String.length s - String.length suf))
      with (String.length suf) in Hpre by lia.
    now rewrite Hsub in Hpre.
  - intros [pre ->]. rewrite length_append. split; [lia |].
    replace (String.length pre + String.length suf - String.length suf)
      with (String.length pre) by lia.
    now rewrite substring_skip, substring_whole.
Qed.

Lemma append_inj_r (a b c : string) :
  (a ++ b)%string = (a ++ c)%string -> b = c.
Proof. induction a as [|x a IH]; simpl; [easy | intros H; inversion H; auto]. Qed.

(** Two endings of the same length of one string are equal. *)
Lemma endings_equal (pre1 pre2 suf1 suf2 : string) :
  (pre1 ++ suf1)%string = (pre2 ++ suf2)%string ->
  String.length suf1 = String.length suf2 -> suf1 = suf2.
Proof.
  revert pre2. induction pre1 as [|c pre1 IH]; intros pre2 H Hlen.
  - destruct pre2 as [|d pre2]; [exact H |].
    apply (f_equal String.length) in H. simpl in H.
    rewrite length_append in H. lia.
  - destruct pre2 as [|d pre2].
    + apply (f_equal String.length) in H. simpl in H.
      rewrite length_append in H. lia.
    + simpl in H. inversion H. eauto.
Qed.

End MoreStringFacts.

(** ** The clean-up of the generated query *)

Section Cleanup.

Lemma remove_from_drop (pat s : string) (k : nat) :
  remove_from pat k s = remove_from pat 0 (Notions.drop k s).
Proof.
  revert k. induction s as [|c s IH]; intros [|k]; try reflexivity.
  simpl. apply IH.
Qed.

Lemma remove_all_cons (pat : string) (c : ascii) (s : string) :
  remove_all pat (String c s) =
  if prefix pat (String c s)
  then remove_all pat (Notions.drop (String.length pat - 1) s)
  else String c (remove_all pat s).
Proof.
  unfold remove_all. cbn [remove_from].
  destruct (prefix pat (String c s)); [apply remove_from_drop | reflexivity].
Qed.

Lemma length_drop (k : nat) (s : string) :
  String.length (Notions.drop k s) <= String.length s.
Proof.
  revert k. induction s as [|c s IH]; intros [|k]; simpl; try lia.
  specialize (IH k). lia.
Qed.

(** Without an occurrence there is nothing to remove. *)
Lemma remove_all_absent (pat s : string) :
  contains pat s = false -> remove_all pat s = s.
Proof.
  induction s as [|c s IH]; [reflexivity |].
  cbn [contains]. intros H. apply orb_false_iff in H. destruct H as [Hp Hc].
  rewrite remove_all_cons, Hp. now rewrite IH.
Qed.

Lemma backtick_kept (s : string) :
  prefix "`" (remove_all fence s) = true -> prefix "`" s = true.
Proof.
  destruct s as [|c s]; [discriminate |].
  rewrite remove_all_cons. destruct (prefix fence (String c s)) eqn:P.
  - intros _. apply prefix_iff in P. destruct P as [r Hr].
    apply prefix_iff. unfold fence in Hr. simpl in Hr. rewrite Hr.
    now eexists.
  - intros H. apply prefix_iff in H. destruct H as [r Hr].
    apply prefix_iff. simpl in Hr. inversion Hr. now eexists.
Qed.

Lemma two_backticks_kept (s : string) :
  prefix "``" (remove_all fence s) = true -> prefix "``" s = true.
Proof.
  destruct s as [|c s]; [discriminate |].
  rewrite remove_all_cons. destruct (prefix fence (String c s)) eqn:P.
  - intros _. apply prefix_iff in P. destruct P as [r Hr].
    apply prefix_iff. unfold fence in Hr. simpl in Hr. rewrite Hr.
    now eexists.
  - intros H. apply prefix_iff in H. destruct H as [r Hr].
    simpl in Hr. inversion Hr as [[Hc Hrest]].
    assert (Hs : prefix "`" (remove_all fence s) = true)
      by (apply prefix_iff; rewrite Hrest; now eexists).
    apply backtick_kept, prefix_iff in Hs. destruct Hs as [r' ->].
    apply prefix_iff. now eexists.
Qed.

Lemma remove_fence_bounded (n : nat) (s : string) :
  String.length s <= n -> contains fence (remove_all fence s) = false.
Proof.
  revert s. induction n as [|n IH]; intros s Hlen.
  - destruct s; [reflexivity | simpl in Hlen; lia].
  - destruct s as [|c s]; [reflexivity |].
    rewrite remove_all_cons. destruct (prefix fence (String c s)) eqn:P.
    + apply IH. simpl in Hlen.
      pose proof (length_drop (String.length fence - 1) s). lia.
    + cbn [contains]. rewrite IH by (simpl in Hlen; lia).
      rewrite orb_false_r.
      destruct (prefix fence (String c (remove_all fence s))) eqn:Q;
        [|reflexivity].
      apply prefix_iff in Q. destruct Q as [r Hr].
      unfold fence in Hr. simpl in Hr. inversion Hr as [[Hc Hrest]].
      assert (Hs : prefix "``" (remove_all fence s) = true)
        by (apply prefix_iff; unfold fence; rewrite Hrest; now eexists).
      apply two_backticks_kept, prefix_iff in Hs. destruct Hs as [r' ->].
      assert (P' : prefix fence (String "`" ("``" ++ r')) = true)
        by (apply prefix_iff; now eexists).
      congruence.
Qed.

Lemma remove_fence_clean (s : string) :
  contains fence (remove_all fence s) = false.
Proof. now apply (remove_fence_bounded (String.length s)). Qed.

Lemma lstrip_suffix (s : string) : exists a, s = (a ++ lstrip s)%string.
Proof.
  induction s as [|c s [a Ha]]; [now exists "" |].
  simpl. destruct (is_space c).
  - exists (String c a). simpl. now rewrite <- Ha.
  - now exists "".
Qed.

Lemma rstrip_prefix (s : string) : exists b, s = (rstrip s ++ b)%string.
Proof.
  induction s as [|c s [b Hb]]; [now exists "" |].
  simpl. destruct (rstrip s) as [|e r].
  - destruct (is_space c).
    + now exists (String c s).
    + exists s. reflexivity.
  - exists b. simpl. now rewrite Hb at 1.
Qed.

Lemma strip_inside (s : string) :
  exists a b, s = (a ++ strip s ++ b)%string.
Proof.
  destruct (lstrip_suffix s) as [a Ha].
  destruct (rstrip_prefix (lstrip s)) as [b Hb].
  exists a, b. unfold strip. now rewrite <- Hb.
Qed.

Lemma contains_inside (p x y a b : string) :
  x = (a ++ y ++ b)%string -> contains p y = true -> contains p x = true.
Proof.
  intros -> H. apply contains_iff in H. destruct H as (pre & post & ->).
  apply contains_iff. exists (a ++ pre)%string, (post ++ b)%string.
  now rewrite !append_assoc.
Qed.

Lemma cleanup_no_fence_bool (raw : string) :
  contains fence (cleanup raw) = false.
Proof.
  unfold cleanup.
  destruct (contains fence (strip (remove_all fence (remove_all fence_sql raw))))
    eqn:H; [|reflexivity].
  destruct (strip_inside (remove_all fence (remove_all fence_sql raw)))
    as (a & b & Hab).
  pose proof (contains_inside _ _ _ _ _ Hab H) as Hc.
  now rewrite remove_fence_clean in Hc.
Qed.

Lemma lstrip_first (s : string) (c : ascii) (t : string) :
  lstrip s = String c t -> is_space c = false.
Proof.
  induction s as [|d s IH]; [discriminate |].
  simpl. destruct (is_space d) eqn:Hd; [exact IH |].
  intros H. inversion H. now subst.
Qed.

Lemma rstrip_first (s : string) (c : ascii) (t : string) :
  rstrip s = String c t -> exists t', s = String c t'.
Proof.
  destruct s as [|d s]; [discriminate |].
  simpl. destruct (rstrip s).
  - destruct (is_space d); [discriminate |].
    intros H. inversion H. now eexists.
  - intros H. inversion H. now eexists.
Qed.

Lemma rstrip_last (s : string) (c : ascii) (t : string) :
  rstrip s = (t ++ String c "")%string -> is_space c = false.
Proof.
  revert t. induction s as [|d s IH]; intros t.
  - destruct t; discriminate.
  - cbn [rstrip]. destruct (rstrip s) as [|e r].
    + destruct (is_space d) eqn:Hd.
      * destruct t; discriminate.
      * destruct t as [|x t]; cbn [append]; intros H.
        -- injection H as <-. exact Hd.
        -- injection H as _ Ht. destruct t; discriminate.
    + destruct t as [|x t]; cbn [append]; intros H.
      * discriminate.
      * injection H as _ Ht. now apply (IH t).
Qed.

Lemma strip_no_leading_space (s : string) :
  ~ Notions.starts_with_space (strip s).
Proof.
  unfold strip. intros (c & t & H & Hc).
  apply rstrip_first in H. destruct H as [t' H].
  apply lstrip_first in H. congruence.
Qed.

(** X1: whatever the LLM answered, the cleaned query text contains no
    code-fence marker (three backticks never occur in it) and has no white
    space at its start and none at its end. *)
Theorem cleanup_is_clean (raw : string) :
  ~ Spec.substring_of "```" (cleanup raw) /\
  ~ Notions.starts_with_space (cleanup raw) /\
  ~ Notions.ends_with_space (cleanup raw).
Proof.
  split; [|split].
  - apply contains_false_iff. apply cleanup_no_fence_bool.
  - unfold cleanup. apply strip_no_leading_space.
  - unfold cleanup, strip. intros (c & t & H & Hc). apply rstrip_last in H.
    congruence.
Qed.

Lemma lstrip_fixed (s : string) :
  ~ Notions.starts_with_space s -> lstrip s = s.
Proof.
  destruct s as [|c s]; [reflexivity |].
  intros H. simpl. destruct (is_space c) eqn:Hc; [|reflexivity].
  exfalso. apply H. now exists c, s.
Qed.

Lemma rstrip_idem (s : string) : rstrip (rstrip s) = rstrip s.
Proof.
  induction s as [|c s IH]; [reflexivity |].
  simpl. destruct (rstrip s) as [|e r] eqn:E.
  - destruct (is_space c) eqn:Hc; [reflexivity |]. simpl. now rewrite Hc.
  - change (rstrip (String c (String e r)))
      with (match rstrip (String e r) with
            | EmptyString =>
                if is_space c then EmptyString else String c EmptyString
            | r0 => String c r0
            end).
    now rewrite IH.
Qed.

Lemma fence_sql_absent (s : string) :
  contains fence s = false -> contains fence_sql s = false.
Proof.
  intros H. destruct (contains fence_sql s) eqn:E; [|reflexivity].
  apply contains_iff in E. destruct E as (pre & post & ->).
  assert (Hc : contains fence (pre ++ fence_sql ++ post) = true).
  { apply contains_iff. exists pre, ("sql" ++ post)%string. reflexivity. }
  congruence.
Qed.

(** X2: cleaning a cleaned query changes nothing. *)
Theorem cleanup_idempotent (raw : string) :
  cleanup (cleanup raw) = cleanup raw.
Proof.
  pose proof (cleanup_no_fence_bool raw) as Hf.
  assert (Hstart : ~ Notions.starts_with_space (cleanup raw))
    by (unfold cleanup; apply strip_no_leading_space).
  unfold cleanup at 1.
  rewrite (remove_all_absent fence_sql) by now apply fence_sql_absent.
  rewrite (remove_all_absent fence) by exact Hf.
  unfold strip. rewrite lstrip_fixed by exact Hstart.
  unfold cleanup, strip. apply rstrip_idem.
Qed.

End Cleanup.

(** ** What [execute_and_answer] does with failures and empty results *)

Section ExecutionEdges.

Lemma execute_filter_raises (svc : services) (self : agent)
  (user_query : string) (w : world) (e : pyexn) :
  filter_reply svc (agent_schema self) user_query = Raises e ->
  fst (execute_and_answer svc self user_query w) =
  Returns (Str ("Error executing SQL or processing request: " ++ str_exn e)).
Proof.
  intros Hf.
  unfold execute_and_answer, filter_schema, generate_sql, try_except, bind,
    call, ret.
  now rewrite Hf.
Qed.

(** X3: [execute_and_answer] never raises.  When the filter step, the SQL
    step or the cursor raises, it returns the plain string "Error executing
    SQL or processing request: <error>" in place of the dictionary. *)
Theorem execute_and_answer_never_raises (svc : services) (self : agent)
  (user_query : string) (w : world) :
  (exists r, fst (execute_and_answer svc self user_query w) = Returns r) /\
  (forall e,
      filter_reply svc (agent_schema self) user_query = Raises e ->
      fst (execute_and_answer svc self user_query w) =
      Returns (Str ("Error executing SQL or processing request: "
                    ++ str_exn e))) /\
  (forall fs e,
      filter_reply svc (agent_schema self) user_query = Returns fs ->
      sql_reply svc fs user_query = Raises e ->
      fst (execute_and_answer svc self user_query w) =
      Returns (Str ("Error executing SQL or processing request: "
                    ++ str_exn e))) /\
  (forall fs raw e,
      filter_reply svc (agent_schema self) user_query = Returns fs ->
      sql_reply svc fs user_query = Returns raw ->
      ~ Spec.substring_of "NO_SQL_POSSIBLE" (cleanup raw) ->
      cursor_run svc (conn self) (cleanup raw) = Raises e ->
      fst (execute_and_answer svc self user_query w) =
      Returns (Str ("Error executing SQL or processing request: "
                    ++ str_exn e))).
Proof.
  unfold execute_and_answer, filter_schema, generate_sql, try_except, bind,
    call, ret.
  split; [|split; [|split]].
  - destruct (filter_reply svc (agent_schema self) user_query) as [fs | e];
      [|eexists; reflexivity].
    cbn [messages log].
    destruct (sql_reply svc fs user_query) as [raw | e];
      [|eexists; reflexivity].
    cbn [messages log].
    destruct (contains sentinel (cleanup raw)); [eexists; reflexivity |].
    destruct (cursor_run svc (conn self) (cleanup raw));
      eexists; reflexivity.
  - intros e Hf. now rewrite Hf.
  - intros fs e Hf Hs. rewrite Hf. cbn [messages log]. now rewrite Hs.
  - intros fs raw e Hf Hs Hno Hcur. apply contains_false_iff in Hno.
    rewrite Hf. cbn [messages log]. rewrite Hs. cbn [messages log].
    unfold sentinel. rewrite Hno. now rewrite Hcur.
Qed.

Lemma execute_and_answer_never_raises_witness :
  fst (execute_and_answer MoreFixtures.broken_filter_services
         Fixtures.empty_agent "how many?" Fixtures.fresh_world) =
    Returns (Str "Error executing SQL or processing request: Invalid json output") /\
  fst (execute_and_answer MoreFixtures.broken_query_services
         Fixtures.empty_agent "how many?" Fixtures.fresh_world) =
    Returns (Str "Error executing SQL or processing request: no such table: nowhere").
Proof.
  split.
  - destruct (execute_and_answer_never_raises
                MoreFixtures.broken_filter_services Fixtures.empty_agent
                "how many?" Fixtures.fresh_world) as (_ & Hfilter & _).
    apply (Hfilter (Exception "Invalid json output")). reflexivity.
  - destruct (execute_and_answer_never_raises
                MoreFixtures.broken_query_services Fixtures.empty_agent
                "how many?" Fixtures.fresh_world) as (_ & _ & _ & Hcursor).
    apply (Hcursor "{}" "SELECT x FROM nowhere"
             (Exception "no such table: nowhere")).
    + reflexivity.
    + reflexivity.
    + apply contains_false_iff. reflexivity.
    + reflexivity.
Defined.

(** X4: a query that ran and gave no result columns (a statement that is
    not a SELECT) or no rows is answered with "Executed SQL: `<query>`"
    followed by an empty line and nothing else, and with empty data. *)
Theorem empty_result_answer (svc : services) (self : agent)
  (user_query : string) (fs : filtered_schema) (raw : string)
  (cur : option (list string * list row)) (w : world) :
  filter_reply svc (agent_schema self) user_query = Returns fs ->
  sql_reply svc fs user_query = Returns raw ->
  ~ Spec.substring_of "NO_SQL_POSSIBLE" (cleanup raw) ->
  cursor_run svc (conn self) (cleanup raw) = Returns cur ->
  (cur = None \/ exists columns, cur = Some (columns, [])) ->
  fst (execute_and_answer svc self user_query w) =
  Returns (Dict ("Executed SQL: `" ++ cleanup raw ++ "`" ++ nl ++ nl)
                (cleanup raw) []).
Proof.
  intros Hf Hs Hno Hcur Hempty.
  rewrite (execute_runs svc self user_query fs raw cur w Hf Hs Hno Hcur).
  cbn [fst].
  assert (Hdata : data_of_cursor cur = []).
  { destruct Hempty as [-> | [columns ->]]; [reflexivity |].
    now destruct columns. }
  rewrite Hdata. cbn [render_table]. now rewrite append_nil_r.
Qed.

Lemma empty_result_answer_witness :
  fst (execute_and_answer MoreFixtures.update_services Fixtures.empty_agent
         "remove the movies" Fixtures.fresh_world) =
  Returns (Dict ("Executed SQL: `DELETE FROM movie`" ++ nl ++ nl)
                "DELETE FROM movie" []).
Proof.
  apply (empty_result_answer MoreFixtures.update_services
           Fixtures.empty_agent "remove the movies" "{}" "DELETE FROM movie"
           None Fixtures.fresh_world).
  - reflexivity.
  - reflexivity.
  - apply contains_false_iff. reflexivity.
  - reflexivity.
  - now left.
Defined.

End ExecutionEdges.

(** ** More on table names *)

Section MoreTableNames.

Lemma match_tables_some (ts : list table_spec) (simple n : string) :
  match_tables ts simple = Some n ->
  exists t, In t ts /\ n = lower (table_name t).
Proof.
  induction ts as [|t ts IH]; simpl; [discriminate |].
  destruct (contains (lower (table_name t)) simple
            || contains simple (lower (table_name t))).
  - intros H. injection H as <-. exists t. split; [now left | reflexivity].
  - intros H. destruct (IH H) as (u & Hu & ->). exists u. split; [now right | reflexivity].
Qed.

(** X5: the table name a file is loaded under is either its simple name or
    the lowered name of a table of the schema, and in both cases it is in
    lower case: lowering it again changes nothing. *)
Theorem resolved_name_is_lowercase (sc : schema) (path : string) :
  (resolve_table_name sc path = simple_filename path \/
   exists ts t,
     tables sc = Some ts /\ In t ts /\
     resolve_table_name sc path = lower (table_name t)) /\
  lower (resolve_table_name sc path) = resolve_table_name sc path.
Proof.
  assert (Hsimple : lower (simple_filename path) = simple_filename path)
    by (unfold simple_filename; apply lower_idem).
  unfold resolve_table_name, matched_table_name.
  destruct (tables sc) as [ts|]; [|split; [now left | exact Hsimple]].
  destruct (match_tables ts (simple_filename path)) as [n|] eqn:Hm;
    [|split; [now left | exact Hsimple]].
  destruct (truthy n); [|split; [now left | exact Hsimple]].
  destruct (match_tables_some ts _ n Hm) as (t & Ht & ->).
  split; [right; now exists ts, t | apply lower_idem].
Qed.

Lemma in_split_free (sep : ascii) (s p : string) :
  In p (split sep s) -> Spec.free_of sep p.
Proof.
  unfold Spec.free_of. revert p. induction s as [|c s IH]; intros p; simpl.
  - intros [<- | []]. intros [].
  - destruct (Ascii.eqb_spec c sep) as [->|Hne].
    + intros [<- | Hp]; [intros [] | now apply IH].
    + destruct (split sep s) as [|h t] eqn:E.
      * intros [<- | []]. simpl. intuition.
      * intros [<- | Hp].
        -- simpl. intros [Hc | Hin]; [congruence |].
           apply (IH h); [now left | exact Hin].
        -- apply IH. now right.
Qed.

Lemma in_split_chars (sep : ascii) (s p : string) (x : ascii) :
  In p (split sep s) ->
  In x (list_ascii_of_string p) -> In x (list_ascii_of_string s).
Proof.
  revert p. induction s as [|c s IH]; intros p; simpl.
  - intros [<- | []]. intros [].
  - destruct (Ascii.eqb c sep).
    + intros [<- | Hp]; [intros [] |]. intros Hx. right. now apply (IH p).
    + destruct (split sep s) as [|h t] eqn:E.
      * intros [<- | []]. simpl. intuition.
      * intros [<- | Hp].
        -- simpl. intros [Hc | Hin]; [now left | right].
           apply (IH h); [now left | exact Hin].
        -- intros Hx. right. apply (IH p); [now right | exact Hx].
Qed.

Lemma last_part_in (sep : ascii) (s : string) :
  In (last_part (split sep s)) (split sep s).
Proof.
  unfold last_part. pose proof (split_nonempty sep s) as Hne.
  induction (split sep s) as [|h t IH]; [congruence |].
  destruct t as [|h' t]; [now left |]. right. apply IH. discriminate.
Qed.

Lemma first_part_in (sep : ascii) (s : string) :
  In (first_part (split sep s)) (split sep s).
Proof.
  unfold first_part. pose proof (split_nonempty sep s) as Hne.
  destruct (split sep s); [congruence | now left].
Qed.

Lemma lower_char_separator (y x : ascii) :
  x = "/"%char \/ x = "\"%char \/ x = "."%char ->
  lower_char y = x -> y = x.
Proof.
  intros [-> | [-> | ->]];
    destruct y as [[] [] [] [] [] [] [] []]; vm_compute; intros H;
    try discriminate H; reflexivity.
Qed.

Lemma lower_free (x : ascii) (s : string) :
  x = "/"%char \/ x = "\"%char \/ x = "."%char ->
  Spec.free_of x s -> Spec.free_of x (lower s).
Proof.
  unfold Spec.free_of. intros Hx. induction s as [|c s IH]; simpl; [tauto |].
  intros Hs [Hc | Hin].
  - apply Hs. left. now apply lower_char_separator.
  - apply IH; tauto.
Qed.

(** X6: the simple name of a path never contains a slash, a backslash or a
    dot. *)
Theorem simple_filename_clean (path : string) :
  Spec.free_of "/" (simple_filename path) /\
  Spec.free_of "\" (simple_filename path) /\
  Spec.free_of "." (simple_filename path).
Proof.
  unfold simple_filename.
  set (f := last_part (split "/" path)).
  set (g := last_part (split "\" f)).
  set (h := first_part (split "." g)).
  assert (Hf : Spec.free_of "/" f) by (apply (in_split_free _ path), last_part_in).
  assert (Hg : Spec.free_of "\" g) by (apply (in_split_free _ f), last_part_in).
  assert (Hh : Spec.free_of "." h) by (apply (in_split_free _ g), first_part_in).
  assert (Hgf : forall x, In x (list_ascii_of_string g) ->
                          In x (list_ascii_of_string f))
    by (intros x; apply (in_split_chars "\" f g x), last_part_in).
  assert (Hhg : forall x, In x (list_ascii_of_string h) ->
                          In x (list_ascii_of_string g))
    by (intros x; apply (in_split_chars "." g h x), first_part_in).
  split; [|split]; apply lower_free; auto; unfold Spec.free_of in *; auto.
Qed.

(** X7: a table with an empty name matches every file; when it is the
    first match, the file is loaded under its simple name, and the tables
    declared after it are not looked at. *)
Theorem empty_table_name_falls_back (sc : schema) (path : string)
  (pre post : list table_spec) (t : table_spec) :
  tables sc = Some (pre ++ t :: post) ->
  (forall u, In u pre -> ~ Spec.matches u (simple_filename path)) ->
  table_name t = "" ->
  resolve_table_name sc path = simple_filename path.
Proof.
  intros Hts Hpre Hempty.
  unfold resolve_table_name, matched_table_name. rewrite Hts.
  rewrite (match_tables_first pre post t _ Hpre).
  - now rewrite Hempty.
  - left. rewrite Hempty. exists "", (simple_filename path). reflexivity.
Qed.

Lemma empty_table_name_falls_back_witness :
  resolve_table_name Loading.empty_name_schema "final_movies.csv"
  = "final_movies".
Proof.
  apply (empty_table_name_falls_back Loading.empty_name_schema
           "final_movies.csv" [] [mkTable "movie" "" []] (mkTable "" "" [])).
  - reflexivity.
  - intros u [].
  - reflexivity.
Defined.

End MoreTableNames.

(** ** The loader *)

Section Loader.

Variable svc : services.
Variable sc : schema.

(** X8: paths that end neither in ".csv" nor in ".xlsx" nor in ".xls"
    (the test is on the path as it is, capitals included) are passed over
    without any read and without an error: loading a list of paths is
    loading its supported ones, and a list without supported paths leaves
    the store and the log as they were. *)
Theorem unsupported_files_skipped (paths : list string) (db : store)
  (w : world) :
  load_data_to_sqlite svc sc paths db w =
  load_data_to_sqlite svc sc (filter Notions.supported paths) db w /\
  (Forall (fun p => Notions.supported p = false) paths ->
   load_data_to_sqlite svc sc paths db w = (Returns db, w)).
Proof.
  split.
  - revert db w. induction paths as [|path rest IH]; intros db w;
      [reflexivity |].
    cbn [filter]. destruct (Notions.supported path) eqn:Hs.
    + rewrite !load_supported by exact Hs. unfold bind.
      destruct (call (ReadFile path) (Loading.read_frame svc path) w)
        as [[df | e] w1]; [|reflexivity].
      destruct (to_sql svc (resolve_table_name sc path) df db w1)
        as [[db1 | e] w2]; [apply IH | reflexivity].
    + rewrite load_unsupported by exact Hs. apply IH.
  - intros Hall. revert db w.
    induction Hall as [|path rest Hs _ IH]; intros db w; [reflexivity |].
    rewrite load_unsupported by exact Hs. apply IH.
Qed.

(** X9: when loading returns, the table names of the store are still
    pairwise different, and they are the names the store had before and the
    resolved names of the supported paths. *)
Theorem loaded_table_names (paths : list string) (db db' : store)
  (w : world) :
  fst (load_data_to_sqlite svc sc paths db w) = Returns db' ->
  NoDup (PyDict.keys db) ->
  NoDup (PyDict.keys db') /\
  (forall k,
      In k (PyDict.keys db') <->
      In k (PyDict.keys db) \/
      exists p, In p paths /\ Notions.supported p = true /\
                resolve_table_name sc p = k).
Proof.
  revert db w. induction paths as [|path rest IH]; intros db w Hrun Hnd.
  - simpl in Hrun. injection Hrun as <-. split; [exact Hnd |].
    intros k. split; [now left | intros [H | (p & [] & _)]; exact H].
  - destruct (Notions.supported path) eqn:Hs.
    + rewrite load_supported in Hrun by exact Hs.
      unfold bind, call, to_sql in Hrun.
      destruct (Loading.read_frame svc path) as [df | e];
        [|discriminate Hrun].
      destruct (to_sql_reply svc db (resolve_table_name sc path) df);
        [|discriminate Hrun].
      apply IH in Hrun; [|now apply nodup_keys_set].
      destruct Hrun as [Hnd' Hkeys]. split; [exact Hnd' |].
      intros k. rewrite Hkeys, in_keys_set. split.
      * intros [[-> | Hk] | (p & Hp & Hsp & Hrp)].
        -- right. exists path. split; [now left | now split].
        -- now left.
        -- right. exists p. split; [now right | now split].
      * intros [Hk | (p & [<- | Hp] & Hsp & Hrp)].
        -- left. now right.
        -- left. left. now symmetry.
        -- right. now exists p.
    + rewrite load_unsupported in Hrun by exact Hs.
      apply IH in Hrun; [|exact Hnd].
      destruct Hrun as [Hnd' Hkeys]. split; [exact Hnd' |].
      intros k. rewrite Hkeys. split.
      * intros [Hk | (p & Hp & Hsp & Hrp)]; [now left |].
        right. exists p. split; [now right | now split].
      * intros [Hk | (p & [<- | Hp] & Hsp & Hrp)]; [now left | congruence |].
        right. now exists p.
Qed.

Lemma get_load_other (paths : list string) (db db' : store) (w : world)
  (k : string) :
  fst (load_data_to_sqlite svc sc paths db w) = Returns db' ->
  (forall q, In q paths -> Notions.supported q = true ->
             resolve_table_name sc q <> k) ->
  PyDict.get k db' = PyDict.get k db.
Proof.
  revert db w. induction paths as [|path rest IH]; intros db w Hrun Hother.
  - simpl in Hrun. now injection Hrun as <-.
  - destruct (Notions.supported path) eqn:Hs.
    + rewrite load_supported in Hrun by exact Hs.
      unfold bind, call, to_sql in Hrun.
      destruct (Loading.read_frame svc path) as [df | e];
        [|discriminate Hrun].
      destruct (to_sql_reply svc db (resolve_table_name sc path) df);
        [|discriminate Hrun].
      apply IH in Hrun; [|intros q Hq; apply Hother; now right].
      rewrite Hrun. apply get_set_other. apply Hother; [now left | exact Hs].
    + rewrite load_unsupported in Hrun by exact Hs.
      apply IH in Hrun; [exact Hrun |].
      intros q Hq. apply Hother. now right.
Qed.

(** X10: of several files that resolve to the same table name, the last one
    decides the contents of the table: after a load that returned, the
    table of a supported path no later path resolves to holds the frame
    read from that path. *)
Theorem last_file_wins (before after : list string) (path : string)
  (db db' : store) (w : world) :
  fst (load_data_to_sqlite svc sc (before ++ path :: after) db w)
  = Returns db' ->
  Notions.supported path = true ->
  (forall q, In q after -> Notions.supported q = true ->
             resolve_table_name sc q <> resolve_table_name sc path) ->
  exists df,
    Loading.read_frame svc path = Returns df /\
    PyDict.get (resolve_table_name sc path) db' = Some df.
Proof.
  revert db w. induction before as [|p before IH]; intros db w Hrun Hs Hafter.
  - cbn [app] in Hrun. rewrite load_supported in Hrun by exact Hs.
    unfold bind, call, to_sql in Hrun.
    destruct (Loading.read_frame svc path) as [df | e]; [|discriminate Hrun].
    destruct (to_sql_reply svc db (resolve_table_name sc path) df);
      [|discriminate Hrun].
    exists df. split; [reflexivity |].
    rewrite (get_load_other _ _ _ _ _ Hrun Hafter). apply get_set_same.
  - cbn [app] in Hrun. destruct (Notions.supported p) eqn:Hp.
    + rewrite load_supported in Hrun by exact Hp.
      unfold bind, call, to_sql in Hrun.
      destruct (Loading.read_frame svc p) as [df | e]; [|discriminate Hrun].
      destruct (to_sql_reply svc db (resolve_table_name sc p) df);
        [|discriminate Hrun].
      now apply IH in Hrun.
    + rewrite load_unsupported in Hrun by exact Hp. now apply IH in Hrun.
Qed.

End Loader.

Section LoaderExamples.

Lemma unsupported_files_skipped_witness :
  load_data_to_sqlite Loading.labelling_reader Fixtures.movie_schema
    ["notes.pdf"; "MOVIES.CSV"; "schema.json"] [] Fixtures.fresh_world =
  (Returns [], Fixtures.fresh_world).
Proof.
  apply (unsupported_files_skipped Loading.labelling_reader
           Fixtures.movie_schema ["notes.pdf"; "MOVIES.CSV"; "schema.json"]).
  repeat constructor.
Defined.

Lemma loaded_table_names_witness :
  NoDup
    (PyDict.keys
       [("movie", mkFrame ["dir/movies_2.csv"] []);
        ("rating", mkFrame ["ratings.xlsx"] [])]).
Proof.
  apply (loaded_table_names Loading.labelling_reader Fixtures.movie_schema
           ["movies_1.csv"; "ratings.xlsx"; "dir/movies_2.csv"] []
           [("movie", mkFrame ["dir/movies_2.csv"] []);
            ("rating", mkFrame ["ratings.xlsx"] [])]
           Fixtures.fresh_world).
  - reflexivity.
  - constructor.
Defined.

Lemma last_file_wins_witness :
  exists df,
    Loading.read_frame Loading.labelling_reader "dir/movies_2.csv"
    = Returns df /\
    PyDict.get "movie"
      [("movie", mkFrame ["dir/movies_2.csv"] []);
       ("rating", mkFrame ["ratings.xlsx"] [])] = Some df.
Proof.
  apply (last_file_wins Loading.labelling_reader Fixtures.movie_schema
           ["movies_1.csv"; "ratings.xlsx"] [] "dir/movies_2.csv" []
           [("movie", mkFrame ["dir/movies_2.csv"] []);
            ("rating", mkFrame ["ratings.xlsx"] [])]
           Fixtures.fresh_world).
  - reflexivity.
  - reflexivity.
  - intros q [].
Defined.

End LoaderExamples.

(** ** What can and cannot escape the structured branch *)

Section StructuredBranch.

Variable cb : collaborators.
Variable project_id : string.

Lemma find_schema_raises (docs : list document) (w : world) (e : pyexn) :
  fst (find_schema cb project_id docs w) = Raises e ->
  makedirs_reply cb (Spec.schema_dir project_id) = Raises e /\
  exists doc, In doc docs /\ is_json doc = true.
Proof.
  unfold Spec.schema_dir.
  induction docs as [|doc rest IH]; cbn [find_schema]; [discriminate |].
  destruct (is_json doc) eqn:Hj.
  - cbv zeta. unfold bind, call, try_except, ret.
    destruct (makedirs_reply cb ("/tmp/schema_agent/" ++ project_id))
      as [u | e'].
    + now destruct (download_reply cb (s3_key doc) _).
    + intros H. injection H as ->. split; [reflexivity |].
      exists doc. split; [now left | exact Hj].
  - intros H. destruct (IH H) as (Hmk & d & Hd & Hdj).
    split; [exact Hmk |]. exists d. split; [now right | exact Hdj].
Qed.

(** X12: the only exception that can leave the structured branch is the
    one raised while creating the scratch directory of the schema file;
    failures of the downloads, of the schema load, of the table reads, of
    both LLM steps and of the query all end as a text in its slot. *)
Theorem structured_branch_escape (docs files : list document)
  (content : string) (w : world) :
  (forall e,
      fst (structured_pipeline cb project_id docs files content w)
      = Raises e ->
      makedirs_reply cb (Spec.schema_dir project_id) = Raises e /\
      files <> [] /\
      exists doc, In doc docs /\ is_json doc = true) /\
  ((forall e, makedirs_reply cb (Spec.schema_dir project_id) <> Raises e) ->
   exists text,
     fst (structured_pipeline cb project_id docs files content w)
     = Returns text).
Proof.
  assert (Hescape : forall e,
             fst (structured_pipeline cb project_id docs files content w)
             = Raises e ->
             makedirs_reply cb (Spec.schema_dir project_id) = Raises e /\
             files <> [] /\
             exists doc, In doc docs /\ is_json doc = true).
  { intros e. unfold structured_pipeline.
    destruct files as [|f fs]; [discriminate |].
    unfold bind at 1.
    pose proof (find_schema_raises docs w) as Hfind.
    destruct (find_schema cb project_id docs w) as [[o | e'] w1].
    - destruct o as [p|]; [|discriminate].
      destruct (truthy p); [|discriminate].
      unfold try_except.
      match goal with
      | |- context [match ?body w1 with _ => _ end] =>
          destruct (body w1) as [[a | e''] w2]
      end; discriminate.
    - cbn [fst]. intros H. injection H as ->.
      destruct (Hfind e eq_refl) as [Hmk Hdoc].
      split; [exact Hmk |]. split; [discriminate | exact Hdoc]. }
  split; [exact Hescape |].
  intros Hmk.
  destruct (fst (structured_pipeline cb project_id docs files content w))
    as [text | e] eqn:E; [now exists text |].
  destruct (Hescape e eq_refl) as [Hraise _]. now apply Hmk in Hraise.
Qed.

Lemma find_schema_truthy (docs : list document) (w : world) (p : string) :
  fst (find_schema cb project_id docs w) = Returns (Some p) ->
  truthy p = true.
Proof.
  induction docs as [|doc rest IH]; cbn [find_schema]; [discriminate |].
  destruct (is_json doc); [|exact IH].
  cbv zeta. unfold bind, call, try_except, ret.
  destruct (makedirs_reply cb ("/tmp/schema_agent/" ++ project_id));
    [|discriminate].
  destruct (download_reply cb (s3_key doc) _); [|discriminate].
  cbn [fst]. intros H. injection H as <-. now apply path_join_truthy.
Qed.

(** The structured branch from the point where the agent is built. *)
Lemma structured_pipeline_at_agent (docs files : list document)
  (schema_path : string) (paths : list string) (content : string)
  (w : world) :
  Branches.reaches_agent cb project_id docs files schema_path paths ->
  exists w1,
    fst (structured_pipeline cb project_id docs files content w) =
    match SmartSqlAgent.create_smart_agent (agent_services cb) paths
            schema_path w1 with
    | (Raises e, _) => Returns (structured_error e)
    | (Returns agent, w2) =>
        match SmartSqlAgent.execute_and_answer (agent_services cb) agent
                content w2 with
        | (Returns result, _) => Returns (answer_text result)
        | (Raises e, _) => Returns (structured_error e)
        end
    end.
Proof.
  intros (Hfiles & Hfind & Hmk & Hdown).
  unfold structured_pipeline. destruct files as [|f fs]; [congruence |].
  unfold bind at 1. specialize (Hfind w).
  pose proof (find_schema_truthy docs w schema_path Hfind) as Htruthy.
  destruct (find_schema cb project_id docs w) as [o w0].
  cbn [fst] in Hfind. subst o. rewrite Htruthy.
  unfold Spec.csv_dir in *. cbv zeta. unfold try_except.
  unfold bind at 1. unfold call at 1. rewrite Hmk.
  unfold bind at 1.
  match goal with
  | |- context [download_files cb ?d ?l ?wd] =>
      specialize (Hdown wd); destruct (download_files cb d l wd) as [o wd']
  end.
  cbn [fst] in Hdown. subst o. exists wd'.
  unfold bind at 1.
  destruct (create_smart_agent (agent_services cb) paths schema_path wd')
    as [[agent | e] w2]; [|reflexivity].
  unfold bind at 1.
  destruct (execute_and_answer (agent_services cb) agent content w2)
    as [[result | e] w3]; reflexivity.
Qed.

(** X13: once the files are fetched, a failure while building the agent
    (the schema file does not load, a table file cannot be read) is put in
    the slot as "[Error analyzing structured data: <error>]", while a
    failure of the filter step of the agent is put there as the plain
    "Error executing SQL or processing request: <error>". *)
Theorem agent_failure_texts (docs files : list document)
  (schema_path : string) (paths : list string) (content : string)
  (w : world) :
  Branches.reaches_agent cb project_id docs files schema_path paths ->
  (forall e,
      (forall w1,
          fst (create_smart_agent (agent_services cb) paths schema_path w1)
          = Raises e) ->
      fst (structured_pipeline cb project_id docs files content w) =
      Returns ("[Error analyzing structured data: " ++ str_exn e ++ "]")%string)
  /\
  (forall agent e,
      (forall w1,
          fst (create_smart_agent (agent_services cb) paths schema_path w1)
          = Returns agent) ->
      filter_reply (agent_services cb) (agent_schema agent) content
      = Raises e ->
      fst (structured_pipeline cb project_id docs files content w) =
      Returns ("Error executing SQL or processing request: " ++ str_exn e)%string).
Proof.
  intros Hreach.
  destruct (structured_pipeline_at_agent docs files schema_path paths content
              w Hreach) as [w1 Hrun].
  split.
  - intros e Hcreate. rewrite Hrun. specialize (Hcreate w1).
    destruct (create_smart_agent (agent_services cb) paths schema_path w1)
      as [o w2].
    cbn [fst] in Hcreate. now subst o.
  - intros agent e Hcreate Hfilter. rewrite Hrun. specialize (Hcreate w1).
    destruct (create_smart_agent (agent_services cb) paths schema_path w1)
      as [o w2].
    cbn [fst] in Hcreate. subst o.
    pose proof (execute_filter_raises (agent_services cb) agent content w2
                  e Hfilter) as Hf.
    destruct (execute_and_answer (agent_services cb) agent content w2)
      as [o w3].
    cbn [fst] in Hf. now subst o.
Qed.

End StructuredBranch.

Section StructuredBranchExamples.

Lemma fixture_reaches_agent (svc : services) :
  Branches.reaches_agent (BranchFixtures.with_services svc) "p1"
    Fixtures.project_documents
    (filter is_structured Fixtures.project_documents)
    "/tmp/schema_agent/p1/schema.json" ["/tmp/csv_agent/p1/movies.csv"].
Proof.
  split; [discriminate |]. split; [intros w; reflexivity |].
  split; [reflexivity | intros w; reflexivity].
Qed.

Lemma structured_branch_escape_witness :
  exists text,
    fst (structured_pipeline (Fixtures.storage_down "k-csv") "p1"
           Fixtures.project_documents
           (filter is_structured Fixtures.project_documents)
           "list a and b" Fixtures.fresh_world) = Returns text.
Proof.
  apply (structured_branch_escape (Fixtures.storage_down "k-csv") "p1"
           Fixtures.project_documents
           (filter is_structured Fixtures.project_documents)
           "list a and b" Fixtures.fresh_world).
  intros e. discriminate.
Defined.

Lemma agent_failure_texts_witness :
  fst (structured_pipeline
         (BranchFixtures.with_services BranchFixtures.bad_schema_services)
         "p1" Fixtures.project_documents
         (filter is_structured Fixtures.project_documents)
         "list a and b" Fixtures.fresh_world) =
    Returns "[Error analyzing structured data: Expecting value: line 1 column 1 (char 0)]" /\
  fst (structured_pipeline
         (BranchFixtures.with_services MoreFixtures.broken_filter_services)
         "p1" Fixtures.project_documents
         (filter is_structured Fixtures.project_documents)
         "list a and b" Fixtures.fresh_world) =
    Returns "Error executing SQL or processing request: Invalid json output".
Proof.
  split.
  - destruct (agent_failure_texts
                (BranchFixtures.with_services BranchFixtures.bad_schema_services)
                "p1" Fixtures.project_documents
                (filter is_structured Fixtures.project_documents)
                "/tmp/schema_agent/p1/schema.json"
                ["/tmp/csv_agent/p1/movies.csv"] "list a and b"
                Fixtures.fresh_world
                (fixture_reaches_agent BranchFixtures.bad_schema_services))
      as [Hbuild _].
    apply (Hbuild (Exception "Expecting value: line 1 column 1 (char 0)")).
    intros w1. reflexivity.
  - destruct (agent_failure_texts
                (BranchFixtures.with_services MoreFixtures.broken_filter_services)
                "p1" Fixtures.project_documents
                (filter is_structured Fixtures.project_documents)
                "/tmp/schema_agent/p1/schema.json"
                ["/tmp/csv_agent/p1/movies.csv"] "list a and b"
                Fixtures.fresh_world
                (fixture_reaches_agent MoreFixtures.broken_filter_services))
      as [_ Hfilter].
    apply (Hfilter
             (mkAgent ["/tmp/csv_agent/p1/movies.csv"] Fixtures.movie_schema
                [("movie", mkFrame [] [])])
             (Exception "Invalid json output")).
    + intros w1. reflexivity.
    + reflexivity.
Defined.

End StructuredBranchExamples.

(** ** The downloads of the structured branch *)

Section Downloads.

Variable cb : collaborators.

Lemma download_files_all (temp_dir : string) (files : list document)
  (w : world) :
  Forall (fun d =>
            download_reply cb (s3_key d) (Branches.local_path temp_dir d)
            = Returns tt) files ->
  download_files cb temp_dir files w =
  (Returns (map (Branches.local_path temp_dir) files),
   mkWorld (messages w)
     (log w ++ map (Branches.download_of temp_dir) files)).
Proof.
  unfold Branches.download_of, Branches.local_path.
  intros Hall. revert w.
  induction Hall as [|doc rest Hdoc _ IH]; intros w;
    cbn [download_files map]; cbv zeta.
  - unfold ret. rewrite app_nil_r. now destruct w.
  - unfold bind at 1. unfold call at 1. rewrite Hdoc.
    unfold bind at 1. rewrite IH. unfold ret. cbn [messages log].
    now rewrite <- app_assoc.
Qed.

(** X14: the structured files are downloaded in their order, each to its
    name below the scratch directory.  When every download succeeds the
    local paths come back in that order; at the first download that fails
    the loop ends with its error, and no later file is asked for. *)
Theorem downloads_in_order (temp_dir : string) (w : world) :
  (forall files,
      Forall (fun d =>
                download_reply cb (s3_key d) (Branches.local_path temp_dir d)
                = Returns tt) files ->
      download_files cb temp_dir files w =
      (Returns (map (Branches.local_path temp_dir) files),
       mkWorld (messages w)
         (log w ++ map (Branches.download_of temp_dir) files))) /\
  (forall before doc after e,
      Forall (fun d =>
                download_reply cb (s3_key d) (Branches.local_path temp_dir d)
                = Returns tt) before ->
      download_reply cb (s3_key doc) (Branches.local_path temp_dir doc)
      = Raises e ->
      download_files cb temp_dir (before ++ doc :: after) w =
      (Raises e,
       mkWorld (messages w)
         (log w ++ map (Branches.download_of temp_dir) (before ++ [doc])))).
Proof.
  split; [intros files; apply download_files_all |].
  intros before doc after e Hbefore Hdoc. revert w.
  unfold Branches.download_of, Branches.local_path in *.
  induction Hbefore as [|d before Hd _ IH]; intros w;
    cbn [app download_files map]; cbv zeta.
  - unfold bind at 1. unfold call at 1. now rewrite Hdoc.
  - unfold bind at 1. unfold call at 1. rewrite Hd.
    unfold bind at 1. rewrite IH. cbn [messages log].
    now rewrite <- app_assoc.
Qed.

(** X15: only the first document whose lowered name ends in ".json" is
    taken as the schema: its directory is created and its download is
    tried, once, and whether that download works or not no other document
    is asked for.  Without such a document nothing is called at all. *)
Theorem first_schema_only (project_id : string) (docs : list document)
  (w : world) :
  (forall doc,
      Spec.schema_document docs doc ->
      makedirs_reply cb (Spec.schema_dir project_id) = Returns tt ->
      find_schema cb project_id docs w =
      (match download_reply cb (s3_key doc)
               (Branches.local_path (Spec.schema_dir project_id) doc) with
       | Returns _ =>
           Returns (Some (Branches.local_path (Spec.schema_dir project_id) doc))
       | Raises _ => Returns None
       end,
       mkWorld (messages w)
         (log w ++ [MakeDirs (Spec.schema_dir project_id);
                    Branches.download_of (Spec.schema_dir project_id) doc])))
  /\
  (Forall (fun d => is_json d = false) docs ->
   find_schema cb project_id docs w = (Returns None, w)).
Proof.
  unfold Branches.download_of, Branches.local_path, Spec.schema_dir.
  split.
  - intros doc (before & after & -> & Hbefore & Hjson) Hmk.
    induction Hbefore as [|d before Hd _ IH]; cbn [app find_schema].
    + rewrite Hjson. cbv zeta. unfold bind, call, try_except, ret.
      rewrite Hmk. cbn [messages log].
      destruct (download_reply cb (s3_key doc) _);
        cbn [messages log]; now rewrite <- app_assoc.
    + rewrite Hd. exact IH.
  - intros Hnone. induction Hnone as [|d rest Hd _ IH]; cbn [find_schema];
      [reflexivity |].
    rewrite Hd. exact IH.
Qed.

End Downloads.

Section DownloadExamples.

Lemma downloads_in_order_witness :
  download_files (Fixtures.storage_down "k-b") "/tmp/csv_agent/p1"
    (filter is_structured BranchFixtures.two_schemas) Fixtures.fresh_world =
  (Raises (Exception "NoSuchKey"),
   mkWorld []
     [Download "k-a" "/tmp/csv_agent/p1/a.csv";
      Download "k-b" "/tmp/csv_agent/p1/b.csv"]) /\
  download_files (Fixtures.storage_down "k-none") "/tmp/csv_agent/p1"
    (filter is_structured BranchFixtures.two_schemas) Fixtures.fresh_world =
  (Returns ["/tmp/csv_agent/p1/a.csv"; "/tmp/csv_agent/p1/b.csv"],
   mkWorld []
     [Download "k-a" "/tmp/csv_agent/p1/a.csv";
      Download "k-b" "/tmp/csv_agent/p1/b.csv"]).
Proof.
  split.
  - destruct (downloads_in_order (Fixtures.storage_down "k-b")
                "/tmp/csv_agent/p1" Fixtures.fresh_world) as [_ Hfail].
    apply (Hfail [mkDocument "a.csv" "k-a"] (mkDocument "b.csv" "k-b") []
             (Exception "NoSuchKey")).
    + repeat constructor.
    + reflexivity.
  - destruct (downloads_in_order (Fixtures.storage_down "k-none")
                "/tmp/csv_agent/p1" Fixtures.fresh_world) as [Hall _].
    apply (Hall [mkDocument "a.csv" "k-a"; mkDocument "b.csv" "k-b"]).
    repeat constructor.
Defined.

Lemma first_schema_only_witness :
  find_schema (Fixtures.storage_down "k-1") "p1" BranchFixtures.two_schemas
    Fixtures.fresh_world =
  (Returns None,
   mkWorld []
     [MakeDirs "/tmp/schema_agent/p1";
      Download "k-1" "/tmp/schema_agent/p1/first.json"]) /\
  find_schema (Fixtures.storage_down "k-1") "p1"
    [mkDocument "a.csv" "k-a"; mkDocument "notes.pdf" "k-pdf"]
    Fixtures.fresh_world =
  (Returns None, Fixtures.fresh_world).
Proof.
  split.
  - destruct (first_schema_only (Fixtures.storage_down "k-1") "p1"
                BranchFixtures.two_schemas Fixtures.fresh_world)
      as [Hfirst _].
    apply (Hfirst (mkDocument "first.json" "k-1")).
    + exists [mkDocument "a.csv" "k-a"],
             [mkDocument "b.csv" "k-b"; mkDocument "second.json" "k-2"].
      split; [reflexivity |]. split; [|reflexivity].
      repeat constructor.
    + reflexivity.
  - destruct (first_schema_only (Fixtures.storage_down "k-1") "p1"
                [mkDocument "a.csv" "k-a"; mkDocument "notes.pdf" "k-pdf"]
                Fixtures.fresh_world) as [_ Hnone].
    apply Hnone. repeat constructor.
Defined.

End DownloadExamples.

(** ** The unstructured branch *)

Section UnstructuredBranch.

Variable cb : collaborators.

Lemma get_chat_history_run (chat_id id : string) (w : world) :
  get_chat_history cb chat_id (Some id) w =
  (Returns (Branches.history_of cb chat_id id w),
   mkWorld (messages w) (log w ++ [SelectMessages])).
Proof.
  unfold get_chat_history, try_except, bind, select_messages, ret,
    Branches.history_of.
  now destruct (messages_fault cb).
Qed.

Lemma length_last10 {A} (l : list A) : List.length (last10 l) <= 10.
Proof. unfold last10. rewrite length_skipn. lia. Qed.

Lemma length_format_history (data : list message) :
  List.length (format_history data) <= 10.
Proof.
  rewrite format_history_map, length_map. apply length_last10.
Qed.

(** X16: [get_chat_history] never raises and never returns more than 10
    entries; when the message table cannot be read it returns the empty
    history. *)
Theorem history_never_raises (chat_id : string)
  (exclude_message_id : option string) (w : world) :
  (exists history,
      fst (get_chat_history cb chat_id exclude_message_id w)
      = Returns history /\
      List.length history <= 10) /\
  (forall e,
      messages_fault cb = Some e ->
      fst (get_chat_history cb chat_id exclude_message_id w) = Returns []).
Proof.
  unfold get_chat_history, try_except, bind, select_messages, ret.
  split.
  - destruct (messages_fault cb); cbn [fst]; eexists; split;
      try reflexivity; [simpl; lia | apply length_format_history].
  - intros e He. now rewrite He.
Qed.

(** The branch once the agent type is known. *)
Lemma unstructured_pipeline_simple (project_id chat_id id content : string)
  (w : world) :
  Branches.settings_unusable cb ->
  fst (unstructured_pipeline cb project_id chat_id id content w) =
  Branches.agent_answer cb "simple" (Branches.history_of cb chat_id id w)
    content.
Proof.
  intros Hun.
  assert (Htype :
    exists w1,
      messages w1 = messages w /\
      try_except
        (bind (get_project_settings cb project_id)
              (fun project_settings =>
                 ret (get_default
                        (ProjectRoutes.agent_type project_settings)
                        "simple")))
        (fun _ => ret (JStr "simple")) w = (Returns (JStr "simple"), w1)).
  { unfold get_project_settings, try_except, bind, call, raise, ret.
    destruct Hun as [[e He] | [He | [rest He]]]; rewrite He.
    - destruct e; eexists; (split; [|reflexivity]); reflexivity.
    - eexists; (split; [|reflexivity]); reflexivity.
    - eexists; (split; [|reflexivity]); reflexivity. }
  destruct Htype as (w1 & Hm & Htype).
  unfold unstructured_pipeline. unfold bind at 1. rewrite Htype.
  unfold bind at 1. rewrite get_chat_history_run.
  assert (Hh : Branches.history_of cb chat_id id w1
               = Branches.history_of cb chat_id id w)
    by (unfold Branches.history_of; now rewrite Hm).
  rewrite Hh. cbn [String.eqb Ascii.eqb Bool.eqb orb].
  unfold Branches.agent_answer, bind, call, ret.
  destruct (create_rag_reply cb "simple" _); [|reflexivity].
  now destruct (invoke_reply cb "simple" _ content).
Qed.

(** X17: when the project settings cannot be used (their select raises or
    finds no row, or the row has no agent type) the request is answered by
    the agent of type "simple". *)
Theorem settings_failure_means_simple (project_id chat_id id content : string)
  (w : world) :
  Branches.settings_unusable cb ->
  fst (unstructured_pipeline cb project_id chat_id id content w) =
  Branches.agent_answer cb "simple" (Branches.history_of cb chat_id id w)
    content.
Proof. apply unstructured_pipeline_simple. Qed.

(** X18: when the settings name an agent type other than "simple" and
    "agentic" (or null), no agent is created or invoked: the branch returns
    the empty text without citations, and the final answer is the
    structured text alone, or the fallback sentence when that is empty
    too. *)
Theorem unknown_agent_type_is_silent (project_id chat_id id content : string)
  (w : world) :
  Branches.unknown_agent_type cb ->
  unstructured_pipeline cb project_id chat_id id content w =
  (Returns ("", []),
   mkWorld (messages w) (log w ++ [SelectSettings; SelectMessages])) /\
  (forall csv, csv <> "" -> merge csv (suppress "") = csv) /\
  merge "" (suppress "") =
  "I searched available resources but found no relevant information or experienced an error.".
Proof.
  intros (v & rest & Hset & Hsimple & Hagentic).
  split; [|split; [|reflexivity]].
  - unfold unstructured_pipeline, get_project_settings, try_except, bind,
      call, ret.
    rewrite Hset. cbn [messages log ProjectRoutes.agent_type get_default].
    rewrite get_chat_history_run. cbn [messages log].
    destruct v as [|kind].
    + now rewrite <- app_assoc.
    + destruct (String.eqb_spec kind "simple") as [-> | _]; [congruence |].
      destruct (String.eqb_spec kind "agentic") as [-> | _]; [congruence |].
      cbn [orb]. now rewrite <- app_assoc.
  - intros csv Hcsv. unfold merge. apply truthy_iff in Hcsv.
    now rewrite Hcsv.
Qed.

End UnstructuredBranch.

Section UnstructuredExamples.

Lemma history_never_raises_witness :
  fst (get_chat_history RagFixtures.unreadable_history "c1" (Some "13")
         Fixtures.thirteen_world) = Returns [].
Proof.
  apply (history_never_raises RagFixtures.unreadable_history "c1" (Some "13")
           Fixtures.thirteen_world) with (e := Exception "connection reset").
  reflexivity.
Defined.

Lemma settings_failure_means_simple_witness :
  fst (unstructured_pipeline
         (RagFixtures.with_settings (Raises (Exception "timeout")))
         "p1" "c1" "m-user" "hello" Fixtures.fresh_world) =
    Returns ("from simple", []) /\
  fst (unstructured_pipeline (RagFixtures.with_settings (Returns []))
         "p1" "c1" "m-user" "hello" Fixtures.fresh_world) =
    Returns ("from simple", []).
Proof.
  split.
  - apply (settings_failure_means_simple
             (RagFixtures.with_settings (Raises (Exception "timeout")))
             "p1" "c1" "m-user" "hello" Fixtures.fresh_world).
    left. now eexists.
  - apply (settings_failure_means_simple
             (RagFixtures.with_settings (Returns []))
             "p1" "c1" "m-user" "hello" Fixtures.fresh_world).
    right. now left.
Defined.

Lemma unknown_agent_type_is_silent_witness :
  unstructured_pipeline
    (RagFixtures.with_settings (Returns [mkSettings (Some (JStr "hybrid"))]))
    "p1" "c1" "m-user" "hello" Fixtures.fresh_world =
  (Returns ("", []), mkWorld [] [SelectSettings; SelectMessages]).
Proof.
  apply (unknown_agent_type_is_silent
           (RagFixtures.with_settings
              (Returns [mkSettings (Some (JStr "hybrid"))]))
           "p1" "c1" "m-user" "hello" Fixtures.fresh_world).
  exists (JStr "hybrid"), []. split; [reflexivity |].
  split; discriminate.
Defined.

End UnstructuredExamples.

(** ** How a request ends *)

Section RequestOutcome.

Variable cb : collaborators.

(** X19: whatever goes wrong, [send_message] raises nothing but an
    HTTPException: an HTTPException raised inside is passed on, any other
    exception becomes status 500 with "An internal server error occurred
    while creating message: <error>". *)
Theorem only_http_exceptions (project_id chat_id content clerk_id : string)
  (w : world) (e : pyexn) :
  fst (send_message cb project_id chat_id content clerk_id w) = Raises e ->
  exists status_code detail,
    e = HTTPException status_code detail /\
    (fst (send_message_body cb project_id chat_id content clerk_id w)
     = Raises e \/
     exists msg,
       fst (send_message_body cb project_id chat_id content clerk_id w)
       = Raises (Exception msg) /\
       status_code = 500%Z /\
       detail = ("An internal server error occurred while creating message: "
                 ++ msg)%string).
Proof.
  unfold send_message, try_except.
  destruct (send_message_body cb project_id chat_id content clerk_id w)
    as [[resp | [status detail | msg]] w1]; cbn [fst].
  - discriminate.
  - intros H. injection H as <-. exists status, detail.
    split; [reflexivity | now left].
  - intros H. injection H as <-. eexists _, _.
    split; [reflexivity |]. right. exists msg. now repeat split.
Qed.

(** When the insert of the user's message comes back without data,
    [send_message] raises status 422 "Failed to create message"; when it
    raises, [send_message] raises status 500.  In both cases nothing else
    was called and the message table is as before. *)
Theorem failed_user_insert (project_id chat_id content clerk_id : string)
  (w : world) :
  (insert_reply cb "user" content = InsertNoData ->
   send_message cb project_id chat_id content clerk_id w =
   (Raises (HTTPException 422 "Failed to create message"),
    mkWorld (messages w) (log w ++ [InsertMessage "user" content]))) /\
  (forall msg,
      insert_reply cb "user" content = InsertRaises (Exception msg) ->
      send_message cb project_id chat_id content clerk_id w =
      (Raises
         (HTTPException 500
            ("An internal server error occurred while creating message: "
             ++ msg)),
       mkWorld (messages w) (log w ++ [InsertMessage "user" content]))).
Proof.
  unfold send_message, try_except, send_message_body, bind, insert_message,
    raise.
  split.
  - intros H. now rewrite H.
  - intros msg H. now rewrite H.
Qed.

Lemma silent_step {A} (m : M A) (w : world) :
  Spec.silent m -> messages (snd (m w)) = messages w.
Proof. intros H. apply H. Qed.

(** What [answer_message] does to the table. *)
Lemma answer_message_table (project_id chat_id content clerk_id : string)
  (user_row : message) (w : world) :
  match answer_message cb project_id chat_id content clerk_id user_row w with
  | (Returns resp, w') =>
      userMessage resp = user_row /\
      messages w' = messages w ++ [aiMessage resp] /\
      msg_role (aiMessage resp) = Some (JStr "assistant") /\
      msg_chat_id (aiMessage resp) = chat_id
  | (Raises _, w') => messages w' = messages w
  end.
Proof.
  unfold answer_message.
  unfold bind at 1. unfold call at 1.
  destruct (documents_reply cb) as [docs | e]; [|reflexivity].
  unfold bind at 1.
  match goal with
  | |- context [structured_pipeline cb ?p ?d ?f ?c ?w1] =>
      pose proof (silent_structured_pipeline cb p d f c w1) as H1;
      destruct (structured_pipeline cb p d f c w1) as [[csv | e] w2]
  end; cbn [snd messages] in H1; [|exact H1].
  unfold bind at 1.
  match goal with
  | |- context [unstructured_pipeline cb ?p ?ch ?i ?c w2] =>
      pose proof (silent_unstructured_pipeline cb p ch i c w2) as H2;
      destruct (unstructured_pipeline cb p ch i c w2) as [[[rag cits] | e] w3]
  end; cbn [snd] in H2; [|congruence].
  unfold bind, insert_message, raise, ret.
  destruct (insert_reply cb "assistant" (merge csv (suppress rag)));
    cbn [messages]; try congruence.
  split; [reflexivity |]. split; [|split; reflexivity].
  cbn [aiMessage]. congruence.
Qed.

(** X20: when [send_message] returns, the message table has grown by
    exactly the two rows of the response, the user's message and then the
    assistant's; when it raises, the table has no new assistant row: it is
    as before, or has grown by the user's row only. *)
Theorem table_after_request (project_id chat_id content clerk_id : string)
  (w : world) :
  match send_message cb project_id chat_id content clerk_id w with
  | (Returns resp, w') =>
      messages w' = messages w ++ [userMessage resp; aiMessage resp] /\
      msg_role (userMessage resp) = Some (JStr "user") /\
      msg_content (userMessage resp) = Some (JStr content) /\
      msg_role (aiMessage resp) = Some (JStr "assistant")
  | (Raises _, w') =>
      messages w' = messages w \/
      exists id,
        messages w' =
        messages w ++ [Requests.stored_row id chat_id clerk_id "user" content []]
  end.
Proof.
  unfold send_message, try_except, send_message_body.
  unfold bind at 1. unfold insert_message at 1.
  destruct (insert_reply cb "user" content) as [e | | id].
  - destruct e; now left.
  - now left.
  - match goal with
    | |- context [answer_message cb ?p ?ch ?c ?ck ?row ?w1] =>
        pose proof (answer_message_table p ch c ck row w1) as Hans;
        destruct (answer_message cb p ch c ck row w1) as [[resp | e] w2]
    end; cbn [messages] in Hans.
    + destruct Hans as (Hu & Hm & Hr & _). rewrite Hm, Hu.
      split; [now rewrite <- app_assoc |]. now repeat split.
    + destruct e; right; exists id; exact Hans.
Qed.

End RequestOutcome.

Section RequestExamples.

Lemma only_http_exceptions_witness :
  exists status_code detail,
    HTTPException 500
      "An internal server error occurred while creating message: rate limit"
    = HTTPException status_code detail.
Proof.
  destruct (only_http_exceptions Fixtures.rag_down "p1" "c1" "list a and b"
              "u1" Fixtures.fresh_world
              (HTTPException 500
                 "An internal server error occurred while creating message: rate limit"))
    as (status & detail & He & _).
  - reflexivity.
  - now exists status, detail.
Defined.

Lemma failed_user_insert_witness :
  send_message Requests.rejecting_insert "p1" "c1" "hello" "u1"
    Fixtures.fresh_world =
  (Raises (HTTPException 422 "Failed to create message"),
   mkWorld [] [InsertMessage "user" "hello"]).
Proof.
  apply (failed_user_insert Requests.rejecting_insert "p1" "c1" "hello" "u1"
           Fixtures.fresh_world).
  reflexivity.
Defined.

End RequestExamples.

(** ** More on suppression and merge *)

Section MoreMerge.

(** X22: the final answer is never empty, whatever the two branches
    produced. *)
Theorem merge_never_empty (csv rag : string) : merge csv rag <> "".
Proof.
  unfold merge.
  destruct (truthy csv) eqn:Hc; destruct (truthy rag) eqn:Hr; cbn [andb].
  - discriminate.
  - now apply truthy_iff.
  - now apply truthy_iff.
  - discriminate.
Qed.

Lemma suppress_hit (text phrase pre post : string) :
  In phrase generic_phrases ->
  lower text = (pre ++ phrase ++ post)%string ->
  suppress text = placeholder.
Proof.
  intros Hin Heq.
  assert (Hc : contains phrase (lower text) = true)
    by (apply contains_iff; eauto).
  unfold suppress. destruct (truthy text) eqn:Ht.
  - assert (He : existsb (fun p => contains p (lower text)) generic_phrases
                 = true)
      by (apply existsb_exists; eauto).
    now rewrite He.
  - apply truthy_false_iff in Ht. subst text. cbn [lower] in Hc.
    now rewrite (phrases_not_in_empty phrase Hin) in Hc.
Qed.

(** Suppressing twice is suppressing once: the placeholder is itself
    replaced by the placeholder, and a text that was kept is kept again. *)
Theorem suppress_idempotent (text : string) :
  suppress (suppress text) = suppress text.
Proof.
  unfold suppress at 2 3. destruct (truthy text) eqn:Ht.
  - destruct (existsb (fun phrase => contains phrase (lower text))
                generic_phrases) eqn:He.
    + reflexivity.
    + unfold suppress. now rewrite Ht, He.
  - unfold suppress. now rewrite Ht.
Qed.

(** X23: an answer of the document agent that repeats an earlier final
    answer of this pipeline is replaced by the placeholder: a merged
    two-section answer (it contains "Analysis from Structured Data") and
    the answer of an executed query (it contains "Executed SQL"). *)
Theorem echoed_answers_suppressed :
  (forall csv rag,
      csv <> "" -> rag <> "" ->
      suppress (merge csv rag) = "No relevant chunks found") /\
  (forall before sql table,
      suppress (before ++ "Executed SQL: `" ++ sql ++ "`" ++ nl ++ nl ++ table)
      = "No relevant chunks found").
Proof.
  split.
  - intros csv rag Hc Hr. unfold merge.
    apply truthy_iff in Hc, Hr. rewrite Hc, Hr. cbn [andb].
    apply (suppress_hit _ "analysis from structured data" "**"
             (lower (":**" ++ nl ++ csv ++ nl ++ nl
                     ++ "**Analysis from Documents:**" ++ nl ++ rag))).
    + simpl. intuition.
    + reflexivity.
  - intros before sql table.
    apply (suppress_hit _ "executed sql" (lower before)
             (lower (": `" ++ sql ++ "`" ++ nl ++ nl ++ table))).
    + simpl. intuition.
    + now rewrite lower_app.
Qed.

Lemma echoed_answers_suppressed_witness :
  suppress (merge "S" "U") = "No relevant chunks found".
Proof.
  destruct echoed_answers_suppressed as [Hmerged _].
  apply (Hmerged "S" "U"); discriminate.
Defined.

End MoreMerge.

(** ** Classification against loading *)

Section ExtensionCase.

Lemma lower_length (s : string) : String.length (lower s) = String.length s.
Proof. induction s as [|c s IH]; simpl; [reflexivity | now rewrite IH]. Qed.

Lemma path_join_ending (a b : string) : exists pre, path_join a b = (pre ++ b)%string.
Proof.
  unfold path_join. destruct (prefix "/" b); [now exists "" |].
  destruct (negb (truthy a) || endswith a "/"); [now exists a |].
  exists (a ++ "/")%string. now rewrite append_assoc.
Qed.

Lemma not_endswith (s ending suf head tail : string) :
  (exists pre, s = (pre ++ ending)%string) ->
  suf = (head ++ tail)%string ->
  String.length ending = String.length tail ->
  ending <> tail ->
  endswith s suf = false.
Proof.
  intros [pre ->] -> Hlen Hne.
  destruct (endswith (pre ++ ending) (head ++ tail)) eqn:E; [|reflexivity].
  apply endswith_iff in E. destruct E as [pre' E].
  rewrite <- append_assoc in E. now apply endings_equal in E.
Qed.

(** X11: the orchestrator classifies a document by its lowered name, the
    loader tests the path as it is.  A document whose extension is ".csv"
    in another spelling (".CSV", ".Csv") counts as structured and is
    downloaded, and the loader passes it over: no table is made from it. *)
Theorem capital_extension_not_loaded (svc : services) (sc : schema)
  (temp_dir stem ext key : string) (rest : list string) (db : store)
  (w : world) :
  lower ext = ".csv" -> ext <> ".csv" ->
  is_structured (mkDocument (stem ++ ext) key) = true /\
  load_data_to_sqlite svc sc
    (Branches.local_path temp_dir (mkDocument (stem ++ ext) key) :: rest)
    db w =
  load_data_to_sqlite svc sc rest db w.
Proof.
  intros Hlow Hne.
  assert (Hlen : String.length ext = 4)
    by (rewrite <- lower_length, Hlow; reflexivity).
  split.
  - unfold is_structured. cbn [filename]. rewrite lower_app, Hlow.
    assert (H : endswith (lower stem ++ ".csv") ".csv" = true)
      by (apply endswith_iff; now eexists).
    now rewrite H.
  - unfold Branches.local_path. cbn [filename].
    destruct (path_join_ending temp_dir (stem ++ ext)) as [pre Hpre].
    rewrite Hpre, <- append_assoc.
    assert (Hend : exists pre0, ((pre ++ stem) ++ ext)%string
                                = (pre0 ++ ext)%string) by now eexists.
    cbn [load_data_to_sqlite].
    rewrite (not_endswith _ ext ".csv" "" ".csv" Hend eq_refl Hlen Hne).
    rewrite (not_endswith _ ext ".xlsx" "." "xlsx" Hend eq_refl Hlen)
      by (intros ->; discriminate Hlow).
    rewrite (not_endswith _ ext ".xls" "" ".xls" Hend eq_refl Hlen)
      by (intros ->; discriminate Hlow).
    reflexivity.
Qed.

Lemma capital_extension_not_loaded_witness :
  is_structured (mkDocument "Movies.CSV" "k-csv") = true /\
  load_data_to_sqlite Loading.labelling_reader Fixtures.movie_schema
    ["/tmp/csv_agent/p1/Movies.CSV"] [] Fixtures.fresh_world =
  (Returns [], Fixtures.fresh_world).
Proof.
  apply (capital_extension_not_loaded Loading.labelling_reader
           Fixtures.movie_schema "/tmp/csv_agent/p1" "Movies" ".CSV" "k-csv"
           [] [] Fixtures.fresh_world).
  - reflexivity.
  - discriminate.
Defined.

End ExtensionCase.

(** ** From one request to the next *)

Section NextRequest.

Variable cb : collaborators.

(** The rows of a request that returned. *)
Lemma answer_message_rows (project_id chat_id content clerk_id : string)
  (user_row : message) (w : world) :
  match answer_message cb project_id chat_id content clerk_id user_row w with
  | (Returns resp, w') =>
      userMessage resp = user_row /\
      messages w' = messages w ++ [aiMessage resp] /\
      exists id final citations,
        aiMessage resp =
        Requests.stored_row id chat_id clerk_id "assistant" final citations
  | (Raises _, _) => True
  end.
Proof.
  unfold answer_message.
  unfold bind at 1. unfold call at 1.
  destruct (documents_reply cb) as [docs | e]; [|exact I].
  unfold bind at 1.
  match goal with
  | |- context [structured_pipeline cb ?p ?d ?f ?c ?w1] =>
      pose proof (silent_structured_pipeline cb p d f c w1) as H1;
      destruct (structured_pipeline cb p d f c w1) as [[csv | e] w2]
  end; cbn [snd messages] in H1; [|exact I].
  unfold bind at 1.
  match goal with
  | |- context [unstructured_pipeline cb ?p ?ch ?i ?c w2] =>
      pose proof (silent_unstructured_pipeline cb p ch i c w2) as H2;
      destruct (unstructured_pipeline cb p ch i c w2) as [[[rag cits] | e] w3]
  end; cbn [snd] in H2; [|exact I].
  unfold bind, insert_message, raise, ret.
  destruct (insert_reply cb "assistant" (merge csv (suppress rag)))
    as [e | | id2]; try exact I.
  split; [reflexivity |]. split.
  - cbn [messages aiMessage]. congruence.
  - now eexists _, _, _.
Qed.

(** X21: what a request that returned has stored is what the next request
    of the same chat finds at the end of its history: the user's message
    as {role "user", content}, then the answer as {role "assistant",
    final answer}, provided the next message has another id than these
    two. *)
Theorem history_of_next_request
  (project_id chat_id content clerk_id : string) (w w' : world)
  (resp : response) (cb' : collaborators) (next_id : string) :
  send_message cb project_id chat_id content clerk_id w = (Returns resp, w') ->
  messages_fault cb' = None ->
  next_id <> msg_id (userMessage resp) ->
  next_id <> msg_id (aiMessage resp) ->
  exists earlier final,
    msg_content (aiMessage resp) = Some (JStr final) /\
    fst (get_chat_history cb' chat_id (Some next_id) w') =
    Returns (earlier ++ [mkEntry (JStr "user") (JStr content);
                         mkEntry (JStr "assistant") (JStr final)]).
Proof.
  unfold send_message, try_except, send_message_body.
  unfold bind at 1. unfold insert_message at 1.
  destruct (insert_reply cb "user" content) as [e | | id];
    [destruct e; discriminate | discriminate |].
  match goal with
  | |- context [answer_message cb ?p ?ch ?c ?ck ?row ?w1] =>
      pose proof (answer_message_rows p ch c ck row w1) as Hans;
      destruct (answer_message cb p ch c ck row w1) as [[resp' | e] w2]
  end; [|destruct e; discriminate].
  intros Hrun Hok Hu Ha. injection Hrun as -> ->.
  destruct Hans as (Huser & Hm & id2 & final & cits & Hai).
  cbn [messages] in Hm.
  exists (map format_message
            (skipn (List.length
                      (exclude (Some next_id)
                         (filter (fun m => msg_chat_id m =? chat_id)
                            (messages w))) + 2 - 10)
               (exclude (Some next_id)
                  (filter (fun m => msg_chat_id m =? chat_id) (messages w))))),
         final.
  split; [now rewrite Hai |].
  unfold get_chat_history, try_except, bind, select_messages, ret.
  rewrite Hok. cbn [fst]. rewrite format_history_map. f_equal.
  rewrite Hm, <- app_assoc. cbn [app].
  rewrite Huser, Hai in *.
  unfold Requests.stored_row in *. cbn [msg_id] in Hu, Ha.
  rewrite filter_app. cbn [filter msg_chat_id]. rewrite String.eqb_refl.
  assert (Hex : forall rows,
             exclude (Some next_id)
               (rows ++ [mkMessage id chat_id clerk_id (Some (JStr "user"))
                           (Some (JStr content)) [];
                         mkMessage id2 chat_id clerk_id
                           (Some (JStr "assistant")) (Some (JStr final)) cits])
             = exclude (Some next_id) rows
               ++ [mkMessage id chat_id clerk_id (Some (JStr "user"))
                     (Some (JStr content)) [];
                   mkMessage id2 chat_id clerk_id
                     (Some (JStr "assistant")) (Some (JStr final)) cits]).
  { intros rows. unfold exclude. destruct (truthy next_id); [|reflexivity].
    rewrite filter_app. cbn [filter msg_id].
    apply not_eq_sym in Hu, Ha. apply String.eqb_neq in Hu, Ha.
    now rewrite Hu, Ha. }
  rewrite Hex. unfold last10. rewrite length_app. cbn [List.length].
  rewrite skipn_app.
  match goal with
  | |- context [skipn (?n + 2 - 10 - ?n) _] =>
      replace (n + 2 - 10 - n) with 0 by lia
  end.
  cbn [skipn]. rewrite map_app. reflexivity.
Qed.

End NextRequest.

Section NextRequestExample.

Lemma history_of_next_request_witness :
  exists earlier final,
    Some (JStr ("**Analysis from Structured Data:**" ++ nl ++
                "[Error analyzing structured data: NoSuchKey]" ++ nl ++ nl ++
                "**Analysis from Documents:**" ++ nl ++ "U")%string)
    = Some (JStr final) /\
    fst (get_chat_history Fixtures.quiet_collaborators "c1" (Some "m-next")
           (snd (send_message (Fixtures.storage_down "k-csv") "p1" "c1"
                   "list a and b" "u1" Fixtures.fresh_world))) =
    Returns (earlier ++ [mkEntry (JStr "user") (JStr "list a and b");
                         mkEntry (JStr "assistant") (JStr final)]).
Proof.
  apply (history_of_next_request (Fixtures.storage_down "k-csv") "p1" "c1"
           "list a and b" "u1" Fixtures.fresh_world
           (snd (send_message (Fixtures.storage_down "k-csv") "p1" "c1"
                   "list a and b" "u1" Fixtures.fresh_world))
           (mkResponse
              (Fixtures.user_row "list a and b")
              (mkMessage "m-ai" "c1" "u1" (Some (JStr "assistant"))
                 (Some (JStr
                    ("**Analysis from Structured Data:**" ++ nl ++
                     "[Error analyzing structured data: NoSuchKey]" ++ nl
                     ++ nl ++ "**Analysis from Documents:**" ++ nl ++ "U")))
                 []))
           Fixtures.quiet_collaborators "m-next").
  - reflexivity.
  - reflexivity.
  - discriminate.
  - discriminate.
Defined.

End NextRequestExample.

(** ** Creating and deleting a project *)

Section ProjectCrudFacts.

Import ProjectCrud.

Variable f : faults.

Lemma filter_fresh (id : string) (rows : list project) :
  (forall p, In p rows -> project_id p <> id) ->
  filter (fun p => negb (project_id p =? id)) rows = rows.
Proof.
  intros H. apply filter_all. intros p Hp. apply negb_true_iff.
  apply String.eqb_neq. now apply H.
Qed.

(** X24: [create_project] stores a project together with its default
    settings (agent type "agentic") or, when the insert of the settings
    comes back without data, takes the project out again and raises status
    422: with a database that assigns a fresh id and lets the rollback
    through, both tables are then as before. *)
Theorem create_project_all_or_nothing (name description clerk_id : string)
  (s : db) :
  project_insert f = Written ->
  (forall p, In p (projects s) -> project_id p <> new_project_id f) ->
  (settings_insert f = Written ->
   exists s',
     create_project f name description clerk_id s =
     (Run.Done (mkProject (new_project_id f) name description clerk_id), s')
     /\
     projects s' =
       projects s ++ [mkProject (new_project_id f) name description clerk_id]
     /\
     project_settings s' =
       project_settings s ++ [default_settings (new_project_id f)] /\
     settings_agent_type (default_settings (new_project_id f)) = "agentic")
  /\
  (settings_insert f = WriteNoData -> rollback_delete f = None ->
   exists s',
     create_project f name description clerk_id s =
     (Run.Fail
        (HTTPException 422
           "Failed to create project settings - project creation rolled back"),
      s') /\
     projects s' = projects s /\
     project_settings s' = project_settings s).
Proof.
  intros Hins Hfresh.
  unfold create_project, reraise_as, Run.try_except, Run.bind,
    insert_project, insert_settings, delete_project_by_id, Run.raise,
    Run.ret, called.
  rewrite Hins. cbn [projects project_settings trace project_id].
  split.
  - intros Hset. rewrite Hset. eexists. split; [reflexivity |].
    now repeat split.
  - intros Hset Hdel. rewrite Hset. cbn [projects project_settings trace].
    rewrite Hdel. eexists. split; [reflexivity |].
    cbn [projects project_settings]. split; [|reflexivity].
    rewrite filter_app. cbn [filter project_id].
    rewrite String.eqb_refl. cbn [negb]. rewrite app_nil_r.
    now apply filter_fresh.
Qed.

(** X25: the rollback is tied to the insert of the settings coming back
    without data.  When that insert raises, [create_project] raises status
    500 without asking for any delete, and the new project stays in the
    table without settings; the same holds when the rollback delete itself
    raises. *)
Theorem create_project_without_rollback (name description clerk_id : string)
  (s : db) :
  project_insert f = Written ->
  (forall msg,
      settings_insert f = WriteRaises (Exception msg) ->
      create_project f name description clerk_id s =
      (Run.Fail
         (HTTPException 500
            ("An internal server error occurred while creating project: "
             ++ msg)),
       mkDb (projects s
             ++ [mkProject (new_project_id f) name description clerk_id])
            (project_settings s)
            (trace s ++ [InsertProject name description clerk_id;
                         InsertSettings (new_project_id f)]))) /\
  (forall msg,
      settings_insert f = WriteNoData ->
      rollback_delete f = Some (Exception msg) ->
      create_project f name description clerk_id s =
      (Run.Fail
         (HTTPException 500
            ("An internal server error occurred while creating project: "
             ++ msg)),
       mkDb (projects s
             ++ [mkProject (new_project_id f) name description clerk_id])
            (project_settings s)
            (trace s ++ [InsertProject name description clerk_id;
                         InsertSettings (new_project_id f);
                         DeleteProjectById (new_project_id f)]))).
Proof.
  intros Hins.
  unfold create_project, reraise_as, Run.try_except, Run.bind,
    insert_project, insert_settings, delete_project_by_id, Run.raise,
    Run.ret, called.
  rewrite Hins. cbn [projects project_settings trace project_id].
  split.
  - intros msg Hset. rewrite Hset. cbn [str_exn settings_project_id
      default_settings]. now rewrite <- app_assoc.
  - intros msg Hset Hdel. rewrite Hset.
    cbn [projects project_settings trace]. rewrite Hdel.
    cbn [str_exn settings_project_id default_settings].
    now rewrite <- !app_assoc.
Qed.

(** X26: [delete_project] never removes a project of another user,
    whatever the database does; and for a project that is not the caller's
    (or does not exist) it raises status 404 and asks for no delete. *)
Theorem delete_project_respects_owner (id clerk_id : string) (s : db) :
  (forall p,
      In p (projects s) -> project_clerk_id p <> clerk_id ->
      In p (projects (snd (delete_project f id clerk_id s)))) /\
  (ownership_select f = None ->
   (forall p, In p (projects s) -> owned id clerk_id p = false) ->
   delete_project f id clerk_id s =
   (Run.Fail
      (HTTPException 404
         "Project not found or you don't have permission to delete it"),
    mkDb (projects s) (project_settings s)
         (trace s ++ [SelectProject id clerk_id]))).
Proof.
  unfold delete_project, reraise_as, Run.try_except, Run.bind,
    select_owned, delete_owned, Run.raise, Run.ret, called.
  split.
  - intros p Hp Hother.
    destruct (ownership_select f) as [e|]; [destruct e; exact Hp |].
    cbn [projects project_settings trace].
    destruct (filter (owned id clerk_id) (projects s)) as [|q qs] eqn:Hown;
      [exact Hp |].
    destruct (project_delete f) as [e | |];
      [destruct e; exact Hp | exact Hp |].
    cbn [projects project_settings trace]. rewrite Hown.
    cbn [snd projects]. apply filter_In.
    split; [exact Hp |]. unfold owned. apply negb_true_iff.
    apply andb_false_iff. right. now apply String.eqb_neq.
  - intros Hsel Hnone. rewrite Hsel. cbn [projects project_settings trace].
    assert (Hempty : filter (owned id clerk_id) (projects s) = []).
    { induction (projects s) as [|q qs IH]; [reflexivity |].
      cbn [filter]. rewrite (Hnone q) by now left.
      apply IH. intros p Hp. apply Hnone. now right. }
    now rewrite Hempty.
Qed.

End ProjectCrudFacts.

Section ProjectCrudExamples.

Import ProjectCrud.

Lemma create_project_all_or_nothing_witness :
  exists s',
    create_project
      (mkFaults Written "p7" WriteNoData None None Written)
      "Films" "all about films" "u1" empty_db =
    (Run.Fail
       (HTTPException 422
          "Failed to create project settings - project creation rolled back"),
     s') /\
    projects s' = [] /\ project_settings s' = [].
Proof.
  apply (create_project_all_or_nothing
           (mkFaults Written "p7" WriteNoData None None Written)
           "Films" "all about films" "u1" empty_db).
  - reflexivity.
  - intros p [].
  - reflexivity.
  - reflexivity.
Defined.

Lemma create_project_without_rollback_witness :
  create_project
    (mkFaults Written "p7" (WriteRaises (Exception "timeout")) None None
       Written)
    "Films" "all about films" "u1" empty_db =
  (Run.Fail
     (HTTPException 500
        "An internal server error occurred while creating project: timeout"),
   mkDb [mkProject "p7" "Films" "all about films" "u1"] []
        [InsertProject "Films" "all about films" "u1"; InsertSettings "p7"]).
Proof.
  apply (create_project_without_rollback
           (mkFaults Written "p7" (WriteRaises (Exception "timeout")) None
              None Written)
           "Films" "all about films" "u1" empty_db).
  - reflexivity.
  - reflexivity.
Defined.

Lemma delete_project_respects_owner_witness :
  delete_project (no_faults "p9") "p7" "u2"
    (mkDb [mkProject "p7" "Films" "all about films" "u1"] [] []) =
  (Run.Fail
     (HTTPException 404
        "Project not found or you don't have permission to delete it"),
   mkDb [mkProject "p7" "Films" "all about films" "u1"] []
        [SelectProject "p7" "u2"]).
Proof.
  apply (delete_project_respects_owner (no_faults "p9") "p7" "u2"
           (mkDb [mkProject "p7" "Films" "all about films" "u1"] [] [])).
  - reflexivity.
  - intros p [<- | []]. reflexivity.
Defined.

End ProjectCrudExamples.

(** ** The token cache of the authentication *)

Section TokenCache.

Import ClerkAuth.

Ltac run_auth :=
  unfold get_current_user_clerk_id, authenticate_body, check_cache,
    cache_lookup, cache_delete, cache_store, authenticate, append_log, now,
    Run.try_except, Run.bind, Run.ret, Run.raise.

Lemma bearer_shown (h : option string) :
  is_bearer h = true ->
  ("DEBUG: Auth Header present: " ++ shown_bool h ++ nl)%string =
  ("DEBUG: Auth Header present: True" ++ nl)%string.
Proof.
  destruct h as [h|]; [|discriminate]. simpl.
  now destruct (truthy h).
Qed.

Lemma hit_run (env : auth_env) (r : request) (s : auth_state)
  (clerk_id : string) (timestamp : PrimFloat.float) :
  is_bearer (authorization r) = true ->
  log_fault env ("DEBUG: Auth Header present: True" ++ nl) = None ->
  PyDict.get (token_of (authorization r)) (token_cache s)
  = Some (clerk_id, timestamp) ->
  PrimFloat.ltb (PrimFloat.sub (clock env (S (ticks s))) timestamp) CACHE_TTL
  = true ->
  get_current_user_clerk_id env r s =
  (Run.Done clerk_id,
   mkAuthState (token_cache s) (3 + ticks s)
     (calls s ++ [AppendLog ("DEBUG: Auth Header present: True" ++ nl)])).
Proof.
  intros Hb Hlog Hget Hfresh. run_auth.
  rewrite (bearer_shown _ Hb), Hlog, Hb.
  cbn [token_cache ticks calls]. rewrite Hget.
  cbn [token_cache ticks calls]. now rewrite Hfresh.
Qed.

(** X27: a request whose Bearer token is in the cache with a time stamp
    less than 60 seconds old is answered from the cache: the cached id is
    returned, the SDK is not called and the cache is left as it is. *)
Theorem cached_token_served (env : auth_env) (r : request) (s : auth_state)
  (clerk_id : string) (timestamp : PrimFloat.float) :
  is_bearer (authorization r) = true ->
  log_fault env ("DEBUG: Auth Header present: True" ++ nl) = None ->
  PyDict.get (token_of (authorization r)) (token_cache s)
  = Some (clerk_id, timestamp) ->
  PrimFloat.ltb (PrimFloat.sub (clock env (S (ticks s))) timestamp) CACHE_TTL
  = true ->
  get_current_user_clerk_id env r s =
  (Run.Done clerk_id,
   mkAuthState (token_cache s) (3 + ticks s)
     (calls s ++ [AppendLog ("DEBUG: Auth Header present: True" ++ nl)])).
Proof. apply hit_run. Qed.

(** X28: a cached entry that is 60 seconds old or older is deleted before
    the SDK is asked.  When the SDK then gives no usable id (it raises, the
    user is not signed in, the token has no "sub"), the call fails and the
    token is left without entry; when it gives one, the token is cached
    again with the new id and the time of that moment. *)
Theorem expired_entry_replaced (env : auth_env) (r : request)
  (s : auth_state) (old_id : string) (timestamp : PrimFloat.float) :
  is_bearer (authorization r) = true ->
  (forall text, log_fault env text = None) ->
  PyDict.get (token_of (authorization r)) (token_cache s)
  = Some (old_id, timestamp) ->
  PrimFloat.ltb (PrimFloat.sub (clock env (S (ticks s))) timestamp) CACHE_TTL
  = false ->
  (forall clerk_id,
      sdk_reply env r = Run.Done (mkRequestState true (Some clerk_id)) ->
      clerk_id <> "" ->
      exists s',
        get_current_user_clerk_id env r s = (Run.Done clerk_id, s') /\
        token_cache s' =
        PyDict.set (token_of (authorization r))
          (clerk_id, clock env (S (S (ticks s))))
          (del_key (token_of (authorization r)) (token_cache s)) /\
        In Authenticate (calls s')) /\
  ((exists e, sdk_reply env r = Run.Fail e) \/
   (exists state, sdk_reply env r = Run.Done state /\
                  (is_signed_in state = false \/ payload_sub state = None \/
                   payload_sub state = Some "")) ->
   exists e s',
     get_current_user_clerk_id env r s = (Run.Fail e, s') /\
     token_cache s' = del_key (token_of (authorization r)) (token_cache s)).
Proof.
  intros Hb Hlog Hget Hold. split.
  - intros clerk_id Hsdk Hne. run_auth.
    rewrite !Hlog, Hb. cbn [token_cache ticks calls]. rewrite Hget.
    cbn [token_cache ticks calls]. rewrite Hold.
    cbn [token_cache ticks calls]. rewrite Hsdk.
    cbn [is_signed_in payload_sub negb].
    apply truthy_iff in Hne. rewrite Hne.
    cbn [token_cache ticks calls]. rewrite !Hlog.
    eexists. split; [reflexivity |]. cbn [token_cache calls].
    split; [reflexivity |].
    apply in_or_app. left. apply in_or_app. right. now left.
  - intros Hbad. run_auth.
    rewrite !Hlog, Hb. cbn [token_cache ticks calls]. rewrite Hget.
    cbn [token_cache ticks calls]. rewrite Hold.
    cbn [token_cache ticks calls].
    destruct Hbad as [[e He] | (state & Hst & Hbad)].
    + rewrite He. destruct e; rewrite ?Hlog; eexists _, _;
        (split; [reflexivity |]); reflexivity.
    + rewrite Hst. destruct state as [signed sub]. cbn in Hbad.
      cbn [is_signed_in payload_sub].
      destruct Hbad as [-> | [-> | ->]].
      * cbn [negb]. rewrite !Hlog. eexists _, _;
          (split; [reflexivity |]); reflexivity.
      * destruct signed; cbn [negb]; rewrite !Hlog; eexists _, _;
          (split; [reflexivity |]); reflexivity.
      * destruct signed; cbn [negb truthy]; rewrite !Hlog; eexists _, _;
          (split; [reflexivity |]); reflexivity.
Qed.

(** What a call without cached entry does when the SDK accepts the
    request. *)
Lemma miss_stores (env : auth_env) (r : request) (s : auth_state)
  (clerk_id : string) :
  is_bearer (authorization r) = true ->
  (forall text, log_fault env text = None) ->
  PyDict.get (token_of (authorization r)) (token_cache s) = None ->
  sdk_reply env r = Run.Done (mkRequestState true (Some clerk_id)) ->
  clerk_id <> "" ->
  get_current_user_clerk_id env r s =
  (Run.Done clerk_id,
   mkAuthState
     (PyDict.set (token_of (authorization r))
        (clerk_id, clock env (S (ticks s))) (token_cache s))
     (3 + ticks s)
     (calls s
      ++ [AppendLog ("DEBUG: Auth Header present: True" ++ nl); Authenticate;
          AppendLog ("DEBUG: Auth Success. Clerk ID: " ++ clerk_id ++ nl)])).
Proof.
  intros Hb Hlog Hget Hsdk Hne. run_auth.
  rewrite (bearer_shown _ Hb), !Hlog, Hb. cbn [token_cache ticks calls].
  rewrite Hget. cbn [token_cache ticks calls]. rewrite Hsdk.
  cbn [is_signed_in payload_sub negb].
  apply truthy_iff in Hne. rewrite Hne.
  cbn [token_cache ticks calls]. rewrite !Hlog.
  cbn [token_cache ticks calls]. now rewrite <- !app_assoc.
Qed.

(** X29: an id obtained from the SDK is served from the cache afterwards:
    after a call with a Bearer token that the SDK accepted, a second call
    with the same header made less than 60 seconds after the id was stored
    returns the same id without calling the SDK, whatever the SDK would
    answer then. *)
Theorem accepted_token_is_cached (env1 env2 : auth_env) (r : request)
  (s : auth_state) (clerk_id : string) :
  is_bearer (authorization r) = true ->
  (forall text, log_fault env1 text = None) ->
  (forall text, log_fault env2 text = None) ->
  PyDict.get (token_of (authorization r)) (token_cache s) = None ->
  sdk_reply env1 r = Run.Done (mkRequestState true (Some clerk_id)) ->
  clerk_id <> "" ->
  PrimFloat.ltb
    (PrimFloat.sub (clock env2 (4 + ticks s)) (clock env1 (S (ticks s))))
    CACHE_TTL = true ->
  exists s1 s2,
    get_current_user_clerk_id env1 r s = (Run.Done clerk_id, s1) /\
    get_current_user_clerk_id env2 r s1 = (Run.Done clerk_id, s2) /\
    token_cache s2 = token_cache s1 /\
    calls s2 =
    calls s1 ++ [AppendLog ("DEBUG: Auth Header present: True" ++ nl)].
Proof.
  intros Hb Hlog1 Hlog2 Hget Hsdk Hne Hfresh.
  eexists _, _. split; [now apply miss_stores |].
  split.
  - apply (hit_run env2 r _ clerk_id (clock env1 (S (ticks s))) Hb (Hlog2 _)).
    + cbn [token_cache]. apply get_set_same.
    + exact Hfresh.
  - split; reflexivity.
Qed.

Lemma check_cache_none (env : auth_env) (h : option string)
  (s0 : auth_state) :
  PyDict.get (token_of h) (token_cache s0) = None ->
  check_cache env h s0 = (Run.Done None, s0).
Proof.
  intros Hget. unfold check_cache.
  destruct (is_bearer h); [|reflexivity].
  unfold Run.bind, cache_lookup. now rewrite Hget.
Qed.

Ltac run_auth_body :=
  unfold get_current_user_clerk_id, authenticate_body, cache_store,
    authenticate, append_log, now, Run.try_except, Run.bind, Run.ret,
    Run.raise.

(** X30: with a writable log and nothing cached for the token of the
    request, every failure ends as an HTTPException and leaves the cache as
    it was: the SDK's "not signed in" and a payload without "sub" give
    status 401, an exception that carries a status code and a detail gives
    that status and detail, any other exception gives status 500 "Clerk SDK
    Failed. <error>". *)
Theorem authentication_failures (env : auth_env) (r : request)
  (s : auth_state) :
  (forall text, log_fault env text = None) ->
  PyDict.get (token_of (authorization r)) (token_cache s) = None ->
  (forall state,
      sdk_reply env r = Run.Done state -> is_signed_in state = false ->
      fst (get_current_user_clerk_id env r s) =
      Run.Fail (AuthHTTP 401 "User is not signed in")) /\
  (forall state,
      sdk_reply env r = Run.Done state -> is_signed_in state = true ->
      payload_sub state = None \/ payload_sub state = Some "" ->
      fst (get_current_user_clerk_id env r s) =
      Run.Fail (AuthHTTP 401 "Clerk ID not found in token")) /\
  (forall status_code detail text,
      sdk_reply env r = Run.Fail (Attributed status_code detail text) ->
      fst (get_current_user_clerk_id env r s) =
      Run.Fail (AuthHTTP status_code detail)) /\
  (forall text,
      sdk_reply env r = Run.Fail (Plain text) ->
      fst (get_current_user_clerk_id env r s) =
      Run.Fail (AuthHTTP 500 ("Clerk SDK Failed. " ++ text))) /\
  (forall e,
      fst (get_current_user_clerk_id env r s) = Run.Fail e ->
      (exists status_code detail, e = AuthHTTP status_code detail) /\
      token_cache (snd (get_current_user_clerk_id env r s)) = token_cache s).
Proof.
  intros Hlog Hget.
  assert (Hrun :
    get_current_user_clerk_id env r s =
    let s1 :=
      mkAuthState (token_cache s) (S (ticks s))
        (calls s
         ++ [AppendLog ("DEBUG: Auth Header present: "
                        ++ shown_bool (authorization r) ++ nl);
             Authenticate]) in
    match sdk_reply env r with
    | Run.Fail (AuthHTTP status_code detail) =>
        (Run.Fail (AuthHTTP status_code detail),
         mkAuthState (token_cache s1) (ticks s1)
           (calls s1
            ++ [AppendLog ("DEBUG: Auth HTTPException: " ++ detail ++ nl)]))
    | Run.Fail (Attributed status_code detail _) =>
        (Run.Fail (AuthHTTP status_code detail), s1)
    | Run.Fail (Plain text) =>
        (Run.Fail (AuthHTTP 500 ("Clerk SDK Failed. " ++ text)),
         mkAuthState (token_cache s1) (ticks s1)
           (calls s1
            ++ [AppendLog ("DEBUG: Clerk Auth Error: " ++ text ++ nl)]))
    | Run.Done state =>
        if negb (is_signed_in state) then
          (Run.Fail (AuthHTTP 401 "User is not signed in"),
           mkAuthState (token_cache s1) (ticks s1)
             (calls s1
              ++ [AppendLog ("DEBUG: Auth HTTPException: "
                             ++ "User is not signed in" ++ nl)]))
        else
          match payload_sub state with
          | Some clerk_id =>
              if truthy clerk_id then
                (Run.Done clerk_id,
                 if is_bearer (authorization r) then
                   mkAuthState
                     (PyDict.set (token_of (authorization r))
                        (clerk_id, clock env (ticks s1)) (token_cache s1))
                     (S (S (ticks s1)))
                     (calls s1
                      ++ [AppendLog ("DEBUG: Auth Success. Clerk ID: "
                                     ++ clerk_id ++ nl)])
                 else
                   mkAuthState (token_cache s1) (S (ticks s1))
                     (calls s1
                      ++ [AppendLog ("DEBUG: Auth Success. Clerk ID: "
                                     ++ clerk_id ++ nl)]))
              else
                (Run.Fail (AuthHTTP 401 "Clerk ID not found in token"),
                 mkAuthState (token_cache s1) (ticks s1)
                   (calls s1
                    ++ [AppendLog ("DEBUG: Auth HTTPException: "
                                   ++ "Clerk ID not found in token" ++ nl)]))
          | None =>
              (Run.Fail (AuthHTTP 401 "Clerk ID not found in token"),
               mkAuthState (token_cache s1) (ticks s1)
                 (calls s1
                  ++ [AppendLog ("DEBUG: Auth HTTPException: "
                                 ++ "Clerk ID not found in token" ++ nl)]))
          end
    end).
  { run_auth_body. rewrite !Hlog. cbn [token_cache ticks calls].
    rewrite check_cache_none by exact Hget.
    cbn [token_cache ticks calls].
    destruct (sdk_reply env r) as [state | e].
    - destruct (negb (is_signed_in state)); rewrite ?Hlog;
        cbn [token_cache ticks calls];
        [rewrite <- !app_assoc; reflexivity |].
      destruct (payload_sub state) as [clerk_id|]; rewrite ?Hlog;
        cbn [token_cache ticks calls];
        [|rewrite <- !app_assoc; reflexivity].
      destruct (truthy clerk_id); rewrite ?Hlog;
        cbn [token_cache ticks calls];
        [|rewrite <- !app_assoc; reflexivity].
      destruct (is_bearer (authorization r));
        cbn [token_cache ticks calls]; rewrite ?Hlog;
        cbn [token_cache ticks calls]; rewrite <- !app_assoc; reflexivity.
    - destruct e; rewrite ?Hlog; cbn [token_cache ticks calls];
        rewrite <- ?app_assoc; reflexivity. }
  rewrite Hrun. cbv zeta.
  split; [|split; [|split; [|split]]].
  - intros state Hs Hsigned. now rewrite Hs, Hsigned.
  - intros state Hs Hsigned Hsub. rewrite Hs, Hsigned. cbn [negb].
    now destruct Hsub as [-> | ->].
  - intros status_code detail text Hs. now rewrite Hs.
  - intros text Hs. now rewrite Hs.
  - intros e. destruct (sdk_reply env r) as [state | e'].
    + destruct (negb (is_signed_in state)).
      * cbn [fst snd token_cache]. intros H. injection H as <-.
        split; [now eexists _, _ | reflexivity].
      * destruct (payload_sub state) as [clerk_id|].
        -- destruct (truthy clerk_id); [discriminate |].
           cbn [fst snd token_cache]. intros H. injection H as <-.
           split; [now eexists _, _ | reflexivity].
        -- cbn [fst snd token_cache]. intros H. injection H as <-.
           split; [now eexists _, _ | reflexivity].
    + destruct e'; cbn [fst snd token_cache]; intros H; injection H as <-;
        (split; [now eexists _, _ | reflexivity]).
Qed.

End TokenCache.

Section TokenCacheExamples.

Import PrimFloat ClerkAuth.

Lemma cached_token_served_witness :
  get_current_user_clerk_id
    (steady_env 1030.5%float (Run.Fail (Plain "offline")))
    (bearer "tok-1")
    (mkAuthState [("tok-1", ("user_1", 1000%float))] 0 []) =
  (Run.Done "user_1",
   mkAuthState [("tok-1", ("user_1", 1000%float))] 3
     [AppendLog ("DEBUG: Auth Header present: True" ++ nl)]).
Proof.
  apply (cached_token_served
           (steady_env 1030.5%float (Run.Fail (Plain "offline")))
           (bearer "tok-1")
           (mkAuthState [("tok-1", ("user_1", 1000%float))] 0 [])
           "user_1" 1000%float); reflexivity.
Defined.

Lemma expired_entry_replaced_witness :
  exists e s',
    get_current_user_clerk_id
      (steady_env 1060%float (Run.Done (mkRequestState false None)))
      (bearer "tok-1")
      (mkAuthState [("tok-1", ("user_1", 1000%float))] 0 []) =
    (Run.Fail e, s') /\
    token_cache s' = [].
Proof.
  destruct (expired_entry_replaced
              (steady_env 1060%float (Run.Done (mkRequestState false None)))
              (bearer "tok-1")
              (mkAuthState [("tok-1", ("user_1", 1000%float))] 0 [])
              "user_1" 1000%float) as [_ Hfail].
  - reflexivity.
  - reflexivity.
  - reflexivity.
  - reflexivity.
  - apply Hfail. right. eexists. split; [reflexivity |]. now left.
Defined.

Lemma accepted_token_is_cached_witness :
  exists s1 s2,
    get_current_user_clerk_id
      (steady_env 1000%float
         (Run.Done (mkRequestState true (Some "user_1"))))
      (bearer "tok-1") empty_state = (Run.Done "user_1", s1) /\
    get_current_user_clerk_id
      (steady_env 1059%float (Run.Fail (Plain "offline")))
      (bearer "tok-1") s1 = (Run.Done "user_1", s2) /\
    token_cache s2 = token_cache s1 /\
    calls s2 =
    calls s1 ++ [AppendLog ("DEBUG: Auth Header present: True" ++ nl)].
Proof.
  apply (accepted_token_is_cached
           (steady_env 1000%float
              (Run.Done (mkRequestState true (Some "user_1"))))
           (steady_env 1059%float (Run.Fail (Plain "offline")))
           (bearer "tok-1") empty_state "user_1");
    try reflexivity.
  discriminate.
Defined.

Lemma authentication_failures_witness :
  fst (get_current_user_clerk_id
         (steady_env 1000%float
            (Run.Fail (Attributed 403 "Forbidden" "forbidden")))
         (bearer "tok-1") empty_state) =
  Run.Fail (AuthHTTP 403 "Forbidden").
Proof.
  destruct (authentication_failures
              (steady_env 1000%float
                 (Run.Fail (Attributed 403 "Forbidden" "forbidden")))
              (bearer "tok-1") empty_state)
    as (_ & _ & Hattr & _).
  - reflexivity.
  - reflexivity.
  - apply (Hattr 403%Z "Forbidden" "forbidden"). reflexivity.
Defined.

End TokenCacheExamples.
